(** * CourseHub server: enrollment admission control and role-based authorization

    A shallow embedding of the Express/MongoDB handlers of the CourseHub
    server.  Two listings of the server are embedded:

    - [Full]: the server listing that follows the README (roles, course
      status, conditional seat claim with compensation, cascading delete);
    - [Legacy]: [index.js] (no roles, unconditional seat arithmetic, a free
      seat-adjust route).

    Each [await]ed driver call is one store primitive; a handler is a program
    in a small state-and-exception monad whose [try]/[catch] mirrors the
    source.  Numbers are kept by their BSON type (integer or Double); what
    the JavaScript built-ins return, how the server adds Doubles and what
    its [$set] does with a dotted field name is left to the class
    [Platform], with the laws the proofs use.  [Queries] holds the routes of
    the full server that only read; what the query engine does with a
    pattern, a sort and an average is left to the class [Engine]. *)

From Stdlib Require Import ZArith QArith Qcanon Ascii String.
From stdpp Require Import base numbers option list gmap strings fin_maps pretty.

Close Scope Q_scope.
Close Scope Qc_scope.
Open Scope Z_scope.
Open Scope string_scope.

(** ** Values and documents *)

(** A JavaScript number that is not [NaN], and a BSON Double that is not
    [NaN]: a finite value, or an infinity.  ([NaN] never travels in a JSON
    body; where a computation gives it, the result is a [None].) *)
Inductive double : Type :=
| Fin (q : Qc)
| Inf (negative : bool).

#[global] Instance double_eq_dec : EqDecision double.
Proof. solve_decision. Defined.

Definition of_Z (z : Z) : double := Fin (Qc_of_Z z).

(** [x < y] and [x <= y] between numbers. *)
Definition dlt (x y : double) : bool :=
  match x, y with
  | Fin a, Fin b => bool_decide (Qclt a b)
  | Fin _, Inf negative => negb negative
  | Inf negative, Fin _ => negative
  | Inf a, Inf b => a && negb b
  end.
Definition dle (x y : double) : bool := negb (dlt y x).

(** A JSON/BSON value as it travels in a request body or sits in a stored
    document.  Numbers are kept by their BSON type: [VNum] is an integer
    (Int32 or Int64), [VDbl] a Double.  A number of a request body stands
    as the driver serialises it, an integer within Int32 as [VNum] and any
    other number as [VDbl].  [VObj] is an embedded document, by the text of
    its content: no handler embedded here looks inside one, but an update
    with a dotted field name can create one.  Arrays are left out. *)
Inductive value : Type :=
| VNull
| VBool (b : bool)
| VNum (z : Z)
| VDbl (x : double)
| VStr (s : string)
| VDate (t : Z)
| VObj (content : string).

#[global] Instance value_eq_dec : EqDecision value.
Proof. solve_decision. Defined.

(** A document: field name to value.  A field that is [undefined] in
    JavaScript is a missing key. *)
Abbreviation doc := (gmap string value).

(** JavaScript truthiness of [x] in [!x] and [x || y]. *)
Definition truthy (v : option value) : bool :=
  match v with
  | None | Some VNull => false
  | Some (VBool b) => b
  | Some (VNum z) => negb (Z.eqb z 0)
  | Some (VDbl (Fin q)) => negb (bool_decide (q = Qc_of_Z 0))
  | Some (VDbl (Inf _)) => true
  | Some (VStr s) => negb (String.eqb s "")
  | Some (VDate _) => true
  | Some (VObj _) => true
  end.

(** [x == null]: [undefined] or [null]. *)
Definition nullish (v : option value) : bool :=
  match v with
  | None | Some VNull => true
  | _ => false
  end.

(** [x === s] for a string literal or string variable [s]. *)
Definition is_str (v : option value) (s : string) : bool :=
  match v with
  | Some (VStr t) => String.eqb t s
  | _ => false
  end.

(** [typeof x === 'number']. *)
Definition is_number (v : option value) : bool :=
  match v with
  | Some (VNum _) | Some (VDbl _) => true
  | _ => false
  end.

(** A number, for [<] and [>] between numbers. *)
Definition as_number (v : value) : option double :=
  match v with
  | VNum z => Some (of_Z z)
  | VDbl x => Some x
  | _ => None
  end.

(** A finite number as a rational. *)
Definition as_Qc (v : value) : option Qc :=
  match v with
  | VNum z => Some (Qc_of_Z z)
  | VDbl (Fin q) => Some q
  | _ => None
  end.

(** [x < n] and [x > n] for a number [x] and an integer literal [n]. *)
Definition lt_lit (v : option value) (n : Z) : bool :=
  match v ≫= as_number with
  | Some x => dlt x (of_Z n)
  | None => false
  end.
Definition gt_lit (v : option value) (n : Z) : bool :=
  match v ≫= as_number with
  | Some x => dlt (of_Z n) x
  | None => false
  end.

(** [x || y] on values. *)
Definition or_else (v : option value) (y : value) : value :=
  match v with
  | Some x => if truthy v then x else y
  | None => y
  end.

(** A field written from a JavaScript expression: [undefined] is stored as
    [null]. *)
Definition stored (v : option value) : value := default VNull v.

(** [list.includes(x)] for a list of string literals. *)
Definition includes (l : list string) (v : option value) : bool :=
  existsb (is_str v) l.

(** MongoDB [{$gt: 0}]: only a number can match. *)
Definition gt0 (v : option value) : bool :=
  match v with
  | Some (VNum z) => Z.ltb 0 z
  | Some (VDbl x) => dlt (of_Z 0) x
  | _ => false
  end.

(** The range of an Int32 and of an Int64. *)
Definition int32 (z : Z) : bool := Z.leb (- 2 ^ 31) z && Z.ltb z (2 ^ 31).
Definition int64 (z : Z) : bool := Z.leb (- 2 ^ 63) z && Z.ltb z (2 ^ 63).

(** The sum of two Int64 leaves Int64. *)
Definition overflows (a b : Z) : bool :=
  int64 a && int64 b && negb (int64 (a + b)).

(** A JavaScript number as the driver serialises it: an integer within
    Int32 as an Int32, anything else as a Double. *)
Definition bson_number (x : double) : value :=
  match x with
  | Fin q =>
      if Pos.eqb (Qden q) 1 && int32 (Qnum q) then VNum (Qnum q) else VDbl x
  | Inf _ => VDbl x
  end.

(** A value a handler passes on as a JavaScript number, as the driver
    serialises it. *)
Definition serialised (v : value) : value :=
  match as_number v with
  | Some x => bson_number x
  | None => v
  end.

(** [delete obj.k1; delete obj.k2; ...]. *)
Definition strip (ks : list string) (d : doc) : doc :=
  foldr delete d ks.

(** *** Field names of an update

    In [{ $set: { name: v } }] the server reads [name] as a path: a dot
    separates the top-level field from what lies inside it. *)

(** The top-level field a path starts with. *)
Fixpoint root (f : string) : string :=
  match f with
  | EmptyString => EmptyString
  | String a f' => if Ascii.eqb a "." then EmptyString else String a (root f')
  end.

(** A character a plain field name can hold: no dot, no NUL. *)
Definition bare (a : ascii) : bool :=
  negb (Ascii.eqb a ".") && negb (Ascii.eqb a zero).

Fixpoint all_bare (k : string) : bool :=
  match k with
  | EmptyString => true
  | String a k' => bare a && all_bare k'
  end.

(** A plain field name: a top-level name the server stores as it is.  It
    is not empty, not [_id], has no dot and no NUL, and does not start with
    a dollar sign. *)
Definition plain (k : string) : bool :=
  match k with
  | EmptyString => false
  | String a _ =>
      negb (Ascii.eqb a "$") && all_bare k && negb (String.eqb k "_id")
  end.

(** ** The JavaScript, driver and server built-ins the handlers call *)

Class Platform := {
  (** MongoDB object identifiers. *)
  ObjId : Type;
  ObjId_eq_dec :: EqDecision ObjId;
  ObjId_countable :: Countable ObjId;
  (** [ObjectId.isValid(x)] is [is_Some (parseObjectId x)], and
      [new ObjectId(x)] is then the identifier. *)
  parseObjectId : value → option ObjId;
  (** [parseInt(x, 10)]; [None] is [NaN]. *)
  parseInt10 : value → option double;
  (** [parseFloat(x)]; [None] is [NaN]. *)
  parseFloat : value → option double;
  (** ToNumber on a string, as in ["5" <= 0]; [None] is [NaN]. *)
  stringToNumber : string → option double;
  (** [new Date(x)]. *)
  newDate : value → value;
  (** [new Date().toISOString().split('T')[0]] at the given instant. *)
  isoDay : Z → string;
  (** [s.trim()]. *)
  trim : string → string;
  (** The sum of two Doubles as the server computes it, rounding
      included; [None] is [NaN]. *)
  dadd : double → double → option double;
  (** Whether the server accepts [{ $set: fields }] as an update. *)
  setValid : doc → bool;
  (** [{ $set: fields }] on a matched document; [None] is a write error. *)
  applySet : doc → doc → option doc;
  (** Plain names are set as top-level fields. *)
  setValid_plain : ∀ fields : doc,
    fields ≠ ∅ → (∀ k, is_Some (fields !! k) → plain k = true) →
    setValid fields = true;
  applySet_plain : ∀ fields d : doc,
    fields ≠ ∅ → (∀ k, is_Some (fields !! k) → plain k = true) →
    applySet fields d = Some (fields ∪ d);
  (** What an update can do to the top-level field [k]: leave it, set it
      to the value given under that very name, or, through a dotted name
      that starts with [k], put an embedded document where there was none
      or change the embedded document that was there. *)
  applySet_frame : ∀ (fields d d' : doc) (k : string),
    applySet fields d = Some d' →
    d' !! k = d !! k
    ∨ (is_Some (fields !! k) ∧ d' !! k = fields !! k)
    ∨ (∃ f content, is_Some (fields !! f) ∧ f ≠ k ∧ root f = k
         ∧ d' !! k = Some (VObj content)
         ∧ (d !! k = None ∨ ∃ before, d !! k = Some (VObj before)));
}.

(** What an awaited call does: it returns, or it throws. *)
Inductive outcome (A : Type) : Type :=
| Returned (a : A)
| Threw.
Arguments Returned {A} a.
Arguments Threw {A}.

Section Store.
Context `{Platform}.

(** ToNumber, as used by the relational comparison [x <= 0]; [None] is
    [NaN], on which every comparison is false. *)
Definition toNumber (v : option value) : option double :=
  match v with
  | None => None
  | Some VNull => Some (of_Z 0)
  | Some (VBool b) => Some (of_Z (if b then 1 else 0))
  | Some (VNum z) => Some (of_Z z)
  | Some (VDbl x) => Some x
  | Some (VStr s) => stringToNumber s
  | Some (VDate t) => Some (of_Z t)
  | Some (VObj _) => None
  end.

(** [x <= 0]. *)
Definition le0 (v : option value) : bool :=
  match v with
  | Some (VNum z) => Z.leb z 0
  | _ => match toNumber v with
         | Some x => dle x (of_Z 0)
         | None => false
         end
  end.

(** MongoDB [$inc] of one field by the number [delta]: a missing field is
    created with the increment, a numeric field is added to, anything else is
    a write error ([None]).  Two integers add exactly, and a sum that
    leaves Int64 is a write error; with a Double on either side the sum is
    the Double the server computes.  (A sum that is [NaN] has no value here and
    is taken with the write errors; the increments of the full server are 1
    and -1, and never give one.) *)
Definition add_number (v delta : value) : option value :=
  match v, delta with
  | VNum a, VNum b => if overflows a b then None else Some (VNum (a + b))
  | VNum a, VDbl y => VDbl <$> dadd (of_Z a) y
  | VDbl x, VNum b => VDbl <$> dadd x (of_Z b)
  | VDbl x, VDbl y => VDbl <$> dadd x y
  | _, _ => None
  end.

Definition inc (k : string) (delta : value) (d : doc) : option doc :=
  match d !! k with
  | None => Some (<[k := delta]> d)
  | Some v => (λ v', <[k := v']> d) <$> add_number v delta
  end.

(** [$inc] with several fields: all of them apply, or the update fails. *)
Fixpoint inc_all (incs : list (string * value)) (d : doc) : option doc :=
  match incs with
  | [] => Some d
  | (k, delta) :: rest => inc k delta d ≫= inc_all rest
  end.

(** ** The collections *)

Record Enrollment := {
  e_id : ObjId;
  userEmail : string;
  courseId : value;
  courseTitle : value;
  enrolledAt : Z;
}.

Record Review := {
  r_id : ObjId;
  courseObjectId : ObjId;
  r_courseId : string;
  r_userEmail : string;
  userName : value;
  userPhoto : value;
  rating : value;
  comment : string;
  r_createdAt : Z;
}.

(** [courses] is keyed by [_id], [users] by [email]; [enrollments] and
    [reviews] are kept in insertion order, which is the order in which
    [findOne] and [deleteOne] meet the documents. *)
Record Store := {
  courses : gmap ObjId doc;
  users : gmap string doc;
  enrollments : list Enrollment;
  reviews : list Review;
}.

Definition with_courses (f : gmap ObjId doc → gmap ObjId doc) (s : Store) : Store :=
  {| courses := f (courses s); users := users s;
     enrollments := enrollments s; reviews := reviews s |}.
Definition with_users (f : gmap string doc → gmap string doc) (s : Store) : Store :=
  {| courses := courses s; users := f (users s);
     enrollments := enrollments s; reviews := reviews s |}.
Definition with_enrollments (f : list Enrollment → list Enrollment) (s : Store) : Store :=
  {| courses := courses s; users := users s;
     enrollments := f (enrollments s); reviews := reviews s |}.
Definition with_reviews (f : list Review → list Review) (s : Store) : Store :=
  {| courses := courses s; users := users s;
     enrollments := enrollments s; reviews := f (reviews s) |}.

(** Remove the first element that satisfies [p]; the number removed. *)
Fixpoint remove_first {A} (p : A → bool) (l : list A) : nat * list A :=
  match l with
  | [] => (0%nat, [])
  | x :: l' => if p x then (1%nat, l')
               else let '(n, r) := remove_first p l' in (n, x :: r)
  end.

(** Remove every element that satisfies [p]; the number removed. *)
Definition remove_all {A} (p : A → bool) (l : list A) : nat * list A :=
  (length (List.filter p l), List.filter (λ x, negb (p x)) l).

(** The result of [updateOne]. *)
Record UpdateResult := { matchedCount : nat; modifiedCount : nat }.

(** ** Driver calls

    One definition per call the handlers make.  A call either returns a
    result and a new store, or throws ([None]) and leaves the store as it
    was. *)
Definition Call (A : Type) : Type := Store → option (A * Store).

Definition read {A} (f : Store → A) : Call A := λ s, Some (f s, s).

(** [usersCollection.findOne({ email })]. *)
Definition users_findOne (email : string) : Call (option doc) :=
  read (λ s, users s !! email).

(** [coursesCollection.findOne({ _id })]. *)
Definition courses_findOne (oid : ObjId) : Call (option doc) :=
  read (λ s, courses s !! oid).

(** [coursesCollection.insertOne(d)] with the driver-generated [_id]; a
    duplicate key is a write error. *)
Definition courses_insertOne (oid : ObjId) (d : doc) : Call ObjId := λ s,
  match courses s !! oid with
  | Some _ => None
  | None => Some (oid, with_courses <[oid := d]> s)
  end.

(** [coursesCollection.updateOne({ _id }, { $set: fields })]: an update the
    server does not accept is a write error, whether or not a document is
    matched. *)
Definition courses_set (oid : ObjId) (fields : doc) : Call UpdateResult := λ s,
  if negb (setValid fields) then None else
  match courses s !! oid with
  | None => Some ({| matchedCount := 0; modifiedCount := 0 |}, s)
  | Some d =>
      match applySet fields d with
      | None => None
      | Some d' =>
          Some ({| matchedCount := 1;
                   modifiedCount := if decide (d' = d) then 0 else 1 |},
                with_courses <[oid := d']> s)
      end
  end.

(** [coursesCollection.updateOne({ _id, ...guard }, { $inc: incs })]: the
    document is matched by [_id] and the extra predicate [guard]. *)
Definition courses_inc (oid : ObjId) (guard : doc → bool)
    (incs : list (string * value)) : Call UpdateResult := λ s,
  match courses s !! oid with
  | None => Some ({| matchedCount := 0; modifiedCount := 0 |}, s)
  | Some d =>
      if guard d then
        match inc_all incs d with
        | None => None
        | Some d' =>
            Some ({| matchedCount := 1;
                     modifiedCount := if decide (d' = d) then 0 else 1 |},
                  with_courses <[oid := d']> s)
        end
      else Some ({| matchedCount := 0; modifiedCount := 0 |}, s)
  end.

(** [coursesCollection.deleteOne({ _id })]; the deleted count. *)
Definition courses_deleteOne (oid : ObjId) : Call nat := λ s,
  match courses s !! oid with
  | None => Some (0%nat, s)
  | Some _ => Some (1%nat, with_courses (delete oid) s)
  end.

Definition same_pair (email : string) (cid : value) (e : Enrollment) : bool :=
  String.eqb (userEmail e) email && bool_decide (courseId e = cid).

(** [enrollmentsCollection.findOne({ userEmail, courseId })]. *)
Definition enrollments_findOne (email : string) (cid : value) : Call (option Enrollment) :=
  read (λ s, List.find (same_pair email cid) (enrollments s)).

(** [enrollmentsCollection.countDocuments({ userEmail })], also
    [find({ userEmail }).toArray().length]. *)
Definition enrollments_count (email : string) : Call nat :=
  read (λ s, length (List.filter (λ e, String.eqb (userEmail e) email) (enrollments s))).

(** [enrollmentsCollection.insertOne({...})] with the driver-generated
    [_id]; a duplicate key is a write error. *)
Definition enrollments_insertOne (e : Enrollment) : Call ObjId := λ s,
  if existsb (λ e', bool_decide (e_id e' = e_id e)) (enrollments s) then None
  else Some (e_id e, with_enrollments (λ l, (l ++ [e])%list) s).

(** [enrollmentsCollection.deleteOne({ _id })]. *)
Definition enrollments_deleteById (i : ObjId) : Call nat := λ s,
  let '(n, l) := remove_first (λ e, bool_decide (e_id e = i)) (enrollments s) in
  Some (n, with_enrollments (λ _, l) s).

(** [enrollmentsCollection.deleteOne({ userEmail, courseId })]. *)
Definition enrollments_deleteOne (email : string) (cid : value) : Call nat := λ s,
  let '(n, l) := remove_first (same_pair email cid) (enrollments s) in
  Some (n, with_enrollments (λ _, l) s).

(** [enrollmentsCollection.deleteMany({ courseId })]. *)
Definition enrollments_deleteMany (cid : value) : Call nat := λ s,
  let '(n, l) := remove_all (λ e, bool_decide (courseId e = cid)) (enrollments s) in
  Some (n, with_enrollments (λ _, l) s).

(** [reviewsCollection.deleteMany({ courseObjectId })]. *)
Definition reviews_deleteMany (oid : ObjId) : Call nat := λ s,
  let '(n, l) := remove_all (λ r, bool_decide (courseObjectId r = oid)) (reviews s) in
  Some (n, with_reviews (λ _, l) s).

(** [usersCollection.updateOne({ email }, { $set, $setOnInsert }, { upsert: true })];
    the upserted and the modified count.  The one caller gives fixed, plain
    field names, which the server sets as top-level fields. *)
Definition users_upsert (email : string) (set_fields insert_fields : doc) : Call (nat * nat) := λ s,
  match users s !! email with
  | None => Some ((1%nat, 0%nat), with_users <[email := set_fields ∪ insert_fields]> s)
  | Some d =>
      let d' := set_fields ∪ d in
      Some ((0%nat, if decide (d' = d) then 0%nat else 1%nat),
            with_users <[email := d']> s)
  end.

(** [usersCollection.updateOne({ email }, { $set: fields })], for the plain
    field name the one caller gives. *)
Definition users_set (email : string) (fields : doc) : Call UpdateResult := λ s,
  match users s !! email with
  | None => Some ({| matchedCount := 0; modifiedCount := 0 |}, s)
  | Some d =>
      let d' := fields ∪ d in
      Some ({| matchedCount := 1;
               modifiedCount := if decide (d' = d) then 0 else 1 |},
            with_users <[email := d']> s)
  end.

(** [reviewsCollection.findOne({ userEmail, courseObjectId })]. *)
Definition reviews_findOne (email : string) (oid : ObjId) : Call (option Review) :=
  read (λ s, List.find (λ r, String.eqb (r_userEmail r) email
                             && bool_decide (courseObjectId r = oid)) (reviews s)).

(** [reviewsCollection.insertOne(r)]. *)
Definition reviews_insertOne (r : Review) : Call ObjId := λ s,
  if existsb (λ r', bool_decide (r_id r' = r_id r)) (reviews s) then None
  else Some (r_id r, with_reviews (λ l, (l ++ [r])%list) s).

(** ** Requests in flight

    A handler runs against a connection: the store, and how many further
    driver calls the storage will answer before it fails ([None]: it does not
    fail during this request). *)
Record Conn := { budget : option nat; data : Store }.

Definition M (A : Type) : Type := Conn → outcome A * Conn.

#[global] Instance M_ret : MRet M := λ A a c, (Returned a, c).

#[global] Instance M_bind : MBind M := λ A B k m c,
  match m c with
  | (Returned a, c') => k a c'
  | (Threw, c') => (Threw, c')
  end.

(** [await call]: throws when the storage is down or the call itself fails. *)
Definition await {A} (call : Call A) : M A := λ c,
  match budget c with
  | Some O => (Threw, c)
  | b =>
      match call (data c) with
      | None => (Threw, {| budget := Nat.pred <$> b; data := data c |})
      | Some (a, s') => (Returned a, {| budget := Nat.pred <$> b; data := s' |})
      end
  end.

(** [throw]. *)
Definition throw {A} : M A := λ c, (Threw, c).

(** A connection whose storage answers every call of the request. *)
Definition healthy (s : Store) : Conn := {| budget := None; data := s |}.

End Store.

(** ** Requests and responses *)

(** The cookie a request carries, as [jwt.verify] sees it.  An empty
    [email] stands for a payload without an email ([decoded.email] is
    [undefined]). *)
Inductive credential : Type :=
| NoToken
| BadToken
| Token (email : string).

Section Http.
Context `{Platform}.

(** [res.status(code).json({ error | message: msg, [insertedId | enrolledId]: id })]. *)
Inductive response : Type :=
| Reply (code : Z) (msg : string)
| ReplyId (code : Z) (msg : string) (id : ObjId).

Definition code (r : response) : Z :=
  match r with Reply c _ | ReplyId c _ _ => c end.

Definition message (r : response) : string :=
  match r with Reply _ m | ReplyId _ m _ => m end.

(** A route handler: it answers and leaves the connection behind. *)
Definition Handler : Type := Conn → response * Conn.

(** [return res.status(..).json(..)] outside any [try]. *)
Definition respond (r : response) : Handler := λ c, (r, c).

(** [try { body } catch (err) { res.status(..).json(..) }]. *)
Definition try_catch (body : M response) (on_throw : response) : Handler := λ c,
  match body c with
  | (Returned r, c') => (r, c')
  | (Threw, c') => (on_throw, c')
  end.

End Http.

(** ** The full server (the listing after the README) *)

Module Full.
Section Handlers.
Context `{Platform}.

(** [verifyJWT]: the decoded email, or the rejection. *)
Definition verifyJWT (cred : credential) : response + string :=
  match cred with
  | NoToken => inl (Reply 401 "Unauthorized: No token provided.")
  | BadToken => inl (Reply 403 "Forbidden: Invalid or expired token.")
  | Token email => inr email
  end.

(** [user?.role || 'student']. *)
Definition role_of (user : option doc) : value :=
  match user ≫= (.!! "role") with
  | Some r => if truthy (Some r) then r else VStr "student"
  | None => VStr "student"
  end.

(** [getUserRole]: the role for [next()], or the rejection. *)
Definition getUserRole (email : string) : Conn → (response + value) * Conn := λ c,
  if String.eqb email "" then
    (inl (Reply 401 "Unauthorized: Missing user email in token."), c)
  else
    match await (users_findOne email) c with
    | (Returned user, c') => (inr (role_of user), c')
    | (Threw, c') => (inl (Reply 500 "Server error checking user role."), c')
    end.

(** [getRoleIfAuthenticated]: always reaches [next()], with this role.
    ([isDbConnected] is set before any route is registered and never
    cleared afterwards, so its test is always passed.) *)
Definition getRoleIfAuthenticated (cred : credential) : Conn → value * Conn := λ c,
  match cred with
  | NoToken | BadToken => (VStr "guest", c)
  | Token email =>
      match await (users_findOne email) c with
      | (Returned user, c') => (role_of user, c')
      | (Threw, c') => (VStr "guest", c')
      end
  end.

(** [verifyAdmin]: [None] is [next()]. *)
Definition verifyAdmin (role : value) : option response :=
  if negb (is_str (Some role) "admin")
  then Some (Reply 403 "Forbidden: Requires Admin role.")
  else None.

(** [verifyInstructor]: [None] is [next()]. *)
Definition verifyInstructor (role : value) : option response :=
  if negb (is_str (Some role) "instructor") && negb (is_str (Some role) "admin")
  then Some (Reply 403 "Forbidden: Requires Instructor or Admin role.")
  else None.

(** The filter and update of the seat claim:
    [{ _id, seats: { $gt: 0 } }, { $inc: { seats: -1, enrollmentCount: 1 } }]. *)
Definition has_seat (d : doc) : bool := gt0 (d !! "seats").
Definition claim : list (string * value) :=
  [("seats", VNum (-1)); ("enrollmentCount", VNum 1)].

(** The update of the seat release:
    [{ _id }, { $inc: { seats: 1, enrollmentCount: -1 } }]. *)
Definition release : list (string * value) :=
  [("seats", VNum 1); ("enrollmentCount", VNum (-1))].

(** [POST /enrollments], from [insertOne] on: speculative insert, seat
    claim, compensation. *)
Definition reserve (e : Enrollment) (courseObjectId : ObjId) : M response :=
  insertedId ← await (enrollments_insertOne e);
  updateResult ← await (courses_inc courseObjectId has_seat claim);
  if Nat.eqb (modifiedCount updateResult) 0 then
    _ ← await (enrollments_deleteById insertedId);
    mret (Reply 409 "Seat conflict")
  else mret (ReplyId 201 "Enrolled" insertedId).

(** [POST /enrollments] (after [verifyJWT] and [getUserRole]); [now] is
    [new Date()] and [freshId] the [_id] the driver generates. *)
Definition postEnrollment (now : Z) (freshId : ObjId)
    (requestingUserEmail : string) (body : doc) : Handler :=
  if negb (truthy (body !! "userEmail")) || negb (truthy (body !! "courseId"))
     || negb (truthy (body !! "courseTitle"))
  then respond (Reply 400 "Missing details")
  else if negb (is_str (body !! "userEmail") requestingUserEmail)
  then respond (Reply 403 "Email mismatch")
  else
    match body !! "courseId" ≫= parseObjectId with
    | None => respond (Reply 400 "Invalid Course ID")
    | Some courseObjectId =>
        let cid := stored (body !! "courseId") in
        let title := stored (body !! "courseTitle") in
        try_catch
          (existing ← await (enrollments_findOne requestingUserEmail cid);
           match existing with
           | Some _ => mret (Reply 400 "Already enrolled")
           | None =>
           count ← await (enrollments_count requestingUserEmail);
           if Nat.leb 3 count then mret (Reply 400 "Enrollment limit") else
           course ← await (courses_findOne courseObjectId);
           match course with
           | None => mret (Reply 404 "Course not found")
           | Some course =>
           let hasStatus := bool_decide (course !! "status" ≠ None) in
           if hasStatus && negb (is_str (course !! "status") "approved")
           then mret (Reply 400 "Course not approved") else
           if le0 (course !! "seats") then mret (Reply 400 "No seats available") else
           reserve {| e_id := freshId; userEmail := requestingUserEmail;
                      courseId := cid; courseTitle := title;
                      enrolledAt := now |} courseObjectId
           end end)
          (Reply 500 "Enrollment failed")
    end.

(** [DELETE /enrollments/:email/:courseId] (after [verifyJWT]). *)
Definition deleteEnrollment (decodedEmail : string) (email courseId : string) : Handler :=
  if negb (String.eqb decodedEmail email) then respond (Reply 403 "Unauthorized")
  else
    match parseObjectId (VStr courseId) with
    | None => respond (Reply 400 "Invalid ID")
    | Some courseObjectId =>
        try_catch
          (deleted ← await (enrollments_deleteOne email (VStr courseId));
           if Nat.eqb deleted 0 then mret (Reply 404 "Not enrolled") else
           _ ← await (courses_inc courseObjectId (λ _, true) release);
           mret (Reply 200 "Unenrolled"))
          (Reply 500 "Unenroll failed")
    end.

(** The keys [PUT /course/:id] deletes from the body before the write. *)
Definition stripped_keys : list string :=
  ["_id"; "instructorEmail"; "createdAt"; "enrollmentCount"; "status";
   "averageRating"; "reviewCount"].

(** [if (updatedData.seats !== undefined) { ... }] of [PUT /course/:id]. *)
Definition check_seats (updatedData : doc) : response + doc :=
  match updatedData !! "seats" with
  | None => inr updatedData
  | Some v =>
      match parseInt10 v with
      | Some seatsNum =>
          if dlt seatsNum (of_Z 0) then inl (Reply 400 "Invalid Seats.")
          else inr (<["seats" := bson_number seatsNum]> updatedData)
      | None => inl (Reply 400 "Invalid Seats.")
      end
  end.

(** [if (updatedData.price !== undefined) { ... }] of [PUT /course/:id]. *)
Definition check_price (updatedData : doc) : response + doc :=
  match updatedData !! "price" with
  | None => inr updatedData
  | Some v =>
      match parseFloat v with
      | Some priceNum =>
          if dlt priceNum (of_Z 0) then inl (Reply 400 "Invalid Price.")
          else inr (<["price" := bson_number priceNum]> updatedData)
      | None => inl (Reply 400 "Invalid Price.")
      end
  end.

(** [POST /courses] (after [verifyJWT], [getUserRole], [verifyInstructor]). *)
Definition postCourse (now : Z) (freshId : ObjId) (role : value)
    (requestingUserEmail : string) (body : doc) : Handler :=
  let seats := body !! "seats" in
  let price := body !! "price" in
  let instructorEmail := body !! "instructorEmail" in
  let timestamp := body !! "timestamp" in
  if negb (truthy (body !! "courseTitle")) || negb (truthy (body !! "image"))
     || nullish seats || negb (truthy (body !! "duration"))
     || negb (truthy (body !! "description")) || nullish price
  then respond (Reply 400 "Missing required fields.")
  else
    match seats ≫= parseInt10, price ≫= parseFloat with
    | Some seatsNum, Some priceNum =>
        if dlt priceNum (of_Z 0) || dlt seatsNum (of_Z 0)
        then respond (Reply 400 "Invalid Seats or Price.")
        else
          let finalInstructorEmail :=
            if is_str (Some role) "instructor" then Some (VStr requestingUserEmail)
            else instructorEmail in
          if is_str (Some role) "admin" && negb (truthy instructorEmail)
          then respond (Reply 400 "Admin must specify instructorEmail.")
          else
            let newCourse : doc :=
              <["courseTitle" := stored (body !! "courseTitle")]>
              (<["image" := stored (body !! "image")]>
              (<["seats" := bson_number seatsNum]>
              (<["price" := bson_number priceNum]>
              (<["duration" := stored (body !! "duration")]>
              (<["description" := stored (body !! "description")]>
              (<["instructorEmail" := stored finalInstructorEmail]>
              (<["enrollmentCount" := VNum 0]>
              (<["status" := VStr "pending"]>
              (<["createdAt" := if truthy timestamp then newDate (stored timestamp)
                                else VDate now]>
              (<["updatedAt" := VDate now]>
              (<["timestamp" := or_else timestamp (VStr (isoDay now))]> ∅))))))))))) in
            try_catch
              (insertedId ← await (courses_insertOne freshId newCourse);
               mret (ReplyId 201 "Course added, pending approval." insertedId))
              (Reply 500 "Failed to add course")
    | _, _ => respond (Reply 400 "Invalid Seats or Price.")
    end.

(** [PUT /course/:id] (after [verifyJWT], [getUserRole], [verifyInstructor]). *)
Definition putCourse (now : Z) (role : value) (requestingUserEmail : string)
    (id : string) (body : doc) : Handler :=
  match parseObjectId (VStr id) with
  | None => respond (Reply 400 "Invalid ID")
  | Some courseObjectId =>
      try_catch
        (existingCourse ← await (courses_findOne courseObjectId);
         match existingCourse with
         | None => mret (Reply 404 "Course not found")
         | Some existingCourse =>
         if is_str (Some role) "instructor"
            && negb (is_str (existingCourse !! "instructorEmail") requestingUserEmail)
         then mret (Reply 403 "Forbidden: Not your course") else
         match check_seats (strip stripped_keys body) with
         | inl r => mret r
         | inr updatedData =>
         match check_price updatedData with
         | inl r => mret r
         | inr updatedData =>
         result ← await (courses_set courseObjectId (<["updatedAt" := VDate now]> updatedData));
         if Nat.eqb (matchedCount result) 0 then mret (Reply 404 "Course not found") else
         if Nat.eqb (modifiedCount result) 0 then mret (Reply 200 "No changes detected") else
         mret (Reply 200 "Course updated successfully")
         end end end)
        (Reply 500 "Course update failed")
  end.

(** [DELETE /courses/:id] (after [verifyJWT], [getUserRole], [verifyInstructor]). *)
Definition deleteCourse (role : value) (requestingUserEmail : string)
    (id : string) : Handler :=
  match parseObjectId (VStr id) with
  | None => respond (Reply 400 "Invalid ID")
  | Some courseObjectId =>
      try_catch
        (existingCourse ← await (courses_findOne courseObjectId);
         match existingCourse with
         | None => mret (Reply 404 "Course not found")
         | Some existingCourse =>
         if is_str (Some role) "instructor"
            && negb (is_str (existingCourse !! "instructorEmail") requestingUserEmail)
         then mret (Reply 403 "Forbidden: Not your course") else
         deleted ← await (courses_deleteOne courseObjectId);
         if Nat.eqb deleted 0 then mret (Reply 404 "Delete failed") else
         _ ← await (enrollments_deleteMany (VStr id));
         _ ← await (reviews_deleteMany courseObjectId);
         mret (Reply 200 "Course and related data deleted")
         end)
        (Reply 500 "Failed to delete course")
  end.

(** [PATCH /admin/courses/:id/status] (after [verifyAdmin]). *)
Definition patchCourseStatus (id : string) (body : doc) : Handler :=
  match body !! "status" with
  | Some (VStr status) =>
      if negb (includes ["approved"; "rejected"; "pending"] (Some (VStr status)))
      then respond (Reply 400 "Invalid status")
      else
        match parseObjectId (VStr id) with
        | None => respond (Reply 400 "Invalid ID")
        | Some oid =>
            try_catch
              (result ← await (courses_set oid {["status" := VStr status]});
               if Nat.eqb (matchedCount result) 0 then mret (Reply 404 "Course not found")
               else mret (Reply 200 ("Status updated to " ++ status)))
              (Reply 500 "Update failed")
        end
  | _ => respond (Reply 400 "Invalid status")
  end.

(** [PATCH /admin/users/:email/role] (after [verifyAdmin]). *)
Definition patchUserRole (email : string) (body : doc) : Handler :=
  match body !! "role" with
  | Some (VStr role) =>
      if negb (includes ["student"; "instructor"; "admin"] (Some (VStr role)))
      then respond (Reply 400 "Invalid role")
      else
        try_catch
          (result ← await (users_set email {["role" := VStr role]});
           if Nat.eqb (matchedCount result) 0 then mret (Reply 404 "User not found")
           else mret (Reply 200 ("Role updated to " ++ role)))
          (Reply 500 "Update failed")
  | _ => respond (Reply 400 "Invalid role")
  end.

(** [PUT /users/:email] (after [verifyJWT]). *)
Definition putUser (now : Z) (decodedEmail : string) (emailParam : string)
    (userData : doc) : Handler :=
  if negb (String.eqb decodedEmail emailParam) then respond (Reply 403 "Forbidden")
  else if negb (truthy (userData !! "name")) || negb (truthy (userData !! "photoURL"))
  then respond (Reply 400 "Name and photoURL are required.")
  else
    let set_fields : doc :=
      <["name" := stored (userData !! "name")]>
      (<["photoURL" := stored (userData !! "photoURL")]>
      (<["phone" := or_else (userData !! "phone") (VStr "")]>
      (<["address" := or_else (userData !! "address") (VStr "")]>
      (<["updatedAt" := VDate now]> ∅)))) in
    let insert_fields : doc :=
      <["email" := VStr emailParam]>
      (<["role" := VStr "student"]>
      (<["createdAt" := VDate now]> ∅)) in
    try_catch
      (result ← await (users_upsert emailParam set_fields insert_fields);
       if Nat.ltb 0 (fst result) then mret (Reply 201 "Profile created.")
       else if Nat.ltb 0 (snd result) then mret (Reply 200 "Profile updated.")
       else mret (Reply 200 "No changes detected."))
      (Reply 500 "Failed to update user profile.").

(** [POST /courses/:id/reviews] (after [verifyJWT]). *)
Definition postReview (now : Z) (freshId : ObjId) (userEmail : string)
    (courseIdParam : string) (body : doc) : Handler :=
  let rating := body !! "rating" in
  match parseObjectId (VStr courseIdParam) with
  | None => respond (Reply 400 "Invalid ID")
  | Some courseObjectId =>
      if nullish rating || negb (is_number rating) || lt_lit rating 1 || gt_lit rating 5
      then respond (Reply 400 "Invalid rating")
      else
        match body !! "comment" with
        | Some (VStr comment) =>
            if negb (truthy (Some (VStr comment)))
               || Nat.eqb (String.length (trim comment)) 0
            then respond (Reply 400 "Comment required")
            else
              try_catch
                (enrollment ← await (enrollments_findOne userEmail (VStr courseIdParam));
                 match enrollment with
                 | None => mret (Reply 403 "Must be enrolled")
                 | Some _ =>
                 existingReview ← await (reviews_findOne userEmail courseObjectId);
                 match existingReview with
                 | Some _ => mret (Reply 400 "Already reviewed")
                 | None =>
                 userProfile ← await (users_findOne userEmail);
                 insertedId ← await (reviews_insertOne
                   {| r_id := freshId; courseObjectId := courseObjectId;
                      r_courseId := courseIdParam; r_userEmail := userEmail;
                      userName := or_else (userProfile ≫= (.!! "name")) (VStr userEmail);
                      userPhoto := or_else (userProfile ≫= (.!! "photoURL")) VNull;
                      rating := stored rating; comment := trim comment;
                      r_createdAt := now |});
                 mret (ReplyId 201 "Review added" insertedId)
                 end end)
                (Reply 500 "Failed to add review")
        | _ => respond (Reply 400 "Comment required")
        end
  end.

(** *** Routes: middleware chain, then handler

    [checkDbConnection] is passed by every request: [isDbConnected] is set
    before the routes are registered and is not cleared afterwards. *)

(** [verifyJWT], then the handler with [req.decoded.email]. *)
Definition authenticated (cred : credential) (k : string → Handler) : Handler :=
  match verifyJWT cred with
  | inl r => respond r
  | inr email => k email
  end.

(** [verifyJWT, getUserRole], then the handler with the email and
    [req.userRole]. *)
Definition with_role (cred : credential) (k : string → value → Handler) : Handler :=
  authenticated cred (λ email c,
    match getUserRole email c with
    | (inl r, c') => (r, c')
    | (inr role, c') => k email role c'
    end).

(** A role gate in front of a handler. *)
Definition gate (g : option response) (h : Handler) : Handler :=
  match g with
  | Some r => respond r
  | None => h
  end.

(** The requests that write to the store.  (The remaining routes only read
    it, or only touch the cookie.) *)
Inductive request : Type :=
| PutUser (cred : credential) (email : string) (body : doc)
| PostCourse (cred : credential) (body : doc)
| PutCourse (cred : credential) (id : string) (body : doc)
| DeleteCourse (cred : credential) (id : string)
| PostEnrollment (cred : credential) (body : doc)
| DeleteEnrollment (cred : credential) (email courseId : string)
| PatchUserRole (cred : credential) (email : string) (body : doc)
| PatchCourseStatus (cred : credential) (id : string) (body : doc)
| PostReview (cred : credential) (id : string) (body : doc).

(** [now] is the clock at the request, [freshId] the identifier the driver
    generates for an insert. *)
Definition handle (now : Z) (freshId : ObjId) (r : request) : Handler :=
  match r with
  | PutUser cred email body =>
      authenticated cred (λ decoded, putUser now decoded email body)
  | PostCourse cred body =>
      with_role cred (λ email role,
        gate (verifyInstructor role) (postCourse now freshId role email body))
  | PutCourse cred id body =>
      with_role cred (λ email role,
        gate (verifyInstructor role) (putCourse now role email id body))
  | DeleteCourse cred id =>
      with_role cred (λ email role,
        gate (verifyInstructor role) (deleteCourse role email id))
  | PostEnrollment cred body =>
      with_role cred (λ email _, postEnrollment now freshId email body)
  | DeleteEnrollment cred email courseId =>
      authenticated cred (λ decoded, deleteEnrollment decoded email courseId)
  | PatchUserRole cred email body =>
      with_role cred (λ _ role, gate (verifyAdmin role) (patchUserRole email body))
  | PatchCourseStatus cred id body =>
      with_role cred (λ _ role, gate (verifyAdmin role) (patchCourseStatus id body))
  | PostReview cred id body =>
      authenticated cred (λ email, postReview now freshId email id body)
  end.

(** A request as it arrives: with its clock, its fresh identifier, and the
    storage weather during it. *)
Record arrival := {
  a_now : Z;
  a_freshId : ObjId;
  a_budget : option nat;
  a_request : request;
}.

Definition serve (a : arrival) (s : Store) : response * Store :=
  let '(r, c) := handle (a_now a) (a_freshId a) (a_request a)
                   {| budget := a_budget a; data := s |} in
  (r, data c).

(** The store after a sequence of requests, one after the other. *)
Definition serve_all (l : list arrival) (s : Store) : Store :=
  foldl (λ s a, snd (serve a s)) s l.

End Handlers.
End Full.

(** ** The legacy server ([index.js]) *)

Module Legacy.
Section Handlers.
Context `{Platform}.

(** [verifyJWT]. *)
Definition verifyJWT (cred : credential) : response + string :=
  match cred with
  | NoToken => inl (Reply 401 "Unauthorized")
  | BadToken => inl (Reply 403 "Forbidden access")
  | Token email => inr email
  end.

(** [new ObjectId(x)] without a prior [isValid]: for [undefined] and [null]
    the driver generates a new identifier, which no stored document has;
    a malformed argument throws. *)
Inductive target : Type :=
| Generated
| Parsed (oid : ObjId).

Definition newObjectId (v : option value) : M target :=
  match v with
  | None | Some VNull => mret Generated
  | Some x =>
      match parseObjectId x with
      | Some oid => mret (Parsed oid)
      | None => throw
      end
  end.

Definition courses_findOne_at (t : target) : Call (option doc) :=
  match t with
  | Generated => read (λ _, None)
  | Parsed oid => courses_findOne oid
  end.

Definition courses_inc_at (t : target) (incs : list (string * value)) : Call UpdateResult :=
  match t with
  | Generated => read (λ _, {| matchedCount := 0; modifiedCount := 0 |})
  | Parsed oid => courses_inc oid (λ _, true) incs
  end.

(** [decoded.email !== userEmail] is false: both the same string, or both
    [undefined]. *)
Definition same_email (decodedEmail : string) (v : option value) : bool :=
  if String.eqb decodedEmail "" then bool_decide (v = None)
  else is_str v decodedEmail.

(** [POST /enrollments] (after [verifyJWT]). *)
Definition postEnrollment (now : Z) (freshId : ObjId)
    (decodedEmail : string) (body : doc) : Handler :=
  let cid := stored (body !! "courseId") in
  try_catch
    (if negb (same_email decodedEmail (body !! "userEmail"))
     then mret (Reply 403 "Unauthorized email") else
     existing ← await (enrollments_findOne decodedEmail cid);
     match existing with
     | Some e => mret (ReplyId 400 "Already enrolled" (e_id e))
     | None =>
     userEnrollments ← await (enrollments_count decodedEmail);
     if Nat.leb 3 userEnrollments then mret (Reply 400 "Max 3 enrollments allowed") else
     t ← newObjectId (body !! "courseId");
     course ← await (courses_findOne_at t);
     match course with
     | None => mret (Reply 404 "Course not found")
     | Some course =>
     if le0 (course !! "seats") then mret (Reply 400 "No seats left") else
     insertedId ← await (enrollments_insertOne
       {| e_id := freshId; userEmail := decodedEmail; courseId := cid;
          courseTitle := stored (body !! "courseTitle"); enrolledAt := now |});
     _ ← await (courses_inc_at t [("seats", VNum (-1))]);
     mret (ReplyId 201 "Enrolled successfully" insertedId)
     end end)
    (Reply 500 "Enrollment failed").

(** [PATCH /courses/:id/seats] (after [verifyJWT]). *)
Definition patchSeats (id : string) (body : doc) : Handler :=
  if negb (is_number (body !! "increment"))
  then respond (Reply 400 "Missing or invalid increment value")
  else
    try_catch
      (t ← newObjectId (Some (VStr id));
       result ← await (courses_inc_at t
                         [("seats", serialised (stored (body !! "increment")))]);
       if Nat.eqb (modifiedCount result) 0
       then mret (Reply 404 "Course not found or seat not updated")
       else mret (Reply 200 "Seat count updated successfully"))
      (Reply 500 "Seat update failed").

(** [DELETE /enrollments/:email/:courseId] (after [verifyJWT]). *)
Definition deleteEnrollment (decodedEmail : string) (email courseId : string) : Handler :=
  if negb (String.eqb decodedEmail email) then respond (Reply 403 "Unauthorized access")
  else
    try_catch
      (deleted ← await (enrollments_deleteOne email (VStr courseId));
       if Nat.eqb deleted 0 then mret (Reply 404 "Enrollment not found") else
       t ← newObjectId (Some (VStr courseId));
       _ ← await (courses_inc_at t [("seats", VNum 1)]);
       mret (Reply 200 "Enrollment cancelled and seat updated"))
      (Reply 500 "Internal server error").

Definition authenticated (cred : credential) (k : string → Handler) : Handler :=
  match verifyJWT cred with
  | inl r => respond r
  | inr email => k email
  end.

(** The legacy routes that write to [courses.seats]. *)
Inductive request : Type :=
| PostEnrollment (cred : credential) (body : doc)
| PatchSeats (cred : credential) (id : string) (body : doc)
| DeleteEnrollment (cred : credential) (email courseId : string).

Definition handle (now : Z) (freshId : ObjId) (r : request) : Handler :=
  match r with
  | PostEnrollment cred body =>
      authenticated cred (λ decoded, postEnrollment now freshId decoded body)
  | PatchSeats cred id body =>
      authenticated cred (λ _, patchSeats id body)
  | DeleteEnrollment cred email courseId =>
      authenticated cred (λ decoded, deleteEnrollment decoded email courseId)
  end.

End Handlers.
End Legacy.

(** ** The admission protocol as the specification words it *)

Module Protocol.
Section Protocol.
Context `{Platform}.

(** The error kinds of the specification. *)
Inductive kind : Type :=
| InvalidInput | Forbidden | NotFound
| AlreadyEnrolled | QuotaExceeded | CourseNotApproved | NoSeatsAvailable
| SeatConflict | ServerError.

(** The kind a response of [POST /enrollments] stands for; [None] for a
    success. *)
Definition kind_of (r : response) : option kind :=
  match code r with
  | 403 => Some Forbidden
  | 404 => Some NotFound
  | 409 => Some SeatConflict
  | 500 => Some ServerError
  | 400 =>
      if String.eqb (message r) "Already enrolled" then Some AlreadyEnrolled
      else if String.eqb (message r) "Enrollment limit" then Some QuotaExceeded
      else if String.eqb (message r) "Course not approved" then Some CourseNotApproved
      else if String.eqb (message r) "No seats available" then Some NoSeatsAvailable
      else Some InvalidInput
  | _ => None
  end.

Inductive verdict : Type :=
| Reject (k : kind)
| Proceed.

(** [x > 0], as JavaScript compares. *)
Definition positive (v : option value) : bool :=
  match toNumber v with
  | Some x => dlt (of_Z 0) x
  | None => false
  end.

Definition has_enrollment (s : Store) (email : string) (cid : value) : bool :=
  bool_decide (is_Some (List.find (same_pair email cid) (enrollments s))).

Definition enrollment_count (s : Store) (email : string) : nat :=
  length (List.filter (λ e, String.eqb (userEmail e) email) (enrollments s)).

Definition not_approved (course : doc) : bool :=
  bool_decide (course !! "status" ≠ None) && negb (is_str (course !! "status") "approved").

(** Check (1), presence: [!userEmail || !courseId || !courseTitle]. *)
Definition missing_field (body : doc) : bool :=
  negb (truthy (body !! "userEmail")) || negb (truthy (body !! "courseId"))
  || negb (truthy (body !! "courseTitle")).

(** Checks (3) to (6), which the claimed and the checked order share. *)
Definition store_checks (email : string) (cid : value) (oid : ObjId) (s : Store)
    (seat_check : doc → bool) : verdict :=
  if has_enrollment s email cid then Reject AlreadyEnrolled
  else if Nat.leb 3 (enrollment_count s email) then Reject QuotaExceeded
  else
    match courses s !! oid with
    | None => Reject NotFound
    | Some course =>
        if not_approved course then Reject CourseNotApproved
        else if seat_check course then Proceed
        else Reject NoSeatsAvailable
    end.

(** The order as the specification states it: input validation (presence
    and well-formed [courseId]) first, identity second, and [seats > 0] as
    the capacity pre-check. *)
Definition claimed_order (email : string) (body : doc) (s : Store) : verdict :=
  match body !! "courseId" ≫= parseObjectId with
  | Some oid =>
      if missing_field body then Reject InvalidInput
      else if negb (is_str (body !! "userEmail") email) then Reject Forbidden
      else store_checks email (stored (body !! "courseId")) oid s
             (λ course, positive (course !! "seats"))
  | None => Reject InvalidInput
  end.

(** The order the handler applies: presence, identity, well-formed
    [courseId], then the store checks with [seats <= 0] as the capacity
    pre-check. *)
Definition checked_order (email : string) (body : doc) (s : Store) : verdict :=
  if missing_field body then Reject InvalidInput
  else if negb (is_str (body !! "userEmail") email) then Reject Forbidden
  else
    match body !! "courseId" ≫= parseObjectId with
    | None => Reject InvalidInput
    | Some oid =>
        store_checks email (stored (body !! "courseId")) oid s
          (λ course, negb (le0 (course !! "seats")))
    end.

(** The enrollment record [POST /enrollments] inserts. *)
Definition record_of (now : Z) (freshId : ObjId) (email : string) (body : doc) : Enrollment :=
  {| e_id := freshId; userEmail := email;
     courseId := stored (body !! "courseId");
     courseTitle := stored (body !! "courseTitle");
     enrolledAt := now |}.

(** [POST /enrollments] follows an order of checks: the first failing check
    gives the response and nothing is written; when all pass, the handler
    is the reservation. *)
Definition follows (order : string → doc → Store → verdict)
    (now : Z) (freshId : ObjId) (email : string) (body : doc) (s : Store) : Prop :=
  let c := healthy s in
  let out := Full.postEnrollment now freshId email body c in
  match order email body s with
  | Reject k => kind_of out.1 = Some k ∧ out.2 = c
  | Proceed =>
      ∃ oid, body !! "courseId" ≫= parseObjectId = Some oid ∧
        out = try_catch (Full.reserve (record_of now freshId email body) oid)
                (Reply 500 "Enrollment failed") c
  end.

(** Checks (1) to (5) pass and the course found is [course]. *)
Definition reaches_course (email : string) (body : doc) (s : Store)
    (oid : ObjId) (course : doc) : Prop :=
  missing_field body = false
  ∧ is_str (body !! "userEmail") email = true
  ∧ body !! "courseId" ≫= parseObjectId = Some oid
  ∧ has_enrollment s email (stored (body !! "courseId")) = false
  ∧ (enrollment_count s email < 3)%nat
  ∧ courses s !! oid = Some course.

(** The seat arithmetic of a course document. *)
Definition seats_of (d : doc) : option Z :=
  match d !! "seats" with
  | Some (VNum z) => Some z
  | _ => None
  end.

(** The enrollment counter; a missing counter counts from 0, as [$inc]
    takes it. *)
Definition count_of (d : doc) : option Z :=
  match d !! "enrollmentCount" with
  | None => Some 0
  | Some (VNum z) => Some z
  | Some _ => None
  end.

(** [seats], where it is stored as an integer, is not negative. *)
Definition seats_ok (d : doc) : Prop :=
  match d !! "seats" with
  | Some (VNum z) => (0 ≤ z)%Z
  | _ => True
  end.

(** A number that is not negative, as [POST /courses] and [PUT /course/:id]
    store it under [seats]: an integer from 0 on, or a Double from 0 on,
    the positive infinity included. *)
Definition not_negative (v : value) : Prop :=
  match v with
  | VNum z => (0 ≤ z)%Z
  | VDbl x => dlt x (of_Z 0) = false
  | _ => False
  end.

(** A field name of a request body that reaches into [k] without being
    [k]: [k], a dot, and more. *)
Definition reaches_into (body : doc) (k : string) : Prop :=
  ∃ f, is_Some (body !! f) ∧ f ≠ k ∧ root f = k.

(** What a course update with this body can do to a field [k] it does not
    set: leave it, or, through a name that reaches into [k], put an embedded
    document where the record had no such field, or change the embedded
    document the record had there. *)
Definition left_or_embedded (body : doc) (k : string) (d d' : doc) : Prop :=
  d' !! k = d !! k
  ∨ (reaches_into body k
     ∧ (∃ content, d' !! k = Some (VObj content))
     ∧ (d !! k = None ∨ ∃ before, d !! k = Some (VObj before))).

Definition is_admission (r : Full.request) : bool :=
  match r with
  | Full.PostEnrollment _ _ | Full.DeleteEnrollment _ _ _ => true
  | _ => false
  end.

End Protocol.
End Protocol.

(** ** A platform for the worked examples

    Identifiers are the 24 hexadecimal digits of an [ObjectId], in lower
    case; [parseInt] and [parseFloat] read numbers and plain digit strings,
    and give the nearest Double; a sum of Doubles is rounded to the nearest
    Double; an update sets plain names and, for a dotted name on a
    document that has no field of that top-level name, creates an embedded
    document (a dotted name into an embedded document that is already
    there is taken as a write error, like the one into a string or a
    number).
    The examples only use inputs on which Node, the driver and the server
    agree with these definitions. *)

Module Example.

Definition is_hex (a : ascii) : bool :=
  let n := nat_of_ascii a in
  (Nat.leb 48 n && Nat.leb n 57) || (Nat.leb 65 n && Nat.leb n 70)
  || (Nat.leb 97 n && Nat.leb n 102).

Definition lower (a : ascii) : ascii :=
  let n := nat_of_ascii a in
  if Nat.leb 65 n && Nat.leb n 70 then ascii_of_nat (n + 32) else a.

Fixpoint map_string (f : ascii → ascii) (s : string) : string :=
  match s with
  | EmptyString => EmptyString
  | String a s' => String (f a) (map_string f s')
  end.

Fixpoint all_string (p : ascii → bool) (s : string) : bool :=
  match s with
  | EmptyString => true
  | String a s' => p a && all_string p s'
  end.

Definition hex24 (v : value) : option string :=
  match v with
  | VStr s =>
      if Nat.eqb (String.length s) 24 && all_string is_hex s
      then Some (map_string lower s) else None
  | _ => None
  end.

Fixpoint digits (s : string) (acc : Z) : option Z :=
  match s with
  | EmptyString => Some acc
  | String a s' =>
      let n := nat_of_ascii a in
      if Nat.leb 48 n && Nat.leb n 57
      then digits s' (10 * acc + Z.of_nat (n - 48))
      else None
  end.

Definition digit_string (s : string) : option Z :=
  match s with
  | EmptyString => None
  | _ => digits s 0
  end.

(** The Double nearest to the positive rational [n/d], ties to even; an
    infinity from [2^1024] on. *)
Definition nearest (n d : Z) : double :=
  let e := Z.log2 n - Z.log2 d in
  let below := if Z.leb 0 e then Z.ltb n (d * 2 ^ e) else Z.ltb (n * 2 ^ (- e)) d in
  let exponent := if below then e - 1 else e in
  let s := Z.max (exponent - 52) (-1074) in
  let num := if Z.leb 0 s then n else n * 2 ^ (- s) in
  let den := if Z.leb 0 s then d * 2 ^ s else d in
  let m0 := num / den in
  let r := num mod den in
  let m := if Z.ltb den (2 * r) then m0 + 1
           else if Z.eqb den (2 * r) then (if Z.odd m0 then m0 + 1 else m0)
           else m0 in
  if Z.leb 0 s then
    if Z.leb (2 ^ 1024) (m * 2 ^ s) then Inf false else of_Z (m * 2 ^ s)
  else Fin (Q2Qc (Qmake m (Z.to_pos (2 ^ (- s))))).

Definition negate (x : double) : double :=
  match x with
  | Fin q => Fin (Qcopp q)
  | Inf negative => Inf (negb negative)
  end.

(** Rounding to the nearest Double. *)
Definition round (q : Qc) : double :=
  match Qnum q with
  | Z0 => Fin q
  | Zpos n => nearest (Zpos n) (Zpos (Qden q))
  | Zneg n => negate (nearest (Zpos n) (Zpos (Qden q)))
  end.

(** The sum of two Doubles. *)
Definition sum (x y : double) : option double :=
  match x, y with
  | Fin a, Fin b => Some (round (Qcplus a b))
  | Inf negative, Fin _ | Fin _, Inf negative => Some (Inf negative)
  | Inf a, Inf b => if Bool.eqb a b then Some (Inf a) else None
  end.

(** The integer part of a rational, towards zero. *)
Definition truncate (q : Qc) : Z := Z.quot (Qnum q) (Zpos (Qden q)).

(** The part of a dotted name after its first dot. *)
Fixpoint inside (f : string) : string :=
  match f with
  | EmptyString => EmptyString
  | String a f' => if Ascii.eqb a "." then f' else inside f'
  end.

(** The names of a path, each of them not empty, without NUL and not
    starting with a dollar sign; [fresh] says that a name starts here. *)
Fixpoint names_ok (fresh : bool) (s : string) : bool :=
  match s with
  | EmptyString => negb fresh
  | String a s' =>
      if Ascii.eqb a "." then negb fresh && names_ok true s'
      else negb (fresh && Ascii.eqb a "$") && negb (Ascii.eqb a zero)
           && names_ok false s'
  end.

(** A dotted name: a plain name, a dot, and a path of names. *)
Definition dotted (f : string) : bool :=
  plain (root f) && negb (String.eqb (root f) f) && names_ok true (inside f).

Definition show (v : value) : string :=
  match v with
  | VNull => "null"
  | VBool b => if b then "true" else "false"
  | VNum z => pretty z
  | VDbl (Fin q) => pretty (Qnum q) ++ "/" ++ pretty (Zpos (Qden q))
  | VDbl (Inf negative) => if negative then "-Infinity" else "Infinity"
  | VStr s => "'" ++ s ++ "'"
  | VDate t => "Date(" ++ pretty t ++ ")"
  | VObj content => "{ " ++ content ++ " }"
  end.

(** One dotted name of an update, on a document that has no field of that
    top-level name yet: the field is created as an embedded document.  On a
    field that holds a value that is not a document the server reports a
    write error, as it does when two names of the update meet in one field. *)
Definition put_inside (entry : string * value) (acc : option doc) : option doc :=
  d ← acc;
  match d !! root entry.1 with
  | None => Some (<[root entry.1 := VObj (inside entry.1 ++ ": " ++ show entry.2)]> d)
  | Some _ => None
  end.

Definition is_plain (entry : string * value) : bool := plain entry.1.

Definition valid (fields : doc) : bool :=
  bool_decide (fields ≠ ∅)
  && forallb (λ entry, plain entry.1 || dotted entry.1) (map_to_list fields).

Definition set_fields (fields d : doc) : option doc :=
  if valid fields then
    foldr put_inside (Some (filter (λ entry, is_plain entry = true) fields ∪ d))
      (map_to_list (filter (λ entry, is_plain entry = false) fields))
  else None.

#[export, refine] Instance node : Platform := {|
  ObjId := string;
  parseObjectId := hex24;
  parseInt10 v := match v with
                  | VNum z => Some (of_Z z)
                  | VDbl (Fin q) => Some (of_Z (truncate q))
                  | VStr s => (λ z, round (Qc_of_Z z)) <$> digit_string s
                  | _ => None
                  end;
  parseFloat v := match v with
                  | VNum z => Some (of_Z z)
                  | VDbl x => Some x
                  | VStr s => (λ z, round (Qc_of_Z z)) <$> digit_string s
                  | _ => None
                  end;
  stringToNumber s := if String.eqb s "" then Some (of_Z 0)
                      else (λ z, round (Qc_of_Z z)) <$> digit_string s;
  newDate v := match v with VDate t => VDate t | VNum t => VDate t | _ => VDate 0 end;
  isoDay _ := "1970-01-01";
  trim s := s;
  dadd := sum;
  setValid := valid;
  applySet := set_fields;
  setValid_plain := _;
  applySet_plain := _;
  applySet_frame := _;
|}.
Proof.
  - intros fields Hne Hplain. unfold valid.
    rewrite bool_decide_eq_true_2 by done. simpl.
    apply forallb_forall. intros [k v] Hin%list_elem_of_In%elem_of_map_to_list.
    simpl. by rewrite Hplain.
  - intros fields d Hne Hplain. unfold set_fields.
    assert (Hvalid : valid fields = true).
    { unfold valid. rewrite bool_decide_eq_true_2 by done. simpl.
      apply forallb_forall. intros [k v] Hin%list_elem_of_In%elem_of_map_to_list.
      simpl. by rewrite Hplain. }
    rewrite Hvalid.
    assert (Hnone : filter (λ entry, is_plain entry = false) fields = (∅ : doc)).
    { apply map_empty_filter. intros k v Hk. unfold is_plain. simpl.
      rewrite Hplain by eauto. done. }
    rewrite Hnone, map_to_list_empty. simpl.
    f_equal. f_equal. apply map_filter_id. intros k v Hk.
    unfold is_plain. simpl. apply Hplain. eauto.
  - intros fields d d' k. unfold set_fields.
    destruct (valid fields) eqn:Hvalid; [|done].
    apply andb_prop in Hvalid as [_ Hnames].
    assert (Hfold : ∀ (l : list (string * value)) (base out : doc),
      foldr put_inside (Some base) l = Some out →
      out !! k = base !! k
      ∨ ∃ f v content, (f, v) ∈ l ∧ root f = k
          ∧ out !! k = Some (VObj content) ∧ base !! k = None).
    { intros l base. induction l as [|[f v] l IH]; intros out; simpl.
      - intros [= <-]. by left.
      - destruct (foldr put_inside (Some base) l) as [d1|] eqn:Hd1; [|done].
        simpl. destruct (d1 !! root f) as [?|] eqn:Hroot; [done|].
        intros [= <-].
        destruct (decide (root f = k)) as [<-|Hk].
        + right. exists f, v. eexists. split_and!; [left|done| |].
          * by rewrite lookup_insert_eq.
          * destruct (IH d1 eq_refl) as [Hsame|(? & ? & ? & _ & _ & Hobj & _)];
              congruence.
        + rewrite lookup_insert_ne by done.
          destruct (IH d1 eq_refl) as [Hsame|(f' & v' & c & Hin & ? & ? & ?)];
            [by left|].
          right. exists f', v', c. split_and!; [by right|done..]. }
    intros Hout. destruct (Hfold _ _ _ Hout) as [Hsame|(f & v & c & Hin & Hf & Hobj & Hbase)].
    + rewrite Hsame.
      destruct (filter (λ entry, is_plain entry = true) fields !! k) as [w|] eqn:Hk.
      * right; left. rewrite (lookup_union_Some_l _ _ _ _ Hk).
        apply map_lookup_filter_Some in Hk as [Hk _]. by rewrite Hk.
      * left. by rewrite lookup_union_r.
    + right; right. apply elem_of_map_to_list, map_lookup_filter_Some in Hin as [Hin Hnot].
      exists f, c. split_and!; [by eexists| |done|done|left].
      * assert (Hname : plain f || dotted f = true).
        { rewrite forallb_forall in Hnames.
          apply (Hnames (f, v)), list_elem_of_In, elem_of_map_to_list, Hin. }
        unfold is_plain in Hnot. simpl in Hnot. rewrite Hnot in Hname. simpl in Hname.
        unfold dotted in Hname.
        destruct (String.eqb_spec (root f) f) as [Heq|Hne];
          [by rewrite !andb_false_r in Hname|].
        congruence.
      * apply lookup_union_None in Hbase as [_ ?]. done.
Defined.

(** A course as [POST /courses] of the full server stores it, with the
    status an admin has given it since. *)
Definition course (owner status : string) (seats count : Z) : doc :=
  <["instructorEmail" := VStr owner]>
  (<["seats" := VNum seats]>
  (<["enrollmentCount" := VNum count]>
  (<["status" := VStr status]> ∅))).

(** [c1]: an approved course with 3 seats left and 2 enrollments counted.
    [c2]: an approved document without a [seats] field.
    [c3]: an older document, without [status] and [enrollmentCount].
    [c4]: a course still pending approval.
    [c5]: an approved course nobody has enrolled in yet, with 2 seats. *)
Definition c1 : string := "64b7f0c2a1d3e4f5a6b7c8d1".
Definition c2 : string := "64b7f0c2a1d3e4f5a6b7c8d2".
Definition c3 : string := "64b7f0c2a1d3e4f5a6b7c8d3".
Definition c4 : string := "64b7f0c2a1d3e4f5a6b7c8d4".
Definition c5 : string := "64b7f0c2a1d3e4f5a6b7c8d5".

Definition e1 : string := "75c8a1d3b2e4f5a6b7c8d9e1".
Definition e2 : string := "75c8a1d3b2e4f5a6b7c8d9e2".

Definition ann_in_c1 : Enrollment :=
  {| e_id := e1; userEmail := "ann@x.io"; courseId := VStr c1;
     courseTitle := VStr "Rocq"; enrolledAt := 10 |}.

Definition ann_on_c1 : Review :=
  {| r_id := "86d9b2e4c3f5a6b7c8d9e0f1"; courseObjectId := c1; r_courseId := c1;
     r_userEmail := "ann@x.io"; userName := VStr "Ann"; userPhoto := VNull;
     rating := VNum 5; comment := "clear"; r_createdAt := 15 |}.

Definition store1 : Store :=
  {| courses :=
       <[c1 := course "teach@x.io" "approved" 3 2]>
       (<[c2 := <["instructorEmail" := VStr "old@x.io"]>
                (<["status" := VStr "approved"]> ∅)]>
       (<[c3 := <["instructorEmail" := VStr "old@x.io"]>
                (<["seats" := VNum 5]> ∅)]>
       (<[c4 := course "teach@x.io" "pending" 4 0]>
       (<[c5 := course "teach@x.io" "approved" 2 0]> ∅))));
     users :=
       <["teach@x.io" := {["role" := VStr "instructor"]}]>
       (<["root@x.io" := {["role" := VStr "admin"]}]> ∅);
     enrollments := [ann_in_c1];
     reviews := [ann_on_c1] |}.

(** [store1] after a rival request has taken the last seat of [c1]. *)
Definition store1_sold_out : Store :=
  with_courses <[c1 := course "teach@x.io" "approved" 0 5]> store1.

Definition enroll_body (email cid : string) : doc :=
  <["userEmail" := VStr email]>
  (<["courseId" := VStr cid]>
  (<["courseTitle" := VStr "Rocq"]> ∅)).


(** The admin approves [c4]. *)
Definition admin_approves_c4 : Full.arrival :=
  {| Full.a_now := 30; Full.a_freshId := e2; Full.a_budget := None;
     Full.a_request := Full.PatchCourseStatus (Token "root@x.io") c4
                         {["status" := VStr "approved"]} |}.

Definition bob_record (cid : string) : Enrollment :=
  {| e_id := e2; userEmail := "bob@x.io"; courseId := VStr cid;
     courseTitle := VStr "Rocq"; enrolledAt := 20 |}.

End Example.

(** ** What a request may do to the [courses] collection *)

Module Effects.
Section Effects.
Context `{Platform}.

(** A Hoare triple for a handler body, whatever the storage weather: from a
    store satisfying [P], a returned result [a] leaves a store satisfying
    [Q a], and a throw leaves one satisfying [E]. *)
Definition hoare {A} (P : Store → Prop) (m : M A)
    (Q : A → Store → Prop) (E : Store → Prop) : Prop :=
  ∀ c, P (data c) →
    match m c with
    | (Returned a, c') => Q a (data c')
    | (Threw, c') => E (data c')
    end.

(** A driver call that leaves [courses] alone. *)
Definition keeps_courses {A} (call : Call A) : Prop :=
  ∀ s a s', call s = Some (a, s') → courses s' = courses s.

(** The writes the full server makes to [courses]. *)
Inductive write_kind : Type :=
| Wnone | Wcreate | Wupdate (body : doc) | Wstatus | Wdelete | Wclaim | Wrelease.

#[global] Instance write_kind_eq_dec : EqDecision write_kind.
Proof. solve_decision. Defined.

Inductive course_write (m : gmap ObjId doc) : write_kind → gmap ObjId doc → Prop :=
| cw_none : course_write m Wnone m
| cw_create oid d x :
    m !! oid = None →
    d !! "seats" = Some (bson_number x) → dlt x (of_Z 0) = false →
    d !! "enrollmentCount" = Some (VNum 0) →
    course_write m Wcreate (<[oid := d]> m)
| cw_update oid d d' body fields :
    m !! oid = Some d →
    (∀ k, k ∈ Full.stripped_keys → fields !! k = None) →
    (∀ k, is_Some (fields !! k) → k = "updatedAt" ∨ is_Some (body !! k)) →
    (fields !! "seats" = None
     ∨ ∃ x, fields !! "seats" = Some (bson_number x) ∧ dlt x (of_Z 0) = false) →
    applySet fields d = Some d' →
    course_write m (Wupdate body) (<[oid := d']> m)
| cw_status oid d v :
    m !! oid = Some d →
    course_write m Wstatus (<[oid := {["status" := v]} ∪ d]> m)
| cw_delete oid :
    course_write m Wdelete (delete oid m)
| cw_claim oid d d' :
    m !! oid = Some d → Full.has_seat d = true →
    inc_all Full.claim d = Some d' →
    course_write m Wclaim (<[oid := d']> m)
| cw_release oid d d' :
    m !! oid = Some d →
    inc_all Full.release d = Some d' →
    course_write m Wrelease (<[oid := d']> m).

(** The one kind of write each route can make. *)
Definition write_of (r : Full.request) : write_kind :=
  match r with
  | Full.PostCourse _ _ => Wcreate
  | Full.PutCourse _ _ body => Wupdate body
  | Full.DeleteCourse _ _ => Wdelete
  | Full.PostEnrollment _ _ => Wclaim
  | Full.DeleteEnrollment _ _ _ => Wrelease
  | Full.PatchCourseStatus _ _ _ => Wstatus
  | Full.PutUser _ _ _ | Full.PatchUserRole _ _ _ | Full.PostReview _ _ _ => Wnone
  end.


(** [m'] is [m], or [m] after one write of kind [k]. *)
Definition written (k : write_kind) (m m' : gmap ObjId doc) : Prop :=
  course_write m Wnone m' ∨ course_write m k m'.

(** Before the write: [courses] is still [m0]. *)
Definition before {A} (k : write_kind) (m0 : gmap ObjId doc) (m : M A) : Prop :=
  hoare (λ s, courses s = m0) m
    (λ _ s, written k m0 (courses s)) (λ s, written k m0 (courses s)).

(** After the write: nothing more happens to [courses]. *)
Definition after {A} (k : write_kind) (m0 : gmap ObjId doc) (m : M A) : Prop :=
  hoare (λ s, written k m0 (courses s)) m
    (λ _ s, written k m0 (courses s)) (λ s, written k m0 (courses s)).

End Effects.
End Effects.

(** ** What a request answers and leaves behind, whatever the storage weather *)

Module Outcomes.
Section Outcomes.
Context `{Platform}.

(** The handler [h], run on the connection [c], ends with a response and a
    store that satisfy [Φ]. *)
Definition ends (h : Handler) (c : Conn) (Φ : response → Store → Prop) : Prop :=
  Φ (h c).1 (data (h c).2).

(** The key of an enrollment, as the duplicate check of [POST /enrollments]
    compares it: the user and the [courseId] value as it was sent. *)
Definition pair_of (e : Enrollment) : string * value := (userEmail e, courseId e).

(** [countDocuments({ userEmail })] on a list of enrollments. *)
Definition count_for (email : string) (l : list Enrollment) : nat :=
  length (List.filter (λ e, String.eqb (userEmail e) email) l).

(** What one request can do to [enrollments]: remove records, or append
    one record that passed the duplicate and the quota check and has a fresh
    [_id]. *)
Inductive enrollment_step (l : list Enrollment) : list Enrollment → Prop :=
| es_removed l' : sublist l' l → enrollment_step l l'
| es_added e :
    (count_for (userEmail e) l < 3)%nat →
    pair_of e ∉ (pair_of <$> l) →
    e_id e ∉ (e_id <$> l) →
    enrollment_step l (l ++ [e])%list.

(** No user holds more than three enrollments. *)
Definition within_quota (l : list Enrollment) : Prop :=
  ∀ email, (count_for email l ≤ 3)%nat.

(** No two records carry the same user and the same [courseId] value. *)
Definition no_double (l : list Enrollment) : Prop := NoDup ((pair_of <$> l)).

(** The key of a review: one per user and course. *)
Definition review_key (r : Review) : string * ObjId := (r_userEmail r, courseObjectId r).

(** A rating is a number from 1 to 5. *)
Definition rating_ok (v : value) : Prop :=
  ∃ q, as_Qc v = Some q ∧ Qcle (Qc_of_Z 1) q ∧ Qcle q (Qc_of_Z 5).

(** What one request can do to [reviews], with [es] the enrollments at the
    request: remove reviews, or append one review of an enrolled user. *)
Inductive review_step (es : list Enrollment) (l : list Review) : list Review → Prop :=
| rs_removed l' : sublist l' l → review_step es l l'
| rs_added r :
    review_key r ∉ (review_key <$> l) →
    (r_userEmail r, VStr (r_courseId r)) ∈ (pair_of <$> es) →
    rating_ok (rating r) →
    review_step es l (l ++ [r])%list.

(** The role every email resolves to is the same in [m'] as in [m]. *)
Definition roles_kept (m m' : gmap string doc) : Prop :=
  ∀ email, Full.role_of (m' !! email) = Full.role_of (m !! email).

(** Nobody resolves to the admin role. *)
Definition no_admin (m : gmap string doc) : Prop :=
  ∀ email, Full.role_of (m !! email) ≠ VStr "admin".

(** The credential a request carries. *)
Definition cred_of (r : Full.request) : credential :=
  match r with
  | Full.PutUser cred _ _ | Full.PostCourse cred _ | Full.PutCourse cred _ _
  | Full.DeleteCourse cred _ | Full.PostEnrollment cred _
  | Full.DeleteEnrollment cred _ _ | Full.PatchUserRole cred _ _
  | Full.PatchCourseStatus cred _ _ | Full.PostReview cred _ _ => cred
  end.

(** The request is not a role patch sent with the token of a user whose
    stored role is admin. *)
Definition not_admin_patch (r : Full.request) (m : gmap string doc) : Prop :=
  match r with
  | Full.PatchUserRole (Token caller) _ _ => Full.role_of (m !! caller) ≠ VStr "admin"
  | _ => True
  end.

(** The roles the middleware chain of a route lets through
    ([verifyInstructor], [verifyAdmin]); [None] for a route without a role
    gate. *)
Definition allowed_roles (r : Full.request) : option (list string) :=
  match r with
  | Full.PostCourse _ _ | Full.PutCourse _ _ _ | Full.DeleteCourse _ _ =>
      Some ["instructor"; "admin"]
  | Full.PatchUserRole _ _ _ | Full.PatchCourseStatus _ _ _ => Some ["admin"]
  | _ => None
  end.

(** The enrollments and the reviews of every user but [caller]. *)
Definition others_enrollments (caller : string) (l : list Enrollment) : list Enrollment :=
  List.filter (λ e, negb (String.eqb (userEmail e) caller)) l.
Definition others_reviews (caller : string) (l : list Review) : list Review :=
  List.filter (λ r, negb (String.eqb (r_userEmail r) caller)) l.

(** What a request of [caller] leaves of everybody else's data. *)
Definition others_kept (caller : string) (s s' : Store) : Prop :=
  (∀ e, e ≠ caller → users s' !! e = users s !! e)
  ∧ others_enrollments caller (enrollments s') = others_enrollments caller (enrollments s)
  ∧ others_reviews caller (reviews s') = others_reviews caller (reviews s).

(** A request to the legacy server as it arrives, and the store after a
    sequence of them. *)
Record legacy_arrival := {
  l_now : Z;
  l_freshId : ObjId;
  l_budget : option nat;
  l_request : Legacy.request;
}.

Definition legacy_serve (a : legacy_arrival) (s : Store) : response * Store :=
  let '(r, c) := Legacy.handle (l_now a) (l_freshId a) (l_request a)
                   {| budget := l_budget a; data := s |} in
  (r, data c).

Definition legacy_serve_all (l : list legacy_arrival) (s : Store) : Store :=
  foldl (λ s a, snd (legacy_serve a s)) s l.

End Outcomes.
End Outcomes.

(** ** The routes that only read (the listing after the README) *)

(** What the query engine of the database does with a pattern, a sort key
    and an average.  The order among documents with equal sort keys is the
    server's business: a sort is only known to rearrange its input. *)
Class Engine := {
  (** [{ $regex: pattern, $options: 'i' }] as a test on a string; [None]
      when the server rejects the pattern, which makes the query throw. *)
  regex_i : string → option (string → bool);
  (** [.sort({ key: -1 })] and [{ $sort: { key: -1 } }], with [key] reading
      the sort field off an element. *)
  sort_desc : ∀ A : Type, (A → option value) → list A → list A;
  sort_desc_perm : ∀ A (key : A → option value) (l : list A), sort_desc A key l ≡ₚ l;
  (** [$avg] over the values of a field. *)
  average : list value → value;
  (** [stripe.paymentIntents.create] for a course price, with the course
      identifier and the user email as metadata: the client secret, or
      [None] when the promise is rejected. *)
  paymentIntent : value → value → string → option string;
}.
Arguments sort_desc {_ _} _ _.
Arguments sort_desc_perm {_ _} _ _.

Module Queries.
Section Queries.
Context `{Platform} `{Engine}.

(** [res.json(payload)], or an error response. *)
Inductive answer (A : Type) : Type :=
| Sent (payload : A)
| Refused (r : response).
Arguments Sent {A} payload.
Arguments Refused {A} r.

Definition Query (A : Type) : Type := Conn → answer A * Conn.

Definition refuse {A} (r : response) : Query A := λ c, (Refused r, c).

(** [try { body } catch (err) { res.status(..).json(..) }]. *)
Definition try_send {A} (body : M (answer A)) (on_throw : response) : Query A := λ c,
  match body c with
  | (Returned a, c') => (a, c')
  | (Threw, c') => (Refused on_throw, c')
  end.

(** A query parameter that is present and not the empty string. *)
Definition given (q : option string) : bool :=
  match q with
  | Some s => negb (String.eqb s "")
  | None => false
  end.

(** The filter [{ $or: [{ status: 'approved' }, { status: { $exists: false } }] }]. *)
Definition visible (d : doc) : bool :=
  is_str (d !! "status") "approved" || bool_decide (d !! "status" = None).

(** The filter [{ $or: [{ courseTitle: rx }, { description: rx }] }]: a
    pattern matches string fields only. *)
Definition matches (rx : string → bool) (v : option value) : bool :=
  match v with
  | Some (VStr t) => rx t
  | _ => false
  end.
Definition searched (rx : string → bool) (d : doc) : bool :=
  matches rx (d !! "courseTitle") || matches rx (d !! "description").

(** [coursesCollection.find(query).sort({ key: -1 }).toArray()]; the query
    throws when the server rejects it. *)
Definition courses_find (query : option (doc → bool)) (key : string)
    : Call (list (ObjId * doc)) := λ s,
  match query with
  | None => None
  | Some q =>
      Some (sort_desc (λ x, x.2 !! key)
              (List.filter (λ x, q x.2) (map_to_list (courses s))), s)
  end.

(** The query [GET /courses] builds from the role and the two query
    parameters. *)
Definition courses_query (role : value) (instructorEmail search : option string)
    : option (doc → bool) :=
  let by_role (d : doc) :=
    if negb (is_str (Some role) "admin") then visible d else true in
  let by_instructor (d : doc) :=
    match instructorEmail with
    | Some e =>
        if given instructorEmail && negb (String.eqb e "null")
           && negb (String.eqb e "undefined")
        then is_str (d !! "instructorEmail") e else true
    | None => true
    end in
  match search with
  | Some pattern =>
      if given search then
        rx ← regex_i pattern;
        Some (λ d, by_role d && by_instructor d && searched rx d)
      else Some (λ d, by_role d && by_instructor d)
  | None => Some (λ d, by_role d && by_instructor d)
  end.

(** [GET /courses] (after [getRoleIfAuthenticated]). *)
Definition getCourses (cred : credential) (instructorEmail search : option string)
    : Query (list (ObjId * doc)) := λ c,
  let '(role, c) := Full.getRoleIfAuthenticated cred c in
  try_send
    (result ← await (courses_find (courses_query role instructorEmail search) "createdAt");
     mret (Sent result))
    (Reply 500 "Failed to fetch courses") c.

(** The pipeline of [GET /courses/:id]: the course with [averageRating] and
    [reviewCount] computed from its reviews; at most one document. *)
Definition with_review_fields (rs : list Review) (d : doc) : doc :=
  delete "courseReviews"
    (<["reviewCount" := VNum (Z.of_nat (length rs))]>
    (<["averageRating" := if Nat.ltb 0 (length rs) then average (rating <$> rs)
                          else VNum 0]> d)).

Definition courses_aggregate_reviews (oid : ObjId) : Call (option doc) :=
  read (λ s,
    with_review_fields
      (List.filter (λ r, bool_decide (courseObjectId r = oid)) (reviews s))
    <$> courses s !! oid).

(** [GET /courses/:id] (after [getRoleIfAuthenticated]). *)
Definition getCourse (cred : credential) (id : string) : Query doc := λ c,
  let '(role, c) := Full.getRoleIfAuthenticated cred c in
  match parseObjectId (VStr id) with
  | None => refuse (Reply 400 "Invalid ID") c
  | Some courseObjectId =>
      try_send
        (result ← await (courses_aggregate_reviews courseObjectId);
         match result with
         | None => mret (Refused (Reply 404 "Course not found"))
         | Some course =>
             let hasStatus := bool_decide (course !! "status" ≠ None) in
             if hasStatus && negb (is_str (course !! "status") "approved")
                && negb (is_str (Some role) "admin")
             then mret (Refused (Reply 404 "Course not found or not available."))
             else mret (Sent course)
         end)
        (Reply 500 "Failed to fetch course details") c
  end.

(** The [$project] stage of [GET /popular-courses]: a field that is missing
    in the course is missing in the entry. *)
Definition popular_entry (d : doc) : doc :=
  let put (k : string) (v : option value) (e : doc) : doc :=
    match v with Some x => <[k := x]> e | None => e end in
  put "courseTitle" (d !! "courseTitle")
    (put "imageURL" (d !! "image")
    (put "enrollCount" (d !! "enrollmentCount") ∅)).

(** The pipeline of [GET /popular-courses]: [$match], [$sort], [$limit],
    [$project]. *)
Definition courses_popular : Call (list (ObjId * doc)) :=
  read (λ s,
    prod_map id popular_entry <$>
      take 6 (sort_desc (λ x, x.2 !! "enrollmentCount")
                (List.filter (λ x, visible x.2) (map_to_list (courses s))))).

(** [GET /popular-courses]. *)
Definition getPopularCourses : Query (list (ObjId * doc)) :=
  try_send (popular ← await courses_popular; mret (Sent popular))
    (Reply 500 "Failed to fetch popular courses").

(** [GET /enrolled-status] (after [verifyJWT]): [enrolled] and
    [enrollmentId]. *)
Definition getEnrolledStatus (decodedEmail : string) (email courseId : option string)
    : Query (bool * option ObjId) :=
  match email, courseId with
  | Some email', Some courseId' =>
      if negb (given email) || negb (given courseId)
      then refuse (Reply 400 "Missing params")
      else if negb (String.eqb decodedEmail email')
      then refuse (Reply 403 "Unauthorized")
      else
        try_send
          (enrollment ← await (enrollments_findOne email' (VStr courseId'));
           mret (Sent (bool_decide (is_Some enrollment), e_id <$> enrollment)))
          (Reply 500 "Status check failed")
  | _, _ => refuse (Reply 400 "Missing params")
  end.

(** [GET /users/:email] (after [verifyJWT] and [getUserRole]). *)
Definition getUser (decodedEmail emailParam : string) : Query doc :=
  if negb (String.eqb decodedEmail emailParam) then refuse (Reply 403 "Forbidden")
  else
    try_send
      (user ← await (users_findOne emailParam);
       mret (Sent (default (<["email" := VStr emailParam]>
                            (<["role" := VStr "student"]> ∅)) user)))
      (Reply 500 "Failed to fetch user profile.").

(** [await stripe.paymentIntents.create({...})]. *)
Definition stripe_create (price courseId : value) (userEmail : string) : M string := λ c,
  match paymentIntent price courseId userEmail with
  | Some secret => (Returned secret, c)
  | None => (Threw, c)
  end.

(** [POST /create-payment-intent] (after [verifyJWT]): the client secret. *)
Definition createPaymentIntent (userEmail : string) (body : doc) : Query string :=
  match body !! "courseId" ≫= parseObjectId with
  | None => refuse (Reply 400 "Invalid ID")
  | Some courseObjectId =>
      try_send
        (course ← await (courses_findOne courseObjectId);
         match course with
         | None => mret (Refused (Reply 404 "Course not found"))
         | Some course =>
         let hasStatus := bool_decide (course !! "status" ≠ None) in
         if hasStatus && negb (is_str (course !! "status") "approved")
         then mret (Refused (Reply 400 "Course not approved")) else
         if le0 (course !! "seats") then mret (Refused (Reply 400 "No seats")) else
         let price := course !! "price" in
         if nullish price || le0 price then mret (Refused (Reply 400 "Invalid price")) else
         existingEnrollment ← await (enrollments_findOne userEmail
                                       (stored (body !! "courseId")));
         match existingEnrollment with
         | Some _ => mret (Refused (Reply 400 "Already enrolled"))
         | None =>
         secret ← stripe_create (stored price) (stored (body !! "courseId")) userEmail;
         mret (Sent secret)
         end end)
        (Reply 500 "Payment setup failed")
  end.

(** [verifyJWT, getUserRole] in front of a reading route. *)
Definition with_role {A} (cred : credential) (k : string → value → Query A) : Query A :=
  match Full.verifyJWT cred with
  | inl r => refuse r
  | inr email => λ c,
      match Full.getUserRole email c with
      | (inl r, c') => (Refused r, c')
      | (inr role, c') => k email role c'
      end
  end.

(** [verifyJWT] in front of a reading route. *)
Definition authenticated {A} (cred : credential) (k : string → Query A) : Query A :=
  match Full.verifyJWT cred with
  | inl r => refuse r
  | inr email => k email
  end.

(** The reading route [q], run on the connection [c], ends with an answer
    and a store that satisfy [Φ]. *)
Definition finds {A} (q : Query A) (c : Conn) (Φ : answer A → Store → Prop) : Prop :=
  Φ (q c).1 (data (q c).2).

End Queries.
Arguments Sent {_ A} payload.
Arguments Refused {_ A} r.
End Queries.

(** ** A query engine and scenarios for the worked examples
    
    The engine reads a pattern as a literal, matched anywhere and without
    regard to case, and sorts integers and dates by magnitude; the examples
    only use patterns without metacharacters and sort keys of these kinds. *)

Module Scenarios.
Import Example.

Definition fold_case (a : ascii) : ascii :=
  let n := nat_of_ascii a in
  if Nat.leb 65 n && Nat.leb n 90 then ascii_of_nat (n + 32) else a.

Fixpoint prefix_ci (p s : string) : bool :=
  match p, s with
  | EmptyString, _ => true
  | String a p', String b s' =>
      Ascii.eqb (fold_case a) (fold_case b) && prefix_ci p' s'
  | _, _ => false
  end.

Fixpoint contains_ci (p s : string) : bool :=
  prefix_ci p s
  || match s with
     | EmptyString => false
     | String _ s' => contains_ci p s'
     end.

(** The rank of a kind of value in the sort order, and the order inside
    the integers and the dates. *)
Definition key_rank (v : option value) : Z :=
  match v with
  | None | Some VNull => 0
  | Some (VNum _) | Some (VDbl _) => 1
  | Some (VStr _) => 2
  | Some (VObj _) => 3
  | Some (VBool _) => 4
  | Some (VDate _) => 5
  end.

Definition key_le (a b : option value) : bool :=
  match a, b with
  | Some (VNum x), Some (VNum y) => Z.leb x y
  | Some (VDate x), Some (VDate y) => Z.leb x y
  | _, _ => Z.leb (key_rank a) (key_rank b)
  end.

Fixpoint insert_desc {A} (key : A → option value) (x : A) (l : list A) : list A :=
  match l with
  | [] => [x]
  | y :: l' =>
      if key_le (key y) (key x) then x :: y :: l'
      else y :: insert_desc key x l'
  end.

Definition sort_by {A} (key : A → option value) (l : list A) : list A :=
  foldr (insert_desc key) [] l.

(** The mean of the numbers among the values; [null] when there is none. *)
Definition mean (l : list value) : value :=
  match omap as_Qc l with
  | [] => VNull
  | qs => VDbl (Fin (Qcdiv (foldr Qcplus (Qc_of_Z 0) qs) (Qc_of_Z (Z.of_nat (length qs)))))
  end.

#[export, refine] Instance engine : Engine := {|
  regex_i pattern := Some (contains_ci pattern);
  sort_desc A key l := sort_by key l;
  sort_desc_perm := _;
  average := mean;
  paymentIntent _ _ email := Some ("pi_secret_for_" ++ email);
|}.
Proof.
  intros A key l.
  assert (Hins : ∀ x k, insert_desc key x k ≡ₚ x :: k).
  { intros x k. induction k as [|y k IH]; simpl; [done|].
    destruct (key_le (key y) (key x)); [done|].
    rewrite IH. apply Permutation_swap. }
  induction l as [|x l IH]; simpl; [done|]. by rewrite Hins, IH.
Defined.

(** A request on healthy storage. *)
Definition arrives (now : Z) (freshId : string) (r : Full.request) : Full.arrival :=
  {| Full.a_now := now; Full.a_freshId := freshId; Full.a_budget := None;
     Full.a_request := r |}.

Definition f1 : string := "97e0c3f5d4a6b7c8d9e0f1a1".
Definition f2 : string := "97e0c3f5d4a6b7c8d9e0f1a2".
Definition f3 : string := "97e0c3f5d4a6b7c8d9e0f1a3".
Definition f4 : string := "97e0c3f5d4a6b7c8d9e0f1a4".
Definition f5 : string := "97e0c3f5d4a6b7c8d9e0f1a5".

Definition enrolls (now : Z) (freshId email cid : string) : Full.arrival :=
  arrives now freshId (Full.PostEnrollment (Token email) (enroll_body email cid)).

Definition unenrolls (now : Z) (email cid : string) : Full.arrival :=
  arrives now f5 (Full.DeleteEnrollment (Token email) email cid).

(** Three users go for the two seats of [c5]. *)
Definition rush : list Full.arrival :=
  [enrolls 21 f1 "bob@x.io" c5; enrolls 22 f2 "cat@x.io" c5;
   enrolls 23 f3 "dan@x.io" c5].

(** Bob enrolls in [c1], then Ann leaves it. *)
Definition shuffle : list Full.arrival :=
  [enrolls 21 f1 "bob@x.io" c1; unenrolls 22 "ann@x.io" c1].

(** Bob enrolls in [c1], [c3] and [c5]; the admin approves [c4]; Bob tries
    [c4]. *)
Definition spree : list Full.arrival :=
  [enrolls 21 f1 "bob@x.io" c1; enrolls 22 f2 "bob@x.io" c3;
   enrolls 23 f3 "bob@x.io" c5; admin_approves_c4; enrolls 24 f4 "bob@x.io" c4].

(** Bob enrolls in [c1] twice. *)
Definition twice : list Full.arrival :=
  [enrolls 21 f1 "bob@x.io" c1; enrolls 22 f2 "bob@x.io" c1].

Definition review_body (stars : Z) (text : string) : doc :=
  <["rating" := VNum stars]> (<["comment" := VStr text]> ∅).

(** Bob enrolls in [c1] and reviews it; Ann reviews it a second time. *)
Definition reviewing : list Full.arrival :=
  [enrolls 21 f1 "bob@x.io" c1;
   arrives 22 f2 (Full.PostReview (Token "bob@x.io") c1 (review_body 4 "fine"));
   arrives 23 f3 (Full.PostReview (Token "ann@x.io") c1 (review_body 1 "again"))].

(** [store1] before anybody was made admin. *)
Definition store0 : Store := with_users (delete "root@x.io") store1.

Definition profile_body : doc :=
  <["name" := VStr "Bob"]>
  (<["photoURL" := VStr "bob.png"]>
  (<["role" := VStr "admin"]> ∅)).

(** The instructor asks for the admin role; Bob sends a profile that names
    a role. *)
Definition climbing : list Full.arrival :=
  [arrives 21 f1 (Full.PatchUserRole (Token "teach@x.io") "teach@x.io"
                    {["role" := VStr "admin"]});
   arrives 22 f2 (Full.PutUser (Token "bob@x.io") "bob@x.io" profile_body)].

Definition course_body : doc :=
  <["courseTitle" := VStr "Proofs"]>
  (<["image" := VStr "proofs.png"]>
  (<["seats" := VNum 10]>
  (<["duration" := VStr "6 weeks"]>
  (<["description" := VStr "Induction, mostly"]>
  (<["price" := VNum 30]> ∅))))).

Definition legacy_arrives (now : Z) (freshId : string) (r : Legacy.request)
    : Outcomes.legacy_arrival :=
  {| Outcomes.l_now := now; Outcomes.l_freshId := freshId;
     Outcomes.l_budget := None; Outcomes.l_request := r |}.

(** On the legacy server Bob enrolls in [c1] twice and a seat adjustment
    follows. *)
Definition legacy_twice : list Outcomes.legacy_arrival :=
  [legacy_arrives 21 f1 (Legacy.PostEnrollment (Token "bob@x.io")
                           (enroll_body "bob@x.io" c1));
   legacy_arrives 22 f2 (Legacy.PostEnrollment (Token "bob@x.io")
                           (enroll_body "bob@x.io" c1));
   legacy_arrives 23 f3 (Legacy.PatchSeats (Token "bob@x.io") c1
                           {["increment" := VNum (-5)]})].

(** The identifier of [c1] with its letters in upper case: the same
    [ObjectId], another string. *)
Definition c1_upper : string := "64B7F0C2A1D3E4F5A6B7C8D1".

Definition bob_in_c1_upper : Enrollment :=
  {| e_id := f1; userEmail := "bob@x.io"; courseId := VStr c1_upper;
     courseTitle := VStr "Rocq"; enrolledAt := 21 |}.

(** The admin deletes [c1]. *)
Definition admin_deletes_c1 : Full.arrival :=
  arrives 22 f2 (Full.DeleteCourse (Token "root@x.io") c1).

(** [store1] with the owner of [c2] and [c3] registered as an instructor,
    and with a user whose stored role is the empty string. *)
Definition store1_old : Store :=
  with_users <["old@x.io" := {["role" := VStr "instructor"]}]> store1.
Definition store1_blank : Store :=
  with_users <["zed@x.io" := {["role" := VStr ""]}]> store1.

(** The owner of [c3], a record without [status] and [enrollmentCount],
    sends an update whose names reach into these two fields; and one that
    reaches into the counter only. *)
Definition owner_reaches_in : Full.arrival :=
  arrives 21 f1 (Full.PutCourse (Token "old@x.io") c3
                   (<["status.x" := VNum 1]> {["enrollmentCount.x" := VNum 1]})).
Definition owner_reaches_counter : Full.arrival :=
  arrives 21 f1 (Full.PutCourse (Token "old@x.io") c3
                   {["enrollmentCount.x" := VNum 1]}).

(** A string of [n] nines. *)
Fixpoint nines (n : nat) : string :=
  match n with
  | O => EmptyString
  | S n' => String "9" (nines n')
  end.

(** [store1] with a price of 30 on [c5]. *)
Definition store1_priced : Store :=
  with_courses <[c5 := <["price" := VNum 30]> (course "teach@x.io" "approved" 2 0)]>
    store1.

End Scenarios.

(** * Facts *)

(** ** Running a handler against healthy storage *)

Section Running.
Context `{Platform}.

Lemma await_healthy {A} (call : Call A) (s : Store) :
  await call (healthy s) =
  match call s with
  | Some (a, s') => (Returned a, healthy s')
  | None => (Threw, healthy s)
  end.
Proof. unfold await, healthy; simpl. by destruct (call s) as [[a s']|]. Qed.

Lemma bind_await_healthy {A B} (call : Call A) (k : A → M B) (s : Store) :
  (await call ≫= k) (healthy s) =
  match call s with
  | Some (a, s') => k a (healthy s')
  | None => (Threw, healthy s)
  end.
Proof.
  unfold mbind, M_bind. rewrite await_healthy.
  by destruct (call s) as [[a s']|].
Qed.

Lemma bind_read_healthy {A B} (f : Store → A) (k : A → M B) (s : Store) :
  (await (read f) ≫= k) (healthy s) = k (f s) (healthy s).
Proof. by rewrite bind_await_healthy. Qed.

End Running.

#[local] Arguments Nat.leb !_ !_ /.
#[local] Arguments Nat.eqb !_ !_ /.

Ltac store_proj :=
  cbn [courses users enrollments reviews data budget healthy
       with_courses with_users with_enrollments with_reviews].

Ltac run_healthy :=
  repeat (first [ rewrite bind_read_healthy | rewrite bind_await_healthy ]; cbv beta).

Section Admission.
Context `{Platform}.
Import Protocol.

(** [POST /enrollments] against healthy storage, read off the handler:
    the reads it makes, in its order, up to the reservation. *)
Lemma postEnrollment_healthy (now : Z) (freshId : ObjId)
    (email : string) (body : doc) (s : Store) :
  Full.postEnrollment now freshId email body (healthy s) =
  if missing_field body then (Reply 400 "Missing details", healthy s)
  else if negb (is_str (body !! "userEmail") email)
  then (Reply 403 "Email mismatch", healthy s)
  else
    match body !! "courseId" ≫= parseObjectId with
    | None => (Reply 400 "Invalid Course ID", healthy s)
    | Some oid =>
        if has_enrollment s email (stored (body !! "courseId"))
        then (Reply 400 "Already enrolled", healthy s)
        else if Nat.leb 3 (enrollment_count s email)
        then (Reply 400 "Enrollment limit", healthy s)
        else
          match courses s !! oid with
          | None => (Reply 404 "Course not found", healthy s)
          | Some course =>
              if not_approved course
              then (Reply 400 "Course not approved", healthy s)
              else if le0 (course !! "seats")
              then (Reply 400 "No seats available", healthy s)
              else try_catch (Full.reserve (record_of now freshId email body) oid)
                     (Reply 500 "Enrollment failed") (healthy s)
          end
    end.
Proof.
  unfold Full.postEnrollment. fold (missing_field body).
  destruct (missing_field body); [done|].
  destruct (negb (is_str (body !! "userEmail") email)); [done|].
  destruct (body !! "courseId" ≫= parseObjectId) as [oid|]; [|done].
  unfold has_enrollment, enrollment_count, not_approved, try_catch at 1.
  unfold enrollments_findOne, enrollments_count, courses_findOne.
  run_healthy.
  destruct (find _ _) as [e|] eqn:Hfind.
  { by rewrite bool_decide_eq_true_2 by eauto. }
  rewrite bool_decide_eq_false_2 by (intros [? ?]; done).
  run_healthy.
  destruct (Nat.leb 3 _); [done|].
  run_healthy.
  destruct (courses s !! oid) as [course|]; [|done].
  destruct (bool_decide (course !! "status" ≠ None)
            && negb (is_str (course !! "status") "approved")); [done|].
  by destruct (le0 (course !! "seats")).
Qed.

(** C2, amended.  [POST /enrollments] applies its checks in the order
    presence, identity, well-formed [courseId], duplicate, quota, course
    existence, status, [seats <= 0]; the first failing check gives the
    response and the store is untouched; only when all pass does the handler
    insert the record and attempt the conditional seat claim. *)
Theorem enroll_follows_checked_order (now : Z) (freshId : ObjId)
    (email : string) (body : doc) (s : Store) :
  follows checked_order now freshId email body s.
Proof.
  unfold follows, checked_order, store_checks.
  rewrite postEnrollment_healthy.
  destruct (missing_field body); [done|].
  destruct (negb (is_str (body !! "userEmail") email)); [done|].
  destruct (body !! "courseId" ≫= parseObjectId) as [oid|]; [|done].
  destruct (has_enrollment s email _); [done|].
  destruct (Nat.leb 3 _); [done|].
  destruct (courses s !! oid) as [course|]; [|done].
  destruct (not_approved course); [done|].
  destruct (le0 (course !! "seats")); simpl; [done|].
  by exists oid.
Qed.

(** Removing by [_id] the record that was just appended gives the list
    back, when no older record carries that [_id]. *)
Lemma remove_first_appended (l : list Enrollment) (e : Enrollment) (i : ObjId) :
  e_id e = i →
  existsb (λ e', bool_decide (e_id e' = i)) l = false →
  remove_first (λ e', bool_decide (e_id e' = i)) (l ++ [e]) = (1%nat, l).
Proof.
  intros He. induction l as [|x l IH]; simpl.
  - intros _. by rewrite bool_decide_eq_true_2.
  - intros [Hx Hl]%orb_false_iff. rewrite Hx, (IH Hl). done.
Qed.

(** The reservation itself, from any store: the one the checks saw, or
    one that other requests have changed since (a rival that took the last
    seat).  With no document modified the inserted record is deleted again
    and the store is the one the reservation started from. *)
Lemma reserve_outcome (e : Enrollment) (oid : ObjId) (s s1 s2 : Store)
    (r : UpdateResult) :
  enrollments_insertOne e s = Some (e_id e, s1) →
  courses_inc oid Full.has_seat Full.claim s1 = Some (r, s2) →
  let out := try_catch (Full.reserve e oid) (Reply 500 "Enrollment failed")
               (healthy s) in
  (modifiedCount r = 0%nat →
     out = (Reply 409 "Seat conflict", healthy s)
     ∧ enrollments s1 = (enrollments s ++ [e])%list)
  ∧ (modifiedCount r = 1%nat →
     out = (ReplyId 201 "Enrolled" (e_id e), healthy s2))
  ∧ (modifiedCount r = 0%nat ∨ modifiedCount r = 1%nat).
Proof.
  intros Hins Hinc out.
  assert (Hrun : out = try_catch
            (if Nat.eqb (modifiedCount r) 0
             then await (enrollments_deleteById (e_id e))
                  ≫= λ _, mret (Reply 409 "Seat conflict")
             else mret (ReplyId 201 "Enrolled" (e_id e)))
            (Reply 500 "Enrollment failed") (healthy s2)).
  { subst out. unfold try_catch, Full.reserve.
    run_healthy. rewrite Hins. run_healthy. by rewrite Hinc. }
  clearbody out. subst out.
  unfold enrollments_insertOne in Hins.
  destruct (existsb _ (enrollments s)) eqn:Hfresh; [done|].
  injection Hins as <-.
  assert (Hundo : ∀ s', enrollments s' = enrollments s → courses s' = courses s →
            users s' = users s → reviews s' = reviews s →
            try_catch (await (enrollments_deleteById (e_id e))
                       ≫= λ _, mret (Reply 409 "Seat conflict"))
              (Reply 500 "Enrollment failed")
              (healthy (with_enrollments (λ l, (l ++ [e])%list) s'))
            = (Reply 409 "Seat conflict", healthy s)).
  { intros [cs us es rs] ? ? ? ?; simpl in *; subst.
    unfold try_catch. run_healthy. unfold enrollments_deleteById. simpl.
    rewrite (remove_first_appended _ _ (e_id e)) by done.
    by destruct s. }
  unfold courses_inc in Hinc.
  change (courses (with_enrollments _ s)) with (courses s) in Hinc.
  destruct (courses s !! oid) as [d|] eqn:Hd.
  2:{ injection Hinc as <- <-. simpl.
      split_and!; [intros _|intros [=]|by left].
      split; [|done]. apply (Hundo s); reflexivity. }
  destruct (Full.has_seat d).
  2:{ injection Hinc as <- <-. simpl.
      split_and!; [intros _|intros [=]|by left].
      split; [|done]. apply (Hundo s); reflexivity. }
  destruct (inc_all Full.claim d) as [d'|]; [|done].
  injection Hinc as <- <-. simpl.
  destruct (decide (d' = d)) as [->|Hne]; simpl.
  - split_and!; [intros _|intros [=]|by left].
    split; [|done].
    etrans; [|apply (Hundo (with_courses <[oid := d]> s)); simpl; try done].
    + reflexivity.
    + by rewrite insert_id.
  - split_and!; [intros [=]|intros _; reflexivity|by right].
Qed.

(** C1.  Once a request has passed every admission check, the record is
    inserted and the conditional seat claim attempted.  If the claim
    modifies no document, the inserted record is deleted again, the answer
    is 409 "Seat conflict" and the store is as it was before the request, so
    it holds no enrollment for the (userEmail, courseId) pair; if it
    modifies one document, the answer is 201 "Enrolled". *)
Theorem enroll_claim_or_compensate (now : Z) (freshId : ObjId)
    (email : string) (body : doc) (s s1 s2 : Store) (oid : ObjId)
    (r : UpdateResult) :
  checked_order email body s = Proceed →
  body !! "courseId" ≫= parseObjectId = Some oid →
  enrollments_insertOne (record_of now freshId email body) s = Some (freshId, s1) →
  courses_inc oid Full.has_seat Full.claim s1 = Some (r, s2) →
  let out := Full.postEnrollment now freshId email body (healthy s) in
  (modifiedCount r = 0%nat →
     out = (Reply 409 "Seat conflict", healthy s)
     ∧ enrollments s1 = (enrollments s ++ [record_of now freshId email body])%list
     ∧ List.find (same_pair email (stored (body !! "courseId"))) (enrollments s) = None)
  ∧ (modifiedCount r = 1%nat →
     out = (ReplyId 201 "Enrolled" freshId, healthy s2))
  ∧ (modifiedCount r = 0%nat ∨ modifiedCount r = 1%nat).
Proof.
  intros Hok Hoid Hins Hinc out.
  assert (List.find (same_pair email (stored (body !! "courseId")))
                   (enrollments s) = None
                 ∧ out = try_catch (Full.reserve (record_of now freshId email body) oid)
                           (Reply 500 "Enrollment failed") (healthy s)) as [Hdup ->].
  { subst out. rewrite postEnrollment_healthy.
    revert Hok. unfold checked_order, store_checks, has_enrollment.
    destruct (missing_field body); [done|].
    destruct (negb _); [done|]. rewrite Hoid.
    destruct (List.find _ _); [by rewrite bool_decide_eq_true_2 by eauto|].
    rewrite bool_decide_eq_false_2 by (intros [? ?]; done).
    destruct (Nat.leb 3 _); [done|].
    destruct (courses s !! oid) as [course|]; [|done].
    destruct (not_approved course); [done|].
    by destruct (le0 (course !! "seats")). }
  destruct (reserve_outcome (record_of now freshId email body) oid s s1 s2 r
              Hins Hinc) as (H0 & H1 & H01).
  split_and!; [|done|done].
  intros Hr. destruct (H0 Hr) as [-> ->]. done.
Qed.

End Admission.

(** ** The seat claim and the seat release on a document *)

Section Seats.
Context `{Platform}.
Import Protocol.

Lemma no_overflow (a b : Z) : int64 (a + b) = true → overflows a b = false.
Proof. unfold overflows. intros ->. by rewrite andb_false_r. Qed.

Lemma claim_effect (d : doc) (n m : Z) :
  seats_of d = Some n → count_of d = Some m →
  int64 (n - 1) = true → int64 (m + 1) = true →
  inc_all Full.claim d =
    Some (<["enrollmentCount" := VNum (m + 1)]> (<["seats" := VNum (n - 1)]> d)).
Proof.
  unfold seats_of, count_of, Full.claim, inc_all, inc. intros Hn Hm Hn' Hm'.
  unfold Z.sub in *. change (- (1)) with (-1) in *.
  destruct (d !! "seats") as [[]|] eqn:Hs; try done. injection Hn as ->.
  cbn [add_number]. rewrite (no_overflow _ _ Hn'). simpl.
  rewrite lookup_insert_ne by done.
  destruct (d !! "enrollmentCount") as [[]|]; try done; injection Hm as <-; [|done].
  cbn [add_number]. by rewrite (no_overflow _ _ Hm').
Qed.

Lemma release_effect (d : doc) (n m : Z) :
  seats_of d = Some n → count_of d = Some m →
  int64 (n + 1) = true → int64 (m - 1) = true →
  inc_all Full.release d =
    Some (<["enrollmentCount" := VNum (m - 1)]> (<["seats" := VNum (n + 1)]> d)).
Proof.
  unfold seats_of, count_of, Full.release, inc_all, inc. intros Hn Hm Hn' Hm'.
  unfold Z.sub in *. change (- (1)) with (-1) in *.
  destruct (d !! "seats") as [[]|] eqn:Hs; try done. injection Hn as ->.
  cbn [add_number]. rewrite (no_overflow _ _ Hn'). simpl.
  rewrite lookup_insert_ne by done.
  destruct (d !! "enrollmentCount") as [[]|]; try done; injection Hm as <-; [|done].
  cbn [add_number]. by rewrite (no_overflow _ _ Hm').
Qed.

Lemma int64_iff (z : Z) : int64 z = true ↔ (- 2 ^ 63 ≤ z < 2 ^ 63)%Z.
Proof.
  unfold int64. rewrite andb_true_iff, Z.leb_le, Z.ltb_lt. done.
Qed.

Lemma seats_changed (d : doc) (n k : Z) (d' : doc) :
  seats_of d = Some n → k ≠ n → d' !! "seats" = Some (VNum k) → d' ≠ d.
Proof.
  unfold seats_of. intros Hn Hk Hd' ->. rewrite Hd' in Hn. congruence.
Qed.

Lemma remove_first_none {A} (p : A → bool) (l : list A) :
  List.find p l = None → remove_first p l = (0%nat, l).
Proof.
  induction l as [|x l IH]; simpl; [done|].
  destruct (p x); [done|]. intros Hl. by rewrite (IH Hl).
Qed.

Lemma remove_first_some {A} (p : A → bool) (l : list A) (x : A) :
  List.find p l = Some x → (remove_first p l).1 = 1%nat.
Proof.
  induction l as [|y l IH]; simpl; [done|].
  destruct (p y); [done|]. intros Hl. specialize (IH Hl).
  by destruct (remove_first p l).
Qed.

End Seats.

Section Status.
Context `{Platform}.
Import Protocol.

Lemma has_seat_not_le0 (d : doc) :
  Full.has_seat d = true → le0 (d !! "seats") = false.
Proof.
  unfold Full.has_seat, gt0, le0, toNumber, dle.
  destruct (d !! "seats") as [[]|]; try done.
  - intros ?%Z.ltb_lt. by apply Z.leb_gt.
  - by intros ->.
Qed.

(** C7, amended.  Against a course that has no [status] field the status
    check passes.  With [seats] stored as a positive integer and
    [enrollmentCount] missing or stored as an integer (both within Int64
    after the update) the enrollment is made: 201, the record appended,
    [seats] down by one and [enrollmentCount] up by one.  With [seats]
    above 0 and a field the [$inc] cannot be applied to, the answer is
    500 "Enrollment failed" and the inserted record stays.  A course whose
    [status] is present and is not ['approved'] is answered
    400 "Course not approved" with the store untouched. *)
Theorem enroll_status_check (now : Z) (freshId : ObjId) (email : string)
    (body : doc) (s : Store) (oid : ObjId) (course : doc) :
  reaches_course email body s oid course →
  let out := Full.postEnrollment now freshId email body (healthy s) in
  let recorded :=
    with_enrollments (λ l, (l ++ [record_of now freshId email body])%list) s in
  (course !! "status" = None →
   existsb (λ e', bool_decide (e_id e' = freshId)) (enrollments s) = false →
     (∀ n m, seats_of course = Some n → (0 < n)%Z → int64 n = true →
        count_of course = Some m → int64 (m + 1) = true →
        out = (ReplyId 201 "Enrolled" freshId,
               healthy (with_courses
                 <[oid := <["enrollmentCount" := VNum (m + 1)]>
                            (<["seats" := VNum (n - 1)]> course)]> recorded)))
     ∧ (Full.has_seat course = true → inc_all Full.claim course = None →
        out = (Reply 500 "Enrollment failed", healthy recorded)))
  ∧ (∀ v, course !! "status" = Some v → v ≠ VStr "approved" →
       out = (Reply 400 "Course not approved", healthy s)).
Proof.
  intros (Hmiss & Hid & Hoid & Hdup & Hcount & Hcourse) out recorded.
  assert (Hrun : out =
    try_catch
      (if bool_decide (course !! "status" ≠ None)
          && negb (is_str (course !! "status") "approved")
       then mret (Reply 400 "Course not approved")
       else if le0 (course !! "seats") then mret (Reply 400 "No seats available")
       else Full.reserve (record_of now freshId email body) oid)
      (Reply 500 "Enrollment failed") (healthy s)).
  { subst out. unfold Full.postEnrollment. fold (missing_field body).
    rewrite Hmiss, Hid, Hoid. simpl.
    unfold try_catch, enrollments_findOne, enrollments_count, courses_findOne.
    run_healthy.
    unfold has_enrollment in Hdup.
    destruct (List.find _ _) as [e|].
    { by rewrite bool_decide_eq_true_2 in Hdup by eauto. }
    run_healthy. unfold enrollment_count in Hcount.
    destruct (Nat.leb_spec 3
      (length (List.filter (λ e, String.eqb (userEmail e) email) (enrollments s))))
      as [Hle|_]; [lia|].
    run_healthy. by rewrite Hcourse. }
  clearbody out. subst out. split.
  - intros Hst Hfresh. rewrite Hst. simpl. split.
    + intros n m Hn Hpos Hn64 Hm Hm64.
      assert (Hseat : Full.has_seat course = true).
      { unfold Full.has_seat, gt0. unfold seats_of in Hn.
        destruct (course !! "seats") as [[]|]; try done.
        injection Hn as ->. by apply Z.ltb_lt. }
      rewrite (has_seat_not_le0 _ Hseat).
      unfold try_catch, Full.reserve. run_healthy.
      unfold enrollments_insertOne. store_proj. cbn [e_id record_of].
      rewrite Hfresh. run_healthy.
      unfold courses_inc. store_proj. rewrite Hcourse.
      assert (Hn' : int64 (n - 1) = true).
      { unfold int64 in *. apply andb_prop in Hn64 as [?%Z.leb_le ?%Z.ltb_lt].
        apply andb_true_intro. split; [apply Z.leb_le|apply Z.ltb_lt]; lia. }
      rewrite Hseat, (claim_effect course n m) by done.
      rewrite decide_False; [done|].
      apply (seats_changed _ n (n - 1)); [done|lia|].
      rewrite lookup_insert_ne by done. by rewrite lookup_insert_eq.
    + intros Hseat Hfail. change (inc_all Full.claim course = None) in Hfail.
      rewrite (has_seat_not_le0 _ Hseat).
      unfold try_catch, Full.reserve. run_healthy.
      unfold enrollments_insertOne. store_proj. cbn [e_id record_of].
      rewrite Hfresh. run_healthy.
      unfold courses_inc. store_proj. by rewrite Hcourse, Hseat, Hfail.
  - intros v Hst Hv. rewrite Hst.
    rewrite bool_decide_eq_true_2 by done.
    assert (is_str (Some v) "approved" = false) as ->; [|done].
    destruct v; try done. simpl. apply String.eqb_neq. congruence.
Qed.

(** C8, amended.  For an unenroll request whose caller email is the target
    email and whose [courseId] is well-formed: with no matching enrollment the
    answer is 404 "Not enrolled" and the store is untouched; otherwise the
    first matching enrollment is deleted, and then: when the course does not
    exist the answer is 200 and no course is touched; when it holds [seats]
    as an integer and [enrollmentCount] as an integer or not at all (both
    within Int64 after the update) the answer is 200 with [seats] up by one
    and [enrollmentCount] down by one; when the [$inc] cannot be applied
    to the course the answer is 500 "Unenroll failed" and the enrollment
    stays deleted. *)
Theorem unenroll_releases_seat (now : Z) (freshId : ObjId)
    (email courseId : string) (s : Store) (oid : ObjId) :
  parseObjectId (VStr courseId) = Some oid →
  let out := Full.handle now freshId
               (Full.DeleteEnrollment (Token email) email courseId) (healthy s) in
  let s1 := with_enrollments
              (λ l, (remove_first (same_pair email (VStr courseId)) l).2) s in
  (List.find (same_pair email (VStr courseId)) (enrollments s) = None →
     out = (Reply 404 "Not enrolled", healthy s))
  ∧ (is_Some (List.find (same_pair email (VStr courseId)) (enrollments s)) →
       (courses s !! oid = None → out = (Reply 200 "Unenrolled", healthy s1))
       ∧ (∀ d n m, courses s !! oid = Some d →
            seats_of d = Some n → count_of d = Some m →
            int64 (n + 1) = true → int64 (m - 1) = true →
            out = (Reply 200 "Unenrolled",
                   healthy (with_courses
                     <[oid := <["enrollmentCount" := VNum (m - 1)]>
                                (<["seats" := VNum (n + 1)]> d)]> s1)))
       ∧ (∀ d, courses s !! oid = Some d → inc_all Full.release d = None →
            out = (Reply 500 "Unenroll failed", healthy s1))).
Proof.
  intros Hoid out s1.
  assert (Hrun : out =
    try_catch
      (deleted ← await (enrollments_deleteOne email (VStr courseId));
       if Nat.eqb deleted 0 then mret (Reply 404 "Not enrolled") else
       _ ← await (courses_inc oid (λ _, true) Full.release);
       mret (Reply 200 "Unenrolled"))
      (Reply 500 "Unenroll failed") (healthy s)).
  { subst out. unfold Full.handle, Full.authenticated, Full.deleteEnrollment. simpl.
    by rewrite String.eqb_refl, Hoid. }
  clearbody out. subst out. unfold try_catch. run_healthy.
  unfold enrollments_deleteOne. split.
  - intros Hnone. rewrite (remove_first_none _ _ Hnone). simpl.
    by destruct s.
  - intros [e He]. pose proof (remove_first_some _ _ _ He) as H1.
    destruct (remove_first _ (enrollments s)) as [k l] eqn:Hrm.
    simpl in H1. subst k. simpl.
    assert (s1 = with_enrollments (λ _, l) s) as ->.
    { subst s1. unfold with_enrollments. simpl. by rewrite Hrm. }
    split_and!.
    + intros Hc. run_healthy. unfold courses_inc. store_proj. by rewrite Hc.
    + intros d n m Hc Hn Hm Hn' Hm'. run_healthy. unfold courses_inc. store_proj.
      by rewrite Hc, (release_effect d n m) by done.
    + intros d Hc Hfail. change (inc_all Full.release d = None) in Hfail.
      run_healthy. unfold courses_inc. store_proj.
      by rewrite Hc, Hfail.
Qed.

End Status.

Section Roles.
Context `{Platform}.

Lemma bind_await_counted {A B} (call : Call A) (k : A → M B) (n : nat) (s : Store) :
  (await call ≫= k) {| budget := Some (S n); data := s |} =
  match call s with
  | Some (a, s') => k a {| budget := Some n; data := s' |}
  | None => (Threw, {| budget := Some n; data := s |})
  end.
Proof.
  unfold mbind, M_bind, await; simpl. by destruct (call s) as [[a s']|].
Qed.

Lemma getUserRole_answers (email : string) (b : option nat) (s : Store) :
  email ≠ "" → b ≠ Some 0%nat →
  Full.getUserRole email {| budget := b; data := s |} =
  (inr (Full.role_of (users s !! email)),
   {| budget := Nat.pred <$> b; data := s |}).
Proof.
  intros Hemail Hb. unfold Full.getUserRole.
  rewrite (proj2 (String.eqb_neq _ _) Hemail).
  by destruct b as [[|n]|].
Qed.

(** C9, amended.  With a verified email the role is read from the user
    record, by [getUserRole] and on the best-effort path alike: a stored
    role that is truthy is taken as it is; a missing record, a record
    without a role, and a stored role that is falsy (the empty string,
    [null], [false], 0) all give ['student'], and the request goes on.
    [getUserRole] answers the 500 of the role lookup exactly when the
    storage fails at that lookup; on the best-effort path a storage failure
    gives ['guest'], as a request without a valid token gets, and the
    request goes on. *)
Theorem role_resolution (email : string) (c : Conn) :
  email ≠ "" →
  let out := Full.getUserRole email c in
  let best := Full.getRoleIfAuthenticated (Token email) c in
  let resolved := Full.role_of (users (data c) !! email) in
  let after := {| budget := Nat.pred <$> budget c; data := data c |} in
  (budget c ≠ Some 0%nat →
     out = (inr resolved, after) ∧ best = (resolved, after))
  ∧ (∀ u r, users (data c) !! email = Some u → u !! "role" = Some r →
       truthy (Some r) = true → resolved = r)
  ∧ (∀ u, users (data c) !! email = Some u → truthy (u !! "role") = false →
       resolved = VStr "student")
  ∧ (users (data c) !! email = None → resolved = VStr "student")
  ∧ (out.1 = inl (Reply 500 "Server error checking user role.")
     ↔ budget c = Some 0%nat)
  ∧ (budget c = Some 0%nat → best = (VStr "guest", c))
  ∧ (∀ cred, (∀ e, cred ≠ Token e) →
       Full.getRoleIfAuthenticated cred c = (VStr "guest", c)).
Proof.
  intros Hemail out best resolved after.
  assert (Hne : String.eqb email "" = false) by by apply String.eqb_neq.
  assert (Hguest : ∀ cred, (∀ e, cred ≠ Token e) →
            Full.getRoleIfAuthenticated cred c = (VStr "guest", c)).
  { intros [| |e] He; [done|done|]. by destruct (He e). }
  assert (Hrole : (∀ u r, users (data c) !! email = Some u → u !! "role" = Some r →
                     truthy (Some r) = true → resolved = r)
                  ∧ (∀ u, users (data c) !! email = Some u →
                     truthy (u !! "role") = false → resolved = VStr "student")
                  ∧ (users (data c) !! email = None → resolved = VStr "student")).
  { subst resolved. unfold Full.role_of. split_and!.
    - intros u r -> Hr Ht. cbn [mbind option_bind]. by rewrite Hr, Ht.
    - intros u -> Hf. cbn [mbind option_bind].
      destruct (u !! "role") as [r|]; [|done]. by rewrite Hf.
    - by intros ->. }
  destruct Hrole as (Hstored & Hfalsy & Hmissing).
  subst out best after. unfold Full.getUserRole, Full.getRoleIfAuthenticated.
  rewrite Hne. destruct c as [[[|n]|] s]; simpl.
  - by split_and!.
  - by split_and!.
  - by split_and!.
Qed.

(** X29.  [DELETE /courses/:id] on an existing course: an instructor who is
    not the course's [instructorEmail] is answered 403 and nothing changes;
    an admin is answered 200, the course is gone, and so are every
    enrollment whose stored [courseId] is the very string of the request and
    every review of the course; the other enrollments stay.  The
    enrollments go first: when the storage fails at the last call, they
    are already deleted and the reviews are still there. *)
Theorem delete_course_ownership (now : Z) (freshId : ObjId)
    (email id : string) (s : Store) (oid : ObjId) (course : doc) :
  email ≠ "" →
  parseObjectId (VStr id) = Some oid →
  courses s !! oid = Some course →
  let run := Full.handle now freshId (Full.DeleteCourse (Token email) id) in
  let without_enrollments :=
    with_enrollments (List.filter (λ e, negb (bool_decide (courseId e = VStr id))))
      (with_courses (delete oid) s) in
  (Full.role_of (users s !! email) = VStr "instructor" →
   is_str (course !! "instructorEmail") email = false →
     run (healthy s) = (Reply 403 "Forbidden: Not your course", healthy s))
  ∧ (Full.role_of (users s !! email) = VStr "admin" →
     run (healthy s) =
       (Reply 200 "Course and related data deleted",
        healthy (with_reviews
                   (List.filter (λ r, negb (bool_decide (courseObjectId r = oid))))
                   without_enrollments))
     ∧ run {| budget := Some 4%nat; data := s |} =
       (Reply 500 "Failed to delete course",
        {| budget := Some 0%nat; data := without_enrollments |})).
Proof.
  intros Hemail Hoid Hcourse run without_enrollments.
  subst run. unfold Full.handle, Full.with_role, Full.authenticated.
  cbn [Full.verifyJWT]. split.
  - intros Hrole Hown. unfold healthy. rewrite getUserRole_answers by done.
    rewrite Hrole. cbn [Full.verifyInstructor Full.gate is_str String.eqb].
    simpl. unfold Full.deleteCourse. rewrite Hoid.
    unfold try_catch, courses_findOne.
    change {| budget := None; data := s |} with (healthy s).
    run_healthy. rewrite Hcourse. by rewrite Hown.
  - intros Hrole. split.
    + unfold healthy. rewrite getUserRole_answers by done.
      rewrite Hrole. simpl. unfold Full.deleteCourse. rewrite Hoid.
      unfold try_catch, courses_findOne.
      change {| budget := None; data := s |} with (healthy s).
      run_healthy. rewrite Hcourse. simpl.
      unfold courses_deleteOne. run_healthy. rewrite Hcourse. simpl.
      unfold enrollments_deleteMany, reviews_deleteMany. by run_healthy.
    + rewrite getUserRole_answers by done.
      rewrite Hrole. simpl. unfold Full.deleteCourse. rewrite Hoid.
      unfold try_catch, courses_findOne.
      rewrite bind_await_counted. simpl. rewrite Hcourse. simpl.
      unfold courses_deleteOne. rewrite bind_await_counted, Hcourse. simpl.
      reflexivity.
Qed.

End Roles.

(** ** Every request writes [courses] at most once, in the way of its route *)

Section OneWrite.
Context `{Platform}.
Import Protocol Effects.

Lemma hoare_ret {A} (P : Store → Prop) (a : A) Q E :
  (∀ s, P s → Q a s) → hoare P (mret a) Q E.
Proof. intros HPQ c Hc. by apply HPQ. Qed.

Lemma hoare_bind {A B} P (m : M A) (k : A → M B) R Q E :
  hoare P m R E → (∀ a, hoare (R a) (k a) Q E) → hoare P (m ≫= k) Q E.
Proof.
  intros Hm Hk c Hc. specialize (Hm c Hc). unfold mbind, M_bind.
  destruct (m c) as [[a|] c']; [|done]. by apply Hk.
Qed.

Lemma hoare_await {A} P (call : Call A) Q E :
  (∀ s, P s → E s) →
  (∀ s a s', P s → call s = Some (a, s') → Q a s') →
  hoare P (await call) Q E.
Proof.
  intros HE HQ [b s] Hs. unfold await; simpl in *.
  destruct b as [[|n]|]; [by apply HE| |];
    (destruct (call s) as [[a s']|] eqn:Hcall; simpl; [by eapply HQ|by apply HE]).
Qed.

Lemma try_catch_post (P Q : Store → Prop) (m : M response) (r : response) (c : Conn) :
  hoare P m (λ _, Q) Q → P (data c) → Q (data (try_catch m r c).2).
Proof.
  intros Hm Hc. specialize (Hm c Hc). unfold try_catch.
  by destruct (m c) as [[a|] c'].
Qed.

Lemma written_refl k m0 : written k m0 m0.
Proof. left. constructor. Qed.

Lemma before_ret {A} k m0 (a : A) : before k m0 (mret a).
Proof. apply hoare_ret. intros s <-. apply written_refl. Qed.

Lemma after_ret {A} k m0 (a : A) : after k m0 (mret a).
Proof. by apply hoare_ret. Qed.

Lemma before_keep {A B} k m0 (call : Call A) (f : A → M B) :
  keeps_courses call → (∀ a, before k m0 (f a)) → before k m0 (await call ≫= f).
Proof.
  intros Hkeep Hf.
  apply (hoare_bind _ _ _ (λ _ s, courses s = m0)); [|done].
  apply hoare_await.
  - intros s <-. apply written_refl.
  - intros s a s' <- Hcall. by apply (Hkeep _ _ _ Hcall).
Qed.

Lemma after_keep {A B} k m0 (call : Call A) (f : A → M B) :
  keeps_courses call → (∀ a, after k m0 (f a)) → after k m0 (await call ≫= f).
Proof.
  intros Hkeep Hf.
  apply (hoare_bind _ _ _ (λ _ s, written k m0 (courses s))); [|done].
  apply hoare_await; [done|].
  intros s a s' Hs Hcall. by rewrite (Hkeep _ _ _ Hcall).
Qed.

Lemma before_write {A B} k m0 (call : Call A) (f : A → M B) :
  (∀ s a s', courses s = m0 → call s = Some (a, s') → written k m0 (courses s')) →
  (∀ a, after k m0 (f a)) → before k m0 (await call ≫= f).
Proof.
  intros Hcall Hf.
  apply (hoare_bind _ _ _ (λ _ s, written k m0 (courses s))); [|done].
  apply hoare_await.
  - intros s <-. apply written_refl.
  - intros s a s' Hs Hc. by eapply Hcall.
Qed.

Lemma before_try k (m : M response) (r : response) (c : Conn) :
  before k (courses (data c)) m →
  written k (courses (data c)) (courses (data (try_catch m r c).2)).
Proof.
  intros Hm.
  by apply (try_catch_post (λ s, courses s = courses (data c))
              (λ s, written k (courses (data c)) (courses s))).
Qed.

Lemma keeps_read {A} (f : Store → A) : keeps_courses (read f).
Proof. by intros s a s' [= _ <-]. Qed.

Lemma keeps_enrollments_insertOne e : keeps_courses (enrollments_insertOne e).
Proof.
  intros s a s'. unfold enrollments_insertOne.
  destruct (existsb _ _); [done|]. by intros [= _ <-].
Qed.

Lemma keeps_enrollments_deleteById i : keeps_courses (enrollments_deleteById i).
Proof.
  intros s a s'. unfold enrollments_deleteById.
  destruct (remove_first _ _). by intros [= _ <-].
Qed.

Lemma keeps_enrollments_deleteOne e v : keeps_courses (enrollments_deleteOne e v).
Proof.
  intros s a s'. unfold enrollments_deleteOne.
  destruct (remove_first _ _). by intros [= _ <-].
Qed.

Lemma keeps_enrollments_deleteMany v : keeps_courses (enrollments_deleteMany v).
Proof. intros s a s'. unfold enrollments_deleteMany. simpl. by intros [= _ <-]. Qed.

Lemma keeps_reviews_deleteMany o : keeps_courses (reviews_deleteMany o).
Proof. intros s a s'. unfold reviews_deleteMany. simpl. by intros [= _ <-]. Qed.

Lemma keeps_reviews_insertOne r : keeps_courses (reviews_insertOne r).
Proof.
  intros s a s'. unfold reviews_insertOne.
  destruct (existsb _ _); [done|]. by intros [= _ <-].
Qed.

Lemma keeps_users_upsert e f g : keeps_courses (users_upsert e f g).
Proof.
  intros s a s'. unfold users_upsert.
  destruct (users s !! e); by intros [= _ <-].
Qed.

Lemma keeps_users_set e f : keeps_courses (users_set e f).
Proof.
  intros s a s'. unfold users_set.
  destruct (users s !! e); by intros [= _ <-].
Qed.

End OneWrite.

Create HintDb keeps.
#[global] Hint Resolve keeps_read keeps_enrollments_insertOne
  keeps_enrollments_deleteById keeps_enrollments_deleteOne
  keeps_enrollments_deleteMany keeps_reviews_deleteMany keeps_reviews_insertOne
  keeps_users_upsert keeps_users_set : keeps.

(** One step through a handler body that does not write [courses] any more
    (or not yet). *)
Ltac quiet_step :=
  lazymatch goal with
  | |- Effects.before _ _ (mret _) => apply before_ret
  | |- Effects.after _ _ (mret _) => apply after_ret
  | |- Effects.before _ _ (await _ ≫= _) =>
      apply before_keep; [solve [unfold enrollments_findOne, enrollments_count,
        courses_findOne, users_findOne, reviews_findOne; auto with keeps]|intros ?]
  | |- Effects.after _ _ (await _ ≫= _) =>
      apply after_keep; [solve [unfold enrollments_findOne, enrollments_count,
        courses_findOne, users_findOne, reviews_findOne; auto with keeps]|intros ?]
  | |- Effects.before _ _ (match ?x with _ => _ end) => destruct x eqn:?
  | |- Effects.after _ _ (match ?x with _ => _ end) => destruct x eqn:?
  end.

Section Routes.
Context `{Platform}.
Import Protocol Effects.

Lemma strip_lookup_in (ks : list string) (d : doc) (k : string) :
  k ∈ ks → strip ks d !! k = None.
Proof.
  unfold strip. induction ks as [|k' ks IH]; simpl; [by intros ?%elem_of_nil|].
  intros [->|Hin]%elem_of_cons; [by rewrite lookup_delete_eq|].
  destruct (decide (k' = k)) as [->|Hne]; [by rewrite lookup_delete_eq|].
  rewrite lookup_delete_ne by done. by apply IH.
Qed.

Lemma strip_is_Some (ks : list string) (d : doc) (k : string) :
  is_Some (strip ks d !! k) → is_Some (d !! k).
Proof.
  unfold strip. induction ks as [|k' ks IH]; simpl; [done|].
  destruct (decide (k' = k)) as [->|Hne]; [rewrite lookup_delete_eq; by intros [? ?]|].
  by rewrite lookup_delete_ne.
Qed.

Lemma check_seats_inr (u u' : doc) :
  Full.check_seats u = inr u' →
  (∀ k, k ≠ "seats" → u' !! k = u !! k)
  ∧ (∀ k, is_Some (u' !! k) → is_Some (u !! k))
  ∧ (u' !! "seats" = None
     ∨ ∃ x, u' !! "seats" = Some (bson_number x) ∧ dlt x (of_Z 0) = false).
Proof.
  unfold Full.check_seats. destruct (u !! "seats") as [v|] eqn:Hs.
  - destruct (parseInt10 v) as [x|]; [|done].
    destruct (dlt x (of_Z 0)) eqn:Hx; [done|]. intros [= <-]. split_and!.
    + intros k Hk. by rewrite lookup_insert_ne.
    + intros k. destruct (decide (k = "seats")) as [->|Hk]; [by rewrite Hs|].
      by rewrite lookup_insert_ne.
    + right. exists x. by rewrite lookup_insert_eq.
  - intros [= <-]. split_and!; [done|done|by left].
Qed.

Lemma check_price_inr (u u' : doc) :
  Full.check_price u = inr u' →
  (∀ k, k ≠ "price" → u' !! k = u !! k)
  ∧ (∀ k, is_Some (u' !! k) → is_Some (u !! k)).
Proof.
  unfold Full.check_price. destruct (u !! "price") as [v|] eqn:Hp.
  - destruct (parseFloat v) as [x|]; [|done].
    destruct (dlt x (of_Z 0)); [done|]. intros [= <-]. split.
    + intros k Hk. by rewrite lookup_insert_ne.
    + intros k. destruct (decide (k = "price")) as [->|Hk]; [by rewrite Hp|].
      by rewrite lookup_insert_ne.
  - by intros [= <-].
Qed.

(** [{ $set: { k: v } }] on [courses] for one plain name. *)
Lemma courses_set_plain (oid : ObjId) (k : string) (v : value) (s : Store) :
  plain k = true →
  courses_set oid {[k := v]} s =
  match courses s !! oid with
  | None => Some ({| matchedCount := 0; modifiedCount := 0 |}, s)
  | Some d =>
      Some ({| matchedCount := 1;
               modifiedCount := if decide ({[k := v]} ∪ d = d) then 0 else 1 |},
            with_courses <[oid := {[k := v]} ∪ d]> s)
  end.
Proof.
  intros Hk. unfold courses_set.
  assert (Hplain : ∀ k', is_Some (({[k := v]} : doc) !! k') → plain k' = true).
  { intros k' [w [<- _]%lookup_singleton_Some]. done. }
  assert (Hne : ({[k := v]} : doc) ≠ ∅) by apply insert_non_empty.
  rewrite setValid_plain by done. simpl.
  destruct (courses s !! oid) as [d|]; [|done].
  by rewrite applySet_plain.
Qed.

(** An update of one course leaves every other course. *)
Lemma courses_set_other (target oid : ObjId) (fields : doc) (s s1 : Store)
    (res : UpdateResult) :
  courses_set target fields s = Some (res, s1) → target ≠ oid →
  courses s1 !! oid = courses s !! oid.
Proof.
  unfold courses_set. intros Hset Hne.
  destruct (negb _); [done|].
  destruct (courses s !! target); [|by injection Hset as <- <-].
  destruct (applySet _ _); [|done]. injection Hset as <- <-.
  cbn [courses with_courses]. by rewrite lookup_insert_ne.
Qed.

(** An update writes [courses] only. *)
Lemma courses_set_rest (target : ObjId) (fields : doc) (s s1 : Store)
    (res : UpdateResult) :
  courses_set target fields s = Some (res, s1) →
  users s1 = users s ∧ enrollments s1 = enrollments s ∧ reviews s1 = reviews s.
Proof.
  unfold courses_set. intros Hset.
  destruct (negb _); [done|].
  destruct (courses s !! target); [|by injection Hset as <- <-].
  destruct (applySet _ _); [|done]. by injection Hset as <- <-.
Qed.

Lemma postEnrollment_written now freshId email body c :
  written Wclaim (courses (data c))
    (courses (data (Full.postEnrollment now freshId email body c).2)).
Proof.
  unfold Full.postEnrollment.
  destruct (_ || _); [apply written_refl|].
  destruct (negb _); [apply written_refl|].
  destruct (_ ≫= parseObjectId) as [oid|]; [|apply written_refl].
  apply before_try. repeat quiet_step.
  unfold Full.reserve.
  apply before_keep; [auto with keeps|intros inserted].
  apply before_write.
  - intros st res st' <-. unfold courses_inc.
    destruct (courses st !! oid) as [d|] eqn:Hd; [|intros [= _ <-]; apply written_refl].
    destruct (Full.has_seat d) eqn:Hseat; [|intros [= _ <-]; apply written_refl].
    destruct (inc_all Full.claim d) as [d'|] eqn:Hinc; [|done].
    intros [= _ <-]. right. simpl. by econstructor.
  - intros res. repeat quiet_step.
Qed.

Lemma deleteEnrollment_written decoded email courseId c :
  written Wrelease (courses (data c))
    (courses (data (Full.deleteEnrollment decoded email courseId c).2)).
Proof.
  unfold Full.deleteEnrollment.
  destruct (negb _); [apply written_refl|].
  destruct (parseObjectId _) as [oid|]; [|apply written_refl].
  apply before_try. repeat quiet_step.
  apply before_write.
  - intros st res st' <-. unfold courses_inc.
    destruct (courses st !! oid) as [d|] eqn:Hd; [|intros [= _ <-]; apply written_refl].
    destruct (inc_all Full.release d) as [d'|] eqn:Hinc; [|done].
    intros [= _ <-]. right. simpl. by econstructor.
  - intros res. repeat quiet_step.
Qed.

Lemma deleteCourse_written role email id c :
  written Wdelete (courses (data c))
    (courses (data (Full.deleteCourse role email id c).2)).
Proof.
  unfold Full.deleteCourse.
  destruct (parseObjectId _) as [oid|]; [|apply written_refl].
  apply before_try. repeat quiet_step.
  apply before_write.
  - intros st res st' <-. unfold courses_deleteOne.
    destruct (courses st !! oid); intros [= _ <-]; [|apply written_refl].
    right. simpl. constructor.
  - intros res. repeat quiet_step.
Qed.

Lemma patchCourseStatus_written id body c :
  written Wstatus (courses (data c))
    (courses (data (Full.patchCourseStatus id body c).2)).
Proof.
  unfold Full.patchCourseStatus.
  destruct (body !! "status") as [[]|]; try apply written_refl.
  destruct (negb _); [apply written_refl|].
  destruct (parseObjectId _) as [oid|]; [|apply written_refl].
  apply before_try.
  apply before_write.
  - intros st res st' <-. rewrite courses_set_plain by done.
    destruct (courses st !! oid) eqn:Hd; intros [= _ <-]; [|apply written_refl].
    right. simpl. by constructor.
  - intros res. repeat quiet_step.
Qed.

Lemma putCourse_written now role email id body c :
  written (Wupdate body) (courses (data c))
    (courses (data (Full.putCourse now role email id body c).2)).
Proof.
  unfold Full.putCourse.
  destruct (parseObjectId _) as [oid|]; [|apply written_refl].
  apply before_try. repeat quiet_step.
  match goal with Hs : Full.check_seats _ = inr _ |- _ =>
    apply check_seats_inr in Hs as (Hsame & Hfrom & Hseats) end.
  match goal with Hp : Full.check_price _ = inr _ |- _ =>
    apply check_price_inr in Hp as (Hprice & Hfrom') end.
  apply before_write.
  - intros st res st' <-. unfold courses_set.
    destruct (negb (setValid _)); [done|].
    destruct (courses st !! oid) as [d0|] eqn:Hd; [|intros [= _ <-]; apply written_refl].
    destruct (applySet _ d0) as [d1|] eqn:Hset; [|done]. intros [= _ <-].
    right. simpl. eapply cw_update; [done| | | |exact Hset].
    + intros k Hk.
      assert (k ≠ "updatedAt" ∧ k ≠ "price" ∧ k ≠ "seats") as (? & ? & ?).
      { unfold Full.stripped_keys in Hk.
        repeat (apply elem_of_cons in Hk as [->|Hk]; [done|]).
        by apply elem_of_nil in Hk. }
      rewrite lookup_insert_ne, Hprice, Hsame by done.
      by apply strip_lookup_in.
    + intros k. destruct (decide (k = "updatedAt")) as [->|Hk]; [by left|].
      rewrite lookup_insert_ne by done. intros Hsome. right.
      by eapply strip_is_Some, Hfrom, Hfrom'.
    + rewrite lookup_insert_ne, Hprice by done. done.
  - intros res. repeat quiet_step.
Qed.

End Routes.

Section Dispatch.
Context `{Platform}.
Import Protocol Effects.

Lemma postCourse_written now freshId role email body c :
  written Wcreate (courses (data c))
    (courses (data (Full.postCourse now freshId role email body c).2)).
Proof.
  unfold Full.postCourse.
  destruct (_ || _); [apply written_refl|].
  destruct (_ ≫= parseInt10) as [n|]; [|apply written_refl].
  destruct (_ ≫= parseFloat) as [p|]; [|apply written_refl].
  destruct (dlt p _); [apply written_refl|]. simpl.
  destruct (dlt n (of_Z 0)) eqn:Hn; [apply written_refl|].
  destruct (_ && _); [apply written_refl|].
  apply before_try.
  apply before_write.
  - intros st res st' <-. unfold courses_insertOne.
    destruct (courses st !! freshId) eqn:Hd; [done|]. intros [= _ <-].
    right. simpl. apply (cw_create _ _ _ n); [done| |done|].
    + by simplify_map_eq.
    + by simplify_map_eq.
  - intros res. repeat quiet_step.
Qed.

Lemma putUser_written now decoded email body c :
  written Wnone (courses (data c))
    (courses (data (Full.putUser now decoded email body c).2)).
Proof.
  unfold Full.putUser.
  destruct (negb _); [apply written_refl|].
  destruct (_ || _); [apply written_refl|].
  apply before_try. repeat quiet_step.
Qed.

Lemma patchUserRole_written email body c :
  written Wnone (courses (data c))
    (courses (data (Full.patchUserRole email body c).2)).
Proof.
  unfold Full.patchUserRole.
  destruct (body !! "role") as [[]|]; try apply written_refl.
  destruct (negb _); [apply written_refl|].
  apply before_try. repeat quiet_step.
Qed.

Lemma postReview_written now freshId email id body c :
  written Wnone (courses (data c))
    (courses (data (Full.postReview now freshId email id body c).2)).
Proof.
  unfold Full.postReview.
  destruct (parseObjectId _) as [oid|]; [|apply written_refl].
  destruct (_ || _); [apply written_refl|].
  destruct (body !! "comment") as [[]|]; try apply written_refl.
  destruct (_ || _); [apply written_refl|].
  apply before_try. repeat quiet_step.
Qed.

Lemma getUserRole_data email c : data (Full.getUserRole email c).2 = data c.
Proof.
  unfold Full.getUserRole. destruct (String.eqb email ""); [done|].
  unfold await, users_findOne, read. by destruct (budget c) as [[|n]|].
Qed.

Lemma with_role_written k cred (h : string → value → Handler) c :
  (∀ email role c', written k (courses (data c')) (courses (data (h email role c').2))) →
  written k (courses (data c)) (courses (data (Full.with_role cred h c).2)).
Proof.
  intros Hh. unfold Full.with_role, Full.authenticated.
  destruct (Full.verifyJWT cred) as [r|email]; [apply written_refl|].
  pose proof (getUserRole_data email c) as Hdata.
  destruct (Full.getUserRole email c) as [[r|role] c']; simpl in *.
  - rewrite Hdata. apply written_refl.
  - rewrite <- Hdata. apply Hh.
Qed.

Lemma gate_written k g (h : Handler) c :
  written k (courses (data c)) (courses (data (h c).2)) →
  written k (courses (data c)) (courses (data (Full.gate g h c).2)).
Proof. destruct g; [intros _; apply written_refl|done]. Qed.

(** A request leaves [courses] as it was, or writes it once in the way of
    its route: whatever the credential, the body, and the storage weather. *)
Lemma handle_written now freshId r c :
  written (write_of r) (courses (data c))
    (courses (data (Full.handle now freshId r c).2)).
Proof.
  destruct r; simpl.
  - unfold Full.authenticated. destruct (Full.verifyJWT cred); [apply written_refl|].
    apply putUser_written.
  - apply with_role_written. intros. apply gate_written, postCourse_written.
  - apply with_role_written. intros. apply gate_written, putCourse_written.
  - apply with_role_written. intros. apply gate_written, deleteCourse_written.
  - apply with_role_written. intros. apply postEnrollment_written.
  - unfold Full.authenticated. destruct (Full.verifyJWT cred); [apply written_refl|].
    apply deleteEnrollment_written.
  - apply with_role_written. intros. apply gate_written, patchUserRole_written.
  - apply with_role_written. intros. apply gate_written, patchCourseStatus_written.
  - unfold Full.authenticated. destruct (Full.verifyJWT cred); [apply written_refl|].
    apply postReview_written.
Qed.

Lemma serve_written (a : Full.arrival) (s : Store) :
  written (write_of (Full.a_request a)) (courses s) (courses (Full.serve a s).2).
Proof.
  unfold Full.serve.
  pose proof (handle_written (Full.a_now a) (Full.a_freshId a) (Full.a_request a)
                {| budget := Full.a_budget a; data := s |}) as Hw.
  by destruct (Full.handle _ _ _ _).
Qed.

End Dispatch.

(** ** What one write can and cannot change *)

Section Frames.
Context `{Platform}.
Import Protocol Effects.

Lemma inc_num (k : string) (delta z : Z) (d d' : doc) :
  d !! k = Some (VNum z) → inc k (VNum delta) d = Some d' →
  d' = <[k := VNum (z + delta)]> d.
Proof.
  unfold inc. intros ->. cbn [add_number].
  destruct (overflows z delta); [done|]. by intros [= <-].
Qed.

Lemma inc_other (k k' : string) (v : value) (d d' : doc) :
  inc k v d = Some d' → k' ≠ k → d' !! k' = d !! k'.
Proof.
  unfold inc. intros Hinc Hk.
  destruct (d !! k) as [w|].
  - destruct (add_number w v); [|done]. injection Hinc as <-.
    by rewrite lookup_insert_ne.
  - injection Hinc as <-. by rewrite lookup_insert_ne.
Qed.

(** [$inc] by an integer keeps the BSON type of a number: an integer stays
    an integer, a Double stays a Double. *)
Lemma inc_seats (delta : Z) (d d' : doc) :
  inc "seats" (VNum delta) d = Some d' →
  match d !! "seats" with
  | None => d' !! "seats" = Some (VNum delta)
  | Some (VNum z) => d' !! "seats" = Some (VNum (z + delta))
  | Some (VDbl _) => ∃ y, d' !! "seats" = Some (VDbl y)
  | Some _ => False
  end.
Proof.
  unfold inc. destruct (d !! "seats") as [[| |z|x| | |]|]; cbn [add_number]; try done.
  - destruct (overflows _ _); [done|]. intros [= <-]. by rewrite lookup_insert_eq.
  - destruct (dadd _ _) as [y|]; [|done]. intros [= <-]. exists y.
    by rewrite lookup_insert_eq.
  - intros [= <-]. by rewrite lookup_insert_eq.
Qed.

Lemma inc_all_two_seats (k2 : string) (b : value) (d d' : doc) (delta : Z) :
  k2 ≠ "seats" →
  inc_all [("seats", VNum delta); (k2, b)] d = Some d' →
  match d !! "seats" with
  | None => d' !! "seats" = Some (VNum delta)
  | Some (VNum z) => d' !! "seats" = Some (VNum (z + delta))
  | Some (VDbl _) => ∃ y, d' !! "seats" = Some (VDbl y)
  | Some _ => False
  end.
Proof.
  intros Hk2 Hinc. cbn [inc_all] in Hinc.
  destruct (inc "seats" (VNum delta) d) as [d1|] eqn:H1; [|done].
  cbn [mbind option_bind] in Hinc.
  destruct (inc k2 b d1) as [d2|] eqn:H2; [|done].
  injection Hinc as <-.
  rewrite (inc_other _ _ _ _ _ H2) by done. by apply inc_seats.
Qed.

Lemma claim_keeps_seats_ok (d d' : doc) :
  Full.has_seat d = true → inc_all Full.claim d = Some d' →
  seats_ok d → seats_ok d'.
Proof.
  unfold Full.has_seat, gt0, seats_ok, Full.claim. intros Hseat Hinc Hok.
  pose proof (inc_all_two_seats "enrollmentCount" _ _ _ (-1) ltac:(done) Hinc) as Hs.
  destruct (d !! "seats") as [[| |z|x| | |]|]; try done.
  - rewrite Hs. apply Z.ltb_lt in Hseat. lia.
  - destruct Hs as [y ->]. done.
Qed.

Lemma release_keeps_seats_ok (d d' : doc) :
  inc_all Full.release d = Some d' → seats_ok d → seats_ok d'.
Proof.
  unfold seats_ok, Full.release. intros Hinc Hok.
  pose proof (inc_all_two_seats "enrollmentCount" _ _ _ 1 ltac:(done) Hinc) as Hs.
  destruct (d !! "seats") as [[| |z|x| | |]|]; try done.
  - rewrite Hs. lia.
  - destruct Hs as [y ->]. done.
  - by rewrite Hs.
Qed.

Lemma union_lookup_stripped (fields d : doc) (k : string) :
  fields !! k = None → (fields ∪ d) !! k = d !! k.
Proof. intros Hk. by rewrite lookup_union_r. Qed.

Lemma not_negative_Fin (q : Qc) :
  dlt (Fin q) (of_Z 0) = false → (0 ≤ Qnum q)%Z.
Proof.
  unfold dlt, of_Z. intros Hq%bool_decide_eq_false.
  destruct (Z.le_gt_cases 0 (Qnum q)) as [|Hneg]; [done|].
  destruct Hq. unfold Qclt, Qlt. change (this (Qc_of_Z 0)) with (0 # 1)%Q.
  simpl. lia.
Qed.

(** A number that passed [x < 0] is stored as a number that is not
    negative. *)
Lemma bson_number_not_negative (x : double) :
  dlt x (of_Z 0) = false → not_negative (bson_number x).
Proof.
  intros Hx. destruct x as [q|negative]; simpl; [|done].
  destruct (_ && _); simpl; [|done]. by apply not_negative_Fin.
Qed.

Lemma not_negative_seats_ok (d : doc) (v : value) :
  d !! "seats" = Some v → not_negative v → seats_ok d.
Proof. unfold seats_ok. intros ->. by destruct v. Qed.

(** What a course update does to a top-level field, read off the body. *)
Lemma update_frame (body fields d d' : doc) (k : string) :
  (∀ k, is_Some (fields !! k) → k = "updatedAt" ∨ is_Some (body !! k)) →
  applySet fields d = Some d' →
  left_or_embedded body k d d'
  ∨ (is_Some (fields !! k) ∧ d' !! k = fields !! k).
Proof.
  intros Hfrom Hset.
  destruct (applySet_frame _ _ _ k Hset)
    as [Hsame|[Hfield|(f & content & Hf & Hne & Hroot & Hobj & Hwas)]].
  - left. by left.
  - by right.
  - left. right. split_and!; [|by exists content|done].
    exists f. split_and!; [|done..].
    destruct (Hfrom f Hf) as [->|Hbody]; [|done].
    by destruct Hne.
Qed.

(** One write keeps every [seats] that is stored as an integer from
    becoming negative. *)
Lemma write_keeps_seats_ok (m m' : gmap ObjId doc) (k : write_kind) :
  course_write m k m' →
  (∀ oid d, m !! oid = Some d → seats_ok d) →
  ∀ oid d, m' !! oid = Some d → seats_ok d.
Proof.
  intros Hw Hok oid d.
  destruct Hw as [|o d0 x Hnone Hs Hx Hc|o d0 d1 body fields Hd Hstrip Hfrom Hseats Hset
                 |o d0 v Hd|o|o d0 d1 Hd Hseat Hinc|o d0 d1 Hd Hinc].
  - apply Hok.
  - destruct (decide (o = oid)) as [->|Hne].
    + rewrite lookup_insert_eq. intros [= <-].
      by eapply not_negative_seats_ok, bson_number_not_negative.
    + rewrite lookup_insert_ne by done. apply Hok.
  - destruct (decide (o = oid)) as [->|Hne].
    + rewrite lookup_insert_eq. intros [= <-].
      destruct (update_frame body _ _ _ "seats" Hfrom Hset)
        as [[Hsame|(_ & [content Hobj] & _)]|[[v Hv] Hnew]].
      * pose proof (Hok _ _ Hd) as H0. unfold seats_ok in *. by rewrite Hsame.
      * unfold seats_ok. by rewrite Hobj.
      * destruct Hseats as [Hnone|(x & Hx & Hpos)]; [congruence|].
        rewrite Hx in Hnew.
        by eapply not_negative_seats_ok, bson_number_not_negative.
    + rewrite lookup_insert_ne by done. apply Hok.
  - destruct (decide (o = oid)) as [->|Hne].
    + rewrite lookup_insert_eq. intros [= <-]. unfold seats_ok.
      rewrite union_lookup_stripped by by rewrite lookup_singleton_ne.
      by apply (Hok oid).
    + rewrite lookup_insert_ne by done. apply Hok.
  - intros Hd. apply (Hok oid).
    destruct (decide (o = oid)) as [->|Hne].
    + by rewrite lookup_delete_eq in Hd.
    + by rewrite lookup_delete_ne in Hd.
  - destruct (decide (o = oid)) as [->|Hne].
    + rewrite lookup_insert_eq. intros [= <-].
      eapply claim_keeps_seats_ok; eauto.
    + rewrite lookup_insert_ne by done. apply Hok.
  - destruct (decide (o = oid)) as [->|Hne].
    + rewrite lookup_insert_eq. intros [= <-].
      eapply release_keeps_seats_ok; eauto.
    + rewrite lookup_insert_ne by done. apply Hok.
Qed.


(** An applied [$inc] on integer fields is the exact sum. *)
Lemma inc_all_integers (d d' : doc) (n c a b : Z) :
  seats_of d = Some n → count_of d = Some c →
  inc_all [("seats", VNum a); ("enrollmentCount", VNum b)] d = Some d' →
  seats_of d' = Some (n + a)%Z ∧ count_of d' = Some (c + b)%Z.
Proof.
  unfold seats_of, count_of. intros Hn Hc Hinc. cbn [inc_all] in Hinc.
  destruct (d !! "seats") as [[| |z| | | |]|] eqn:Hs; try done. injection Hn as ->.
  destruct (inc "seats" (VNum a) d) as [d1|] eqn:H1; [|done].
  apply (inc_num _ _ _ _ _ Hs) in H1 as ->.
  cbn [mbind option_bind] in Hinc.
  destruct (inc "enrollmentCount" (VNum b) _) as [d2|] eqn:H2; [|done].
  injection Hinc as <-.
  rewrite (inc_other _ _ _ _ _ H2) by done. rewrite lookup_insert_eq.
  split; [done|].
  destruct (d !! "enrollmentCount") as [[| |z| | | |]|] eqn:Hcnt; try done.
  - injection Hc as ->.
    assert (Hl : <["seats" := VNum (n + a)]> d !! "enrollmentCount" = Some (VNum c))
      by by rewrite lookup_insert_ne.
    apply (inc_num _ _ _ _ _ Hl) in H2 as ->. by rewrite lookup_insert_eq.
  - injection Hc as <-. unfold inc in H2.
    rewrite lookup_insert_ne, Hcnt in H2 by done. injection H2 as <-.
    by rewrite lookup_insert_eq.
Qed.

(** The seat claim and the seat release keep [seats + enrollmentCount] of
    a course that holds both as integers. *)
Lemma write_conserves (m m' : gmap ObjId doc) (k : write_kind)
    (oid : ObjId) (d : doc) (n c : Z) :
  course_write m k m' → k = Wnone ∨ k = Wclaim ∨ k = Wrelease →
  m !! oid = Some d → seats_of d = Some n → count_of d = Some c →
  ∃ d' n' c', m' !! oid = Some d' ∧ seats_of d' = Some n'
              ∧ count_of d' = Some c' ∧ (n' + c' = n + c)%Z.
Proof.
  intros Hw Hk Hm Hn Hc.
  destruct Hw as [|o d0 x Hnone Hs Hx Hcnt|o d0 d1 body fields Hd Hstrip Hfrom Hseats Hset
                 |o d0 v Hd|o|o d0 d1 Hd Hseat Hinc|o d0 d1 Hd Hinc];
    try (by destruct Hk as [|[|]]).
  - by exists d, n, c.
  - destruct (decide (o = oid)) as [->|Hne].
    + rewrite Hm in Hd. injection Hd as <-.
      destruct (inc_all_integers _ _ _ _ _ _ Hn Hc Hinc) as [Hn' Hc'].
      exists d1, (n + -1)%Z, (c + 1)%Z. rewrite lookup_insert_eq.
      split_and!; [done|done|done|lia].
    + exists d, n, c. by rewrite lookup_insert_ne.
  - destruct (decide (o = oid)) as [->|Hne].
    + rewrite Hm in Hd. injection Hd as <-.
      destruct (inc_all_integers _ _ _ _ _ _ Hn Hc Hinc) as [Hn' Hc'].
      exists d1, (n + 1)%Z, (c + -1)%Z. rewrite lookup_insert_eq.
      split_and!; [done|done|done|lia].
    + exists d, n, c. by rewrite lookup_insert_ne.
Qed.

End Frames.

(** ** The full server, request after request *)

Section Sequences.
Context `{Platform}.
Import Protocol Effects.

(** X28.  A course update, whatever it answers, whatever the body holds and
    whatever the storage does, creates and deletes no course document, and
    leaves each field it strips from the body ([_id], [instructorEmail],
    [createdAt], [enrollmentCount], [status], [averageRating],
    [reviewCount]) as it was, with one exception: through a dotted name of
    the body that reaches into the field, a record that had no such field,
    or had an embedded document there, gets an embedded document.  So a
    body without such a name changes none of these fields, and a field that
    holds a string, a number, a date, a boolean or null is never changed. *)
Theorem update_keeps_protected_fields (now : Z) (freshId : ObjId)
    (cred : credential) (id : string) (body : doc) (c : Conn) :
  let out := Full.handle now freshId (Full.PutCourse cred id body) c in
  (∀ oid d, courses (data c) !! oid = Some d →
     ∃ d', courses (data out.2) !! oid = Some d'
           ∧ ∀ k, k ∈ Full.stripped_keys →
               left_or_embedded body k d d'
               ∧ (¬ reaches_into body k → d' !! k = d !! k)
               ∧ (∀ v, d !! k = Some v → (∀ content, v ≠ VObj content) →
                    d' !! k = Some v))
  ∧ (∀ oid, courses (data c) !! oid = None → courses (data out.2) !! oid = None).
Proof.
  intros out. subst out.
  pose proof (handle_written now freshId (Full.PutCourse cred id body) c) as Hw.
  cbn [write_of] in Hw.
  set (m' := courses (data (Full.handle now freshId (Full.PutCourse cred id body) c).2)) in *.
  clearbody m'.
  assert (Hcor : ∀ k d d', left_or_embedded body k d d' →
            left_or_embedded body k d d'
            ∧ (¬ reaches_into body k → d' !! k = d !! k)
            ∧ (∀ v, d !! k = Some v → (∀ content, v ≠ VObj content) →
                 d' !! k = Some v)).
  { intros k d d' Hk. split_and!; [done| |].
    - intros Hno. by destruct Hk as [?|(? & _)].
    - intros v Hv Hscalar. destruct Hk as [->|(_ & _ & [Hnone|[before Hb]])];
        [done|congruence|].
      rewrite Hv in Hb. injection Hb as ->. by destruct (Hscalar before). }
  assert (Hu : course_write (courses (data c)) Wnone m'
               ∨ course_write (courses (data c)) (Wupdate body) m') by exact Hw.
  clear Hw. destruct Hu as [Hu|Hu];
    inversion Hu as [| |o d0 d1 body' fields Hd Hstrip Hfrom Hseats Hset| | | |]; subst.
  - split; [|done]. intros oid d Hd. exists d. split; [done|].
    intros k _. apply Hcor. by left.
  - split.
    + intros oid d Hoid. destruct (decide (o = oid)) as [->|Hne].
      * exists d1. rewrite lookup_insert_eq. split; [done|].
        intros k Hk. rewrite Hd in Hoid. injection Hoid as <-. apply Hcor.
        destruct (update_frame body _ _ _ k Hfrom Hset) as [?|[[v Hv] _]]; [done|].
        by rewrite Hstrip in Hv.
      * exists d. rewrite lookup_insert_ne by done. split; [done|].
        intros k _. apply Hcor. by left.
    + intros oid Hnone. destruct (decide (o = oid)) as [->|Hne]; [congruence|].
      by rewrite lookup_insert_ne.
Qed.


(** X1.  Through any sequence of requests to the full server, with any
    bodies and whatever the storage does during them, no [seats] that is
    stored as an integer becomes negative: when every integer [seats] is 0
    or more before the requests, so is every one after them. *)
Theorem full_seats_never_negative (l : list Full.arrival) (s : Store) :
  (∀ oid d, courses s !! oid = Some d → seats_ok d) →
  ∀ oid d, courses (Full.serve_all l s) !! oid = Some d → seats_ok d.
Proof.
  unfold Full.serve_all. revert s.
  induction l as [|a l IH]; intros s Hok; [done|]. simpl.
  apply IH. destruct (serve_written a s) as [Hw|Hw];
    by apply (write_keeps_seats_ok _ _ _ Hw).
Qed.

(** X2.  Through any sequence of enroll and unenroll requests to the full
    server, answered or failed, a course that holds [seats] as an integer
    and [enrollmentCount] as an integer (or not at all, which counts as 0)
    still does so afterwards, and [seats + enrollmentCount] is what it
    was. *)
Theorem full_conservation (l : list Full.arrival) (s : Store)
    (oid : ObjId) (d : doc) (n c : Z) :
  Forall (λ a, is_admission (Full.a_request a) = true) l →
  courses s !! oid = Some d → seats_of d = Some n → count_of d = Some c →
  ∃ d' n' c', courses (Full.serve_all l s) !! oid = Some d'
              ∧ seats_of d' = Some n' ∧ count_of d' = Some c'
              ∧ (n' + c' = n + c)%Z.
Proof.
  unfold Full.serve_all. revert s d n c.
  induction l as [|a l IH]; intros s d n c Hl Hd Hn Hc.
  - by exists d, n, c.
  - apply Forall_cons in Hl as [Ha Hl]. simpl.
    assert (∃ d1 n1 c1, courses (Full.serve a s).2 !! oid = Some d1
              ∧ seats_of d1 = Some n1 ∧ count_of d1 = Some c1
              ∧ (n1 + c1 = n + c)%Z) as (d1 & n1 & c1 & Hd1 & Hn1 & Hc1 & Hsum).
    { destruct (serve_written a s) as [Hw|Hw].
      - by apply (write_conserves _ _ _ oid d n c Hw); [left|..].
      - apply (write_conserves _ _ _ oid d n c Hw); [|done..].
        by destruct (Full.a_request a); auto. }
    destruct (IH _ _ _ _ Hl Hd1 Hn1 Hc1) as (d' & n' & c' & ? & ? & ? & ?).
    exists d', n', c'. split_and!; [done..|lia].
Qed.

End Sequences.

(** ** Running a handler step by step, whatever the storage weather *)

Section Stepping.
Context `{Platform}.
Import Outcomes.

Lemma ends_respond (r : response) (c : Conn) (Φ : response → Store → Prop) :
  Φ r (data c) → ends (respond r) c Φ.
Proof. done. Qed.

Lemma ends_ret (a r : response) (c : Conn) (Φ : response → Store → Prop) :
  Φ a (data c) → ends (try_catch (mret a) r) c Φ.
Proof. done. Qed.

(** An awaited call either throws, and the [catch] answers on the store as
    it is, or returns and the body goes on from the store the call left. *)
Lemma ends_await {A} (call : Call A) (k : A → M response) (r : response)
    (c : Conn) (Φ : response → Store → Prop) :
  Φ r (data c) →
  (∀ a s' b', call (data c) = Some (a, s') →
     ends (try_catch (k a) r) {| budget := b'; data := s' |} Φ) →
  ends (try_catch (await call ≫= k) r) c Φ.
Proof.
  intros Hthrow Hgo. unfold ends, try_catch, mbind, M_bind, await.
  destruct c as [b s]; simpl in *.
  destruct b as [[|n]|]; [done| |];
    (destruct (call s) as [[a s']|] eqn:Hcall; simpl; [|done];
     by apply Hgo).
Qed.

Lemma ends_mono (h : Handler) (c : Conn) (Φ Ψ : response → Store → Prop) :
  ends h c Φ → (∀ r s, Φ r s → Ψ r s) → ends h c Ψ.
Proof. unfold ends. auto. Qed.

Lemma ends_gate (g : option response) (h : Handler) (c : Conn)
    (Φ : response → Store → Prop) :
  (∀ r, g = Some r → Φ r (data c)) → (g = None → ends h c Φ) →
  ends (Full.gate g h) c Φ.
Proof. intros Hr Hh. destruct g; [by apply Hr|by apply Hh]. Qed.

Lemma ends_authenticated (cred : credential) (h : string → Handler) (c : Conn)
    (Φ : response → Store → Prop) :
  (cred = NoToken → Φ (Reply 401 "Unauthorized: No token provided.") (data c)) →
  (cred = BadToken → Φ (Reply 403 "Forbidden: Invalid or expired token.") (data c)) →
  (∀ email, cred = Token email → ends (h email) c Φ) →
  ends (Full.authenticated cred h) c Φ.
Proof. intros Hno Hbad Hh. destruct cred; [by apply Hno|by apply Hbad|by apply Hh]. Qed.

(** The middleware chain [verifyJWT, getUserRole]: the request is turned
    away on the store as it is, or the handler runs on that store with the
    role the user record gives. *)
Lemma ends_with_role (cred : credential) (h : string → value → Handler) (c : Conn)
    (Φ : response → Store → Prop) :
  (cred = NoToken → Φ (Reply 401 "Unauthorized: No token provided.") (data c)) →
  (cred = BadToken → Φ (Reply 403 "Forbidden: Invalid or expired token.") (data c)) →
  (cred = Token "" → Φ (Reply 401 "Unauthorized: Missing user email in token.") (data c)) →
  (Φ (Reply 500 "Server error checking user role.") (data c)) →
  (∀ email b', cred = Token email → email ≠ "" →
     ends (h email (Full.role_of (users (data c) !! email)))
       {| budget := b'; data := data c |} Φ) →
  ends (Full.with_role cred h) c Φ.
Proof.
  intros Hno Hbad Hempty Hdown Hgo.
  unfold Full.with_role. apply ends_authenticated; [done|done|].
  intros email ->. unfold ends, Full.getUserRole.
  destruct (String.eqb_spec email "") as [->|Hne]; [by apply Hempty|].
  destruct c as [b s]. unfold await, users_findOne, read; simpl in *.
  destruct b as [[|n]|]; simpl; [done| |]; by apply (Hgo email).
Qed.

Lemma serve_ends (a : Full.arrival) (s : Store) (Φ : response → Store → Prop) :
  ends (Full.handle (Full.a_now a) (Full.a_freshId a) (Full.a_request a))
    {| budget := Full.a_budget a; data := s |} Φ →
  Φ (Full.serve a s).1 (Full.serve a s).2.
Proof. unfold ends, Full.serve. by destruct (Full.handle _ _ _ _). Qed.

End Stepping.

(** A call the handler only reads with. *)
Ltac wp_read :=
  apply ends_await; [|intros ? ? ? [= <- <-]]; cbn [data].

(** What a driver call returned, read off its definition. *)
Ltac call_inv H :=
  unfold users_findOne, courses_findOne, courses_insertOne, courses_set,
    courses_inc, courses_deleteOne, enrollments_findOne, enrollments_count,
    enrollments_insertOne, enrollments_deleteById, enrollments_deleteOne,
    enrollments_deleteMany, reviews_deleteMany, users_upsert, users_set,
    reviews_findOne, reviews_insertOne, read in H;
  repeat match type of H with
         | context [match ?x with _ => _ end] => destruct x eqn:?
         end;
  simplify_eq.

(** A handler that leaves a collection alone: every step is a check, a read,
    or a write to another collection. *)
Ltac wp_quiet :=
  repeat first
    [ apply ends_respond; reflexivity
    | apply ends_ret; reflexivity
    | apply ends_gate; [intros; reflexivity|intros _]
    | apply ends_await;
        [reflexivity|let Hc := fresh "Hcall" in intros ? ? ? Hc; call_inv Hc]
    | match goal with
      | |- Outcomes.ends (try_catch (match ?x with _ => _ end) _) _ _ => destruct x eqn:?
      | |- Outcomes.ends (match ?x with _ => _ end) _ _ => destruct x eqn:?
      end ].

Section Enrollments.
Context `{Platform}.
Import Outcomes.

Lemma es_refl (l : list Enrollment) : enrollment_step l l.
Proof. by apply es_removed. Qed.

Lemma find_none_not_in (email : string) (cid : value) (l : list Enrollment) :
  List.find (same_pair email cid) l = None → (email, cid) ∉ pair_of <$> l.
Proof.
  induction l as [|x l IH]; simpl; [intros _; by apply not_elem_of_nil|].
  destruct (same_pair email cid x) eqn:Hx; [done|]. intros Hl.
  apply not_elem_of_cons. split; [|by apply IH].
  intros Heq. unfold same_pair, pair_of in *. injection Heq as -> ->.
  by rewrite String.eqb_refl, bool_decide_eq_true_2 in Hx.
Qed.

Lemma existsb_id_not_in (i : ObjId) (l : list Enrollment) :
  existsb (λ e', bool_decide (e_id e' = i)) l = false → i ∉ e_id <$> l.
Proof.
  induction l as [|x l IH]; simpl; [intros _; by apply not_elem_of_nil|].
  intros [Hx Hl]%orb_false_iff. apply not_elem_of_cons.
  split; [|by apply IH]. intros ->. by rewrite bool_decide_eq_true_2 in Hx.
Qed.

Lemma remove_first_sublist {A} (p : A → bool) (l : list A) :
  sublist (remove_first p l).2 l.
Proof.
  induction l as [|x l IH]; simpl; [constructor|].
  destruct (p x); simpl; [by constructor|].
  destruct (remove_first p l); simpl in *. by constructor.
Qed.

Lemma filter_sublist {A} (p : A → bool) (l : list A) :
  sublist (List.filter p l) l.
Proof.
  induction l as [|x l IH]; simpl; [constructor|].
  destruct (p x); by constructor.
Qed.

Lemma postEnrollment_enrollments now freshId email body c :
  ends (Full.postEnrollment now freshId email body) c
    (λ _ s, enrollment_step (enrollments (data c)) (enrollments s)).
Proof.
  unfold Full.postEnrollment.
  destruct (_ || _); [apply es_refl|].
  destruct (negb _); [apply es_refl|].
  destruct (_ ≫= parseObjectId) as [oid|]; [|apply es_refl].
  wp_read; [apply es_refl|].
  destruct (List.find _ _) eqn:Hdup; [apply es_refl|].
  wp_read; [apply es_refl|].
  destruct (Nat.leb_spec 3 (length
    (List.filter (λ e, String.eqb (userEmail e) email) (enrollments (data c)))))
    as [|Hcount]; [apply es_refl|].
  wp_read; [apply es_refl|].
  destruct (courses (data c) !! oid) as [course|]; [|apply es_refl].
  destruct (_ && _); [apply es_refl|].
  destruct (le0 _); [apply es_refl|].
  unfold Full.reserve.
  apply ends_await; [apply es_refl|]. intros ins s1 b1 Hins. cbn [data] in *.
  unfold enrollments_insertOne in Hins.
  destruct (existsb _ _) eqn:Hfresh; [done|]. injection Hins as <- <-.
  cbn [e_id] in *.
  assert (Hadded : enrollment_step (enrollments (data c))
            (enrollments (data c) ++
             [{| e_id := freshId; userEmail := email;
                 courseId := stored (body !! "courseId");
                 courseTitle := stored (body !! "courseTitle");
                 enrolledAt := now |}])).
  { apply es_added; simpl.
    - exact Hcount.
    - by apply find_none_not_in.
    - by apply existsb_id_not_in. }
  apply ends_await; [exact Hadded|]. intros res s2 b2 Hinc. cbn [data] in *.
  assert (Hs' : enrollments s2 = (enrollments (data c) ++
             [{| e_id := freshId; userEmail := email;
                 courseId := stored (body !! "courseId");
                 courseTitle := stored (body !! "courseTitle");
                 enrolledAt := now |}])%list).
  { unfold courses_inc in Hinc. repeat case_match; simplify_eq; done. }
  destruct (Nat.eqb _ 0).
  - apply ends_await; [cbn [data]; by rewrite Hs'|]. intros del s3 b3 Hdel. cbn [data] in *.
    unfold enrollments_deleteById in Hdel. rewrite Hs' in Hdel.
    rewrite (remove_first_appended _ _ freshId) in Hdel by done.
    injection Hdel as <- <-. apply es_refl.
  - apply ends_ret. cbn [data]. by rewrite Hs'.
Qed.

Lemma deleteEnrollment_enrollments decoded email courseId c :
  ends (Full.deleteEnrollment decoded email courseId) c
    (λ _ s, enrollment_step (enrollments (data c)) (enrollments s)).
Proof.
  unfold Full.deleteEnrollment.
  destruct (negb _); [apply es_refl|].
  destruct (parseObjectId _) as [oid|]; [|apply es_refl].
  apply ends_await; [apply es_refl|]. intros del s1 b1 Hdel. cbn [data] in *.
  assert (Hs1 : sublist (enrollments s1) (enrollments (data c))).
  { unfold enrollments_deleteOne in Hdel.
    pose proof (remove_first_sublist (same_pair email (VStr courseId))
                  (enrollments (data c))) as Hsub.
    destruct (remove_first _ _). by injection Hdel as <- <-. }
  destruct (Nat.eqb del 0); [by apply ends_ret, es_removed|].
  apply ends_await; [by apply es_removed|]. intros res s2 b2 Hinc. cbn [data] in *.
  apply ends_ret, es_removed. cbn [data].
  unfold courses_inc in Hinc. repeat case_match; simplify_eq; done.
Qed.

Lemma deleteCourse_enrollments role email id c :
  ends (Full.deleteCourse role email id) c
    (λ _ s, enrollment_step (enrollments (data c)) (enrollments s)).
Proof.
  unfold Full.deleteCourse.
  destruct (parseObjectId _) as [oid|]; [|apply es_refl].
  wp_read; [apply es_refl|].
  destruct (courses (data c) !! oid) as [course|]; [|apply es_refl].
  destruct (_ && _); [apply es_refl|].
  apply ends_await; [apply es_refl|]. intros del s1 b1 Hdel. cbn [data] in *.
  assert (Hs1 : enrollments s1 = enrollments (data c)).
  { unfold courses_deleteOne in Hdel. repeat case_match; simplify_eq; done. }
  destruct (Nat.eqb del 0); [apply ends_ret; cbn [data]; rewrite Hs1; apply es_refl|].
  apply ends_await; [cbn [data]; rewrite Hs1; apply es_refl|].
  intros n s2 b2 Hmany. cbn [data] in *.
  assert (Hs2 : sublist (enrollments s2) (enrollments (data c))).
  { unfold enrollments_deleteMany, remove_all in Hmany. injection Hmany as <- <-.
    simpl. rewrite Hs1. apply filter_sublist. }
  apply ends_await; [by apply es_removed|]. intros k s3 b3 Hrev. cbn [data] in *.
  apply ends_ret, es_removed. cbn [data].
  unfold reviews_deleteMany, remove_all in Hrev. by injection Hrev as <- <-.
Qed.

(** A request leaves [enrollments] as it was, removes records, or appends
    one record that passed the duplicate and the quota check: whatever the
    credential, the body and the storage weather. *)
Lemma handle_enrollments now freshId r c :
  ends (Full.handle now freshId r) c
    (λ _ s, enrollment_step (enrollments (data c)) (enrollments s)).
Proof.
  assert (Hquiet : ∀ (h : Handler) c',
    data c' = data c →
    ends h c' (λ _ s, enrollments s = enrollments (data c')) →
    ends h c' (λ _ s, enrollment_step (enrollments (data c)) (enrollments s))).
  { intros h c' Hc' Hh. eapply ends_mono; [exact Hh|].
    intros _ s ->. rewrite Hc'. apply es_refl. }
  destruct r; cbn [Full.handle].
  - apply ends_authenticated; [intros; apply es_refl..|]. intros decoded _.
    apply Hquiet; [done|]. unfold Full.putUser. wp_quiet.
  - apply ends_with_role; [intros; apply es_refl..|]. intros caller b' _ _.
    apply Hquiet; [done|]. unfold Full.postCourse. wp_quiet.
  - apply ends_with_role; [intros; apply es_refl..|]. intros caller b' _ _.
    apply Hquiet; [done|]. unfold Full.putCourse. wp_quiet.
  - apply ends_with_role; [intros; apply es_refl..|]. intros caller b' _ _.
    apply ends_gate; [intros; apply es_refl|intros _].
    apply (deleteCourse_enrollments _ _ _ {| budget := b'; data := data c |}).
  - apply ends_with_role; [intros; apply es_refl..|]. intros caller b' _ _.
    apply (postEnrollment_enrollments _ _ _ _ {| budget := b'; data := data c |}).
  - apply ends_authenticated; [intros; apply es_refl..|]. intros decoded _.
    apply deleteEnrollment_enrollments.
  - apply ends_with_role; [intros; apply es_refl..|]. intros caller b' _ _.
    apply Hquiet; [done|]. unfold Full.patchUserRole. wp_quiet.
  - apply ends_with_role; [intros; apply es_refl..|]. intros caller b' _ _.
    apply Hquiet; [done|]. unfold Full.patchCourseStatus. wp_quiet.
  - apply ends_authenticated; [intros; apply es_refl..|]. intros decoded _.
    apply Hquiet; [done|]. unfold Full.postReview. wp_quiet.
Qed.

End Enrollments.

Section EnrollmentInvariants.
Context `{Platform}.
Import Outcomes.

Lemma list_filter_sublist {A} (p : A → bool) (l' l : list A) :
  sublist l' l → sublist (List.filter p l') (List.filter p l).
Proof.
  induction 1 as [|x l1 l2 _ IH|x l1 l2 _ IH]; simpl; [constructor| |].
  - destruct (p x); [by constructor|done].
  - destruct (p x); [by constructor|done].
Qed.

Lemma count_for_app (email : string) (l1 l2 : list Enrollment) :
  count_for email (l1 ++ l2) = (count_for email l1 + count_for email l2)%nat.
Proof. unfold count_for. by rewrite List.filter_app, length_app. Qed.

Lemma step_within_quota (l l' : list Enrollment) :
  enrollment_step l l' → within_quota l → within_quota l'.
Proof.
  intros [l1 Hsub|e Hcount _ _] Hq email.
  - etrans; [|apply (Hq email)]. unfold count_for.
    by apply sublist_length, list_filter_sublist.
  - rewrite count_for_app. unfold count_for at 2. simpl.
    destruct (String.eqb_spec (userEmail e) email) as [<-|_]; simpl.
    + lia.
    + specialize (Hq email). lia.
Qed.

Lemma step_no_double (l l' : list Enrollment) :
  enrollment_step l l' → no_double l → no_double l'.
Proof.
  unfold no_double. intros [l1 Hsub|e _ Hpair _] Hnd.
  - eapply sublist_NoDup; [exact Hnd|by apply fmap_sublist].
  - rewrite fmap_app. apply NoDup_app. split_and!; [done| |apply NoDup_singleton].
    simpl. intros x Hx ->%list_elem_of_singleton. done.
Qed.

Lemma serve_all_invariant (I : Store → Prop) :
  (∀ a s, I s → I (Full.serve a s).2) →
  ∀ l s, I s → I (Full.serve_all l s).
Proof.
  intros Hstep l. unfold Full.serve_all.
  induction l as [|a l IH]; intros s Hs; [done|]. simpl. by apply IH, Hstep.
Qed.

Lemma serve_enrollments (a : Full.arrival) (s : Store) :
  enrollment_step (enrollments s) (enrollments (Full.serve a s).2).
Proof.
  apply (serve_ends a s (λ _ s', enrollment_step (enrollments s) (enrollments s'))).
  apply (handle_enrollments _ _ _ {| budget := Full.a_budget a; data := s |}).
Qed.

(** X3.  Through any sequence of requests to the full server, whatever the
    storage does during them, no user comes to hold more than three
    enrollments. *)
Theorem full_quota_never_exceeded (l : list Full.arrival) (s : Store) :
  within_quota (enrollments s) → within_quota (enrollments (Full.serve_all l s)).
Proof.
  revert s. unfold Full.serve_all.
  induction l as [|a l IH]; intros s Hq; [done|]. simpl.
  apply IH. eapply step_within_quota; [apply serve_enrollments|done].
Qed.

(** X4.  Through any sequence of requests to the full server, whatever the
    storage does during them, no two enrollment records come to carry the
    same [userEmail] and the same [courseId] value. *)
Theorem full_never_enrolled_twice (l : list Full.arrival) (s : Store) :
  no_double (enrollments s) → no_double (enrollments (Full.serve_all l s)).
Proof.
  revert s. unfold Full.serve_all.
  induction l as [|a l IH]; intros s Hq; [done|]. simpl.
  apply IH. eapply step_no_double; [apply serve_enrollments|done].
Qed.

End EnrollmentInvariants.

Section Reviews.
Context `{Platform}.
Import Outcomes.

Lemma rs_refl (es : list Enrollment) (l : list Review) : review_step es l l.
Proof. by apply rs_removed. Qed.

Lemma find_some_pair (email : string) (cid : value) (l : list Enrollment) (e : Enrollment) :
  List.find (same_pair email cid) l = Some e → (email, cid) ∈ pair_of <$> l.
Proof.
  intros [Hin Hp]%List.find_some. apply list_elem_of_fmap. exists e.
  split; [|by apply list_elem_of_In].
  unfold same_pair in Hp. apply andb_true_iff in Hp as [He Hc].
  apply String.eqb_eq in He. apply bool_decide_eq_true in Hc.
  unfold pair_of. by rewrite He, Hc.
Qed.

Lemma find_review_none (email : string) (oid : ObjId) (l : list Review) :
  List.find (λ r, String.eqb (r_userEmail r) email
                  && bool_decide (courseObjectId r = oid)) l = None →
  (email, oid) ∉ review_key <$> l.
Proof.
  induction l as [|x l IH]; simpl; [intros _; by apply not_elem_of_nil|].
  destruct (_ && _) eqn:Hx; [done|]. intros Hl.
  apply not_elem_of_cons. split; [|by apply IH].
  intros Heq. unfold review_key in Heq. injection Heq as -> ->.
  by rewrite String.eqb_refl, bool_decide_eq_true_2 in Hx.
Qed.

Lemma checked_rating_ok (v : option value) :
  nullish v || negb (is_number v) || lt_lit v 1 || gt_lit v 5 = false →
  rating_ok (stored v).
Proof.
  intros Hv. apply orb_false_iff in Hv as [Hv H0].
  apply orb_false_iff in Hv as [Hv H1]. apply orb_false_iff in Hv as [Hv H2].
  unfold lt_lit, gt_lit, rating_ok in *.
  destruct v as [[| |z|[q|[]]| | |]|]; try done; simpl in *.
  - apply bool_decide_eq_false in H1, H0.
    exists (Qc_of_Z z). split_and!; [done|by apply Qcnot_lt_le..].
  - apply bool_decide_eq_false in H1, H0.
    exists q. split_and!; [done|by apply Qcnot_lt_le..].
Qed.

Lemma postReview_reviews now freshId email id body c :
  ends (Full.postReview now freshId email id body) c
    (λ _ s, review_step (enrollments (data c)) (reviews (data c)) (reviews s)).
Proof.
  unfold Full.postReview.
  destruct (parseObjectId _) as [oid|]; [|apply rs_refl].
  destruct (nullish _ || _ || _ || _) eqn:Hrating; [apply rs_refl|].
  destruct (body !! "comment") as [[| | | |comment| |]|]; try apply rs_refl.
  destruct (negb _ || _); [apply rs_refl|].
  wp_read; [apply rs_refl|].
  destruct (List.find _ _) eqn:Henrolled; [|apply rs_refl].
  wp_read; [apply rs_refl|].
  destruct (List.find _ (reviews _)) eqn:Hreviewed; [apply rs_refl|].
  wp_read; [apply rs_refl|].
  apply ends_await; [apply rs_refl|]. intros ins s1 b1 Hins. cbn [data] in *.
  unfold reviews_insertOne in Hins.
  destruct (existsb _ _); [done|]. injection Hins as <- <-.
  apply ends_ret. cbn [data with_reviews reviews].
  apply rs_added; cbn [r_userEmail r_courseId courseObjectId rating review_key].
  - by apply find_review_none.
  - by eapply find_some_pair.
  - by apply checked_rating_ok.
Qed.

Lemma deleteCourse_reviews role email id c :
  ends (Full.deleteCourse role email id) c
    (λ _ s, review_step (enrollments (data c)) (reviews (data c)) (reviews s)).
Proof.
  unfold Full.deleteCourse.
  destruct (parseObjectId _) as [oid|]; [|apply rs_refl].
  wp_read; [apply rs_refl|].
  destruct (courses (data c) !! oid) as [course|]; [|apply rs_refl].
  destruct (_ && _); [apply rs_refl|].
  apply ends_await; [apply rs_refl|]. intros del s1 b1 Hdel. cbn [data] in *.
  assert (Hs1 : reviews s1 = reviews (data c)).
  { unfold courses_deleteOne in Hdel. repeat case_match; simplify_eq; done. }
  destruct (Nat.eqb del 0); [apply ends_ret; cbn [data]; rewrite Hs1; apply rs_refl|].
  apply ends_await; [cbn [data]; rewrite Hs1; apply rs_refl|].
  intros n s2 b2 Hmany. cbn [data] in *.
  assert (Hs2 : reviews s2 = reviews (data c)).
  { unfold enrollments_deleteMany, remove_all in Hmany. by injection Hmany as <- <-. }
  apply ends_await; [cbn [data]; rewrite Hs2; apply rs_refl|].
  intros k s3 b3 Hrev. cbn [data] in *.
  apply ends_ret, rs_removed. cbn [data].
  unfold reviews_deleteMany, remove_all in Hrev. injection Hrev as <- <-.
  simpl. rewrite Hs2. apply filter_sublist.
Qed.

(** A request leaves [reviews] as it was, removes reviews, or appends one
    review with a rating from 1 to 5, by a user who is enrolled in the
    course and had not reviewed it. *)
Lemma handle_reviews now freshId r c :
  ends (Full.handle now freshId r) c
    (λ _ s, review_step (enrollments (data c)) (reviews (data c)) (reviews s)).
Proof.
  assert (Hquiet : ∀ (h : Handler) c',
    data c' = data c →
    ends h c' (λ _ s, reviews s = reviews (data c')) →
    ends h c' (λ _ s, review_step (enrollments (data c)) (reviews (data c)) (reviews s))).
  { intros h c' Hc' Hh. eapply ends_mono; [exact Hh|].
    intros _ s ->. rewrite Hc'. apply rs_refl. }
  destruct r; cbn [Full.handle].
  - apply ends_authenticated; [intros; apply rs_refl..|]. intros decoded _.
    apply Hquiet; [done|]. unfold Full.putUser. wp_quiet.
  - apply ends_with_role; [intros; apply rs_refl..|]. intros caller b' _ _.
    apply Hquiet; [done|]. unfold Full.postCourse. wp_quiet.
  - apply ends_with_role; [intros; apply rs_refl..|]. intros caller b' _ _.
    apply Hquiet; [done|]. unfold Full.putCourse. wp_quiet.
  - apply ends_with_role; [intros; apply rs_refl..|]. intros caller b' _ _.
    apply ends_gate; [intros; apply rs_refl|intros _].
    apply (deleteCourse_reviews _ _ _ {| budget := b'; data := data c |}).
  - apply ends_with_role; [intros; apply rs_refl..|]. intros caller b' _ _.
    apply Hquiet; [done|]. unfold Full.postEnrollment, Full.reserve. wp_quiet.
  - apply ends_authenticated; [intros; apply rs_refl..|]. intros decoded _.
    apply Hquiet; [done|]. unfold Full.deleteEnrollment. wp_quiet.
  - apply ends_with_role; [intros; apply rs_refl..|]. intros caller b' _ _.
    apply Hquiet; [done|]. unfold Full.patchUserRole. wp_quiet.
  - apply ends_with_role; [intros; apply rs_refl..|]. intros caller b' _ _.
    apply Hquiet; [done|]. unfold Full.patchCourseStatus. wp_quiet.
  - apply ends_authenticated; [intros; apply rs_refl..|]. intros decoded _.
    apply postReview_reviews.
Qed.

Lemma serve_reviews (a : Full.arrival) (s : Store) :
  review_step (enrollments s) (reviews s) (reviews (Full.serve a s).2).
Proof.
  apply (serve_ends a s (λ _ s', review_step (enrollments s) (reviews s) (reviews s'))).
  apply (handle_reviews _ _ _ {| budget := Full.a_budget a; data := s |}).
Qed.

Lemma step_reviews_kept (es : list Enrollment) (l l' : list Review) :
  review_step es l l' →
  NoDup (review_key <$> l) ∧ Forall (λ r, rating_ok (rating r)) l →
  NoDup (review_key <$> l') ∧ Forall (λ r, rating_ok (rating r)) l'.
Proof.
  intros [l1 Hsub|r Hkey _ Hr] [Hnd Hok]; split.
  - eapply sublist_NoDup; [exact Hnd|by apply fmap_sublist].
  - apply Forall_forall. intros x Hx.
    eapply (proj1 (Forall_forall _ _) Hok), elem_of_sublist; done.
  - rewrite fmap_app. apply NoDup_app. split_and!; [done| |apply NoDup_singleton].
    simpl. intros x Hx ->%list_elem_of_singleton. done.
  - apply Forall_app. split; [done|]. by apply Forall_singleton.
Qed.

(** X5.  Through any sequence of requests to the full server, no user comes
    to hold two reviews of one course, and every stored rating stays a
    number from 1 to 5. *)
Theorem full_reviews_stay_single_and_rated (l : list Full.arrival) (s : Store) :
  NoDup (review_key <$> reviews s) →
  Forall (λ r, rating_ok (rating r)) (reviews s) →
  NoDup (review_key <$> reviews (Full.serve_all l s))
  ∧ Forall (λ r, rating_ok (rating r)) (reviews (Full.serve_all l s)).
Proof.
  revert s. unfold Full.serve_all.
  induction l as [|a l IH]; intros s Hnd Hok; [done|]. simpl.
  destruct (step_reviews_kept _ _ _ (serve_reviews a s) (conj Hnd Hok)) as [Hnd' Hok'].
  by apply IH.
Qed.

End Reviews.

Section Users.
Context `{Platform}.
Import Outcomes.

Lemma roles_kept_refl (m : gmap string doc) : roles_kept m m.
Proof. done. Qed.

Lemma roles_kept_trans (m1 m2 m3 : gmap string doc) :
  roles_kept m1 m2 → roles_kept m2 m3 → roles_kept m1 m3.
Proof. intros H12 H23 email. by rewrite H23. Qed.

Lemma role_of_same_role (d d' : doc) :
  d' !! "role" = d !! "role" → Full.role_of (Some d') = Full.role_of (Some d).
Proof. unfold Full.role_of. simpl. by intros ->. Qed.

Lemma verifyAdmin_rejects (role : value) :
  role ≠ VStr "admin" → is_Some (Full.verifyAdmin role).
Proof.
  intros Hrole. unfold Full.verifyAdmin.
  destruct (is_str (Some role) "admin") eqn:Hs; simpl; [|by eexists].
  destruct role; try done. simpl in Hs. apply String.eqb_eq in Hs. congruence.
Qed.

Lemma putUser_roles now decoded email body c :
  ends (Full.putUser now decoded email body) c
    (λ _ s, roles_kept (users (data c)) (users s)).
Proof.
  unfold Full.putUser.
  destruct (negb _); [apply roles_kept_refl|].
  destruct (_ || _); [apply roles_kept_refl|].
  apply ends_await; [apply roles_kept_refl|]. intros res s1 b1 Hup. cbn [data] in *.
  assert (Hkept : roles_kept (users (data c)) (users s1)).
  { unfold users_upsert in Hup. intros e.
    destruct (users (data c) !! email) as [d|] eqn:Hd; injection Hup as <- <-;
      cbn [users with_users]; (destruct (decide (email = e)) as [<-|Hne];
        [rewrite lookup_insert_eq, Hd|by rewrite lookup_insert_ne]).
    - apply role_of_same_role. by rewrite lookup_union_r.
    - unfold Full.role_of. simpl. rewrite lookup_union_r by done. done. }
  repeat first [ apply ends_ret; exact Hkept
               | match goal with
                 | |- ends (try_catch (if ?x then _ else _) _) _ _ => destruct x
                 end ].
Qed.

(** Any request other than a role patch sent by an admin leaves the role of
    every user as it was. *)
Lemma handle_roles now freshId r c :
  not_admin_patch r (users (data c)) →
  ends (Full.handle now freshId r) c (λ _ s, roles_kept (users (data c)) (users s)).
Proof.
  intros Hr.
  assert (Hquiet : ∀ (h : Handler) c',
    data c' = data c →
    ends h c' (λ _ s, users s = users (data c')) →
    ends h c' (λ _ s, roles_kept (users (data c)) (users s))).
  { intros h c' Hc' Hh. eapply ends_mono; [exact Hh|].
    intros _ s ->. rewrite Hc'. apply roles_kept_refl. }
  destruct r; cbn [Full.handle].
  - apply ends_authenticated; [intros; apply roles_kept_refl..|]. intros decoded _.
    apply putUser_roles.
  - apply ends_with_role; [intros; apply roles_kept_refl..|]. intros caller b' _ _.
    apply Hquiet; [done|]. unfold Full.postCourse. wp_quiet.
  - apply ends_with_role; [intros; apply roles_kept_refl..|]. intros caller b' _ _.
    apply Hquiet; [done|]. unfold Full.putCourse. wp_quiet.
  - apply ends_with_role; [intros; apply roles_kept_refl..|]. intros caller b' _ _.
    apply Hquiet; [done|]. unfold Full.deleteCourse. wp_quiet.
  - apply ends_with_role; [intros; apply roles_kept_refl..|]. intros caller b' _ _.
    apply Hquiet; [done|]. unfold Full.postEnrollment, Full.reserve. wp_quiet.
  - apply ends_authenticated; [intros; apply roles_kept_refl..|]. intros decoded _.
    apply Hquiet; [done|]. unfold Full.deleteEnrollment. wp_quiet.
  - apply ends_with_role; [intros; apply roles_kept_refl..|]. intros caller b' -> _.
    simpl in Hr. destruct (verifyAdmin_rejects _ Hr) as [rej ->].
    apply roles_kept_refl.
  - apply ends_with_role; [intros; apply roles_kept_refl..|]. intros caller b' _ _.
    apply Hquiet; [done|]. unfold Full.patchCourseStatus. wp_quiet.
  - apply ends_authenticated; [intros; apply roles_kept_refl..|]. intros decoded _.
    apply Hquiet; [done|]. unfold Full.postReview. wp_quiet.
Qed.

(** X6.  When no user's stored role is admin, no sequence of requests to
    the full server changes the role any email resolves to: nobody can
    promote themselves, and in particular nobody becomes admin. *)
Theorem full_no_promotion_without_admin (l : list Full.arrival) (s : Store) :
  no_admin (users s) →
  roles_kept (users s) (users (Full.serve_all l s))
  ∧ no_admin (users (Full.serve_all l s)).
Proof.
  revert s. unfold Full.serve_all.
  induction l as [|a l IH]; intros s Hno; [done|]. simpl.
  assert (Hstep : roles_kept (users s) (users (Full.serve a s).2)).
  { apply (serve_ends a s (λ _ s', roles_kept (users s) (users s'))).
    apply (handle_roles _ _ _ {| budget := Full.a_budget a; data := s |}).
    cbn [data]. destruct (Full.a_request a) as [| | | | | |[]| |]; try done.
    apply Hno. }
  assert (Hno' : no_admin (users (Full.serve a s).2)).
  { intros e. rewrite Hstep. apply Hno. }
  destruct (IH _ Hno') as [Hkept Hfinal]. split; [|done].
  by eapply roles_kept_trans.
Qed.

End Users.

Section Gates.
Context `{Platform}.
Import Outcomes.

(** X7.  A request without a valid token is answered 401 (no token) or 403
    (invalid token) by every writing route, before any driver call: the
    connection is left exactly as it was. *)
Theorem full_no_token_no_effect (now : Z) (freshId : ObjId) (r : Full.request)
    (c : Conn) :
  (∀ email, cred_of r ≠ Token email) →
  let out := Full.handle now freshId r c in
  out.2 = c
  ∧ (cred_of r = NoToken → out.1 = Reply 401 "Unauthorized: No token provided.")
  ∧ (cred_of r = BadToken → out.1 = Reply 403 "Forbidden: Invalid or expired token.").
Proof.
  intros Hcred out. subst out.
  destruct r as [cred ? ?|cred ?|cred ? ?|cred ?|cred ?|cred ? ?|cred ? ?|cred ? ?|cred ? ?];
    simpl in *;
    (destruct cred as [| |e]; [by split_and!|by split_and!|by destruct (Hcred e)]).
Qed.

Lemma verifyInstructor_rejects (role : value) :
  includes ["instructor"; "admin"] (Some role) = false →
  Full.verifyInstructor role = Some (Reply 403 "Forbidden: Requires Instructor or Admin role.").
Proof.
  unfold includes, Full.verifyInstructor. simpl.
  intros [-> [-> _]%orb_false_iff]%orb_false_iff. done.
Qed.

Lemma verifyAdmin_rejects_role (role : value) :
  includes ["admin"] (Some role) = false →
  Full.verifyAdmin role = Some (Reply 403 "Forbidden: Requires Admin role.").
Proof.
  unfold includes, Full.verifyAdmin. simpl.
  intros [-> _]%orb_false_iff. done.
Qed.

(** X8.  A route behind a role gate never runs its handler for a caller
    whose stored role is not among the roles the gate lets through: the
    store is left as it was and the answer is the gate's 403, or the 401 of a
    token without email, or the 500 of a failed role lookup. *)
Theorem full_role_gate_holds (now : Z) (freshId : ObjId) (r : Full.request)
    (c : Conn) (caller : string) (roles : list string) :
  cred_of r = Token caller →
  allowed_roles r = Some roles →
  includes roles (Some (Full.role_of (users (data c) !! caller))) = false →
  let out := Full.handle now freshId r c in
  data out.2 = data c
  ∧ (code out.1 = 403 ∨ (code out.1 = 401 ∧ caller = "")
     ∨ (code out.1 = 500 ∧ budget c = Some 0%nat)).
Proof.
  intros Hcred Hroles Hrole out. subst out.
  assert (Hgate : ∀ (g : value → option response) (h : string → value → Handler),
    (∃ rej, g (Full.role_of (users (data c) !! caller)) = Some rej ∧ code rej = 403) →
    let out := Full.with_role (Token caller) (λ email role, Full.gate (g role) (h email role)) c in
    data out.2 = data c
    ∧ (code out.1 = 403 ∨ (code out.1 = 401 ∧ caller = "")
       ∨ (code out.1 = 500 ∧ budget c = Some 0%nat))).
  { intros g h (rej & Hg & Hrej). simpl.
    unfold Full.with_role, Full.authenticated, Full.getUserRole. simpl.
    destruct (String.eqb_spec caller "") as [->|Hne]; [by split; [|right; left]|].
    destruct c as [[[|n]|] s]; simpl in *.
    - by split; [|right; right].
    - rewrite Hg. by split; [|left].
    - rewrite Hg. by split; [|left]. }
  destruct r; simpl in Hcred, Hroles; try done; injection Hroles as <-; subst cred;
    cbn [Full.handle].
  - apply (Hgate Full.verifyInstructor). eexists. split; [by apply verifyInstructor_rejects|done].
  - apply (Hgate Full.verifyInstructor). eexists. split; [by apply verifyInstructor_rejects|done].
  - apply (Hgate Full.verifyInstructor). eexists. split; [by apply verifyInstructor_rejects|done].
  - apply (Hgate Full.verifyAdmin (λ _ _, Full.patchUserRole email body)).
    eexists. split; [by apply verifyAdmin_rejects_role|done].
  - apply (Hgate Full.verifyAdmin (λ _ _, Full.patchCourseStatus id body)).
    eexists. split; [by apply verifyAdmin_rejects_role|done].
Qed.

End Gates.

Section Ownership.
Context `{Platform}.
Import Outcomes.

(** X9.  An instructor's requests to create, update or delete a course
    leave every course of another instructor exactly as it was, whatever the
    identifier, the body and the storage weather. *)
Theorem instructor_touches_only_own_courses (now : Z) (freshId : ObjId)
    (r : Full.request) (c : Conn) (caller : string) (oid : ObjId) (d : doc) :
  cred_of r = Token caller →
  allowed_roles r = Some ["instructor"; "admin"] →
  Full.role_of (users (data c) !! caller) = VStr "instructor" →
  courses (data c) !! oid = Some d →
  is_str (d !! "instructorEmail") caller = false →
  courses (data (Full.handle now freshId r c).2) !! oid = Some d.
Proof.
  intros Hcred Hroles Hrole Hd Hother.
  change (ends (Full.handle now freshId r) c (λ _ s, courses s !! oid = Some d)).
  destruct r; simpl in Hcred, Hroles; try done; subst cred; cbn [Full.handle];
    (apply ends_with_role; [done..|]); intros email b' [= <-] _; rewrite Hrole;
    cbn [Full.verifyInstructor Full.gate is_str String.eqb Ascii.eqb Bool.eqb negb andb].
  - unfold Full.postCourse.
    repeat match goal with
           | |- ends (match ?x with _ => _ end) _ _ => destruct x eqn:?
           end; try exact Hd.
    apply ends_await; [exact Hd|]. intros ins s1 b1 Hins. cbn [data] in *.
    unfold courses_insertOne in Hins.
    destruct (courses (data c) !! freshId) eqn:Hfresh; [done|].
    injection Hins as <- <-. apply ends_ret. cbn [data courses with_courses].
    rewrite lookup_insert_ne; [done|]. intros ->. congruence.
  - unfold Full.putCourse.
    destruct (parseObjectId _) as [target|]; [|exact Hd].
    wp_read; [exact Hd|].
    destruct (courses (data c) !! target) as [existing|] eqn:Hexisting; [|exact Hd].
    destruct (decide (target = oid)) as [->|Hne].
    { rewrite Hd in Hexisting. injection Hexisting as <-. rewrite Hother. exact Hd. }
    destruct (negb _); [exact Hd|]. cbn [andb].
    destruct (Full.check_seats _); [exact Hd|].
    destruct (Full.check_price _); [exact Hd|].
    apply ends_await; [exact Hd|]. intros res s1 b1 Hset. cbn [data] in *.
    assert (Hs1 : courses s1 !! oid = Some d).
    { by rewrite (courses_set_other _ _ _ _ _ _ Hset). }
    repeat first [ apply ends_ret; exact Hs1
                 | match goal with
                   | |- ends (try_catch (if ?x then _ else _) _) _ _ => destruct x
                   end ].
  - unfold Full.deleteCourse.
    destruct (parseObjectId _) as [target|]; [|exact Hd].
    wp_read; [exact Hd|].
    destruct (courses (data c) !! target) as [existing|] eqn:Hexisting; [|exact Hd].
    destruct (decide (target = oid)) as [->|Hne].
    { rewrite Hd in Hexisting. injection Hexisting as <-. rewrite Hother. exact Hd. }
    destruct (negb _); [exact Hd|]. cbn [andb].
    apply ends_await; [exact Hd|]. intros del s1 b1 Hdel. cbn [data] in *.
    assert (Hs1 : courses s1 !! oid = Some d).
    { unfold courses_deleteOne in Hdel. rewrite Hexisting in Hdel.
      injection Hdel as <- <-. cbn [courses with_courses].
      by rewrite lookup_delete_ne. }
    destruct (Nat.eqb del 0); [apply ends_ret; exact Hs1|].
    apply ends_await; [exact Hs1|]. intros n s2 b2 Hmany. cbn [data] in *.
    assert (Hs2 : courses s2 !! oid = Some d).
    { unfold enrollments_deleteMany, remove_all in Hmany. by injection Hmany as <- <-. }
    apply ends_await; [exact Hs2|]. intros k s3 b3 Hrev. cbn [data] in *.
    apply ends_ret. cbn [data].
    unfold reviews_deleteMany, remove_all in Hrev. by injection Hrev as <- <-.
Qed.

End Ownership.

Section RoundTrips.
Context `{Platform}.
Import Protocol Outcomes.

Lemma find_app_last {A} (p : A → bool) (l : list A) (x : A) :
  List.find p l = None → p x = true → List.find p (l ++ [x]) = Some x.
Proof.
  intros Hl Hx. induction l as [|y l IH]; simpl in *.
  - by rewrite Hx.
  - destruct (p y); [done|]. by apply IH.
Qed.

Lemma same_pair_refl (e : Enrollment) : same_pair (userEmail e) (courseId e) e = true.
Proof. unfold same_pair. by rewrite String.eqb_refl, bool_decide_eq_true_2. Qed.

(** [POST /enrollments] answers 201 only with the record in the store. *)
Lemma postEnrollment_201_recorded now freshId email body c :
  ends (Full.postEnrollment now freshId email body) c
    (λ r s, code r = 201 →
       missing_field body = false
       ∧ is_str (body !! "userEmail") email = true
       ∧ is_Some (body !! "courseId" ≫= parseObjectId)
       ∧ ∃ e, List.find (same_pair email (stored (body !! "courseId")))
                (enrollments s) = Some e
              ∧ e_id e = freshId).
Proof.
  unfold Full.postEnrollment. fold (missing_field body).
  destruct (missing_field body); [done|].
  destruct (is_str (body !! "userEmail") email); [|done]. cbn [negb].
  destruct (_ ≫= parseObjectId) as [oid|]; [|done].
  wp_read; [done|].
  destruct (List.find _ _) eqn:Hdup; [done|].
  wp_read; [done|].
  destruct (Nat.leb 3 _); [done|].
  wp_read; [done|].
  destruct (courses (data c) !! oid) as [course|]; [|done].
  destruct (_ && _); [done|].
  destruct (le0 _); [done|].
  unfold Full.reserve.
  apply ends_await; [done|]. intros ins s1 b1 Hins. cbn [data] in *.
  unfold enrollments_insertOne in Hins.
  destruct (existsb _ _) eqn:Hfresh; [done|]. injection Hins as <- <-.
  apply ends_await; [done|]. intros res s2 b2 Hinc. cbn [data] in *.
  destruct (Nat.eqb _ 0).
  - apply ends_await; [done|]. intros del s3 b3 Hdel. by apply ends_ret.
  - apply ends_ret. cbn [data]. intros _. split_and!; [done|done|by eexists|].
    assert (enrollments s2 = (enrollments (data c) ++
             [{| e_id := freshId; userEmail := email;
                 courseId := stored (body !! "courseId");
                 courseTitle := stored (body !! "courseTitle");
                 enrolledAt := now |}])%list) as ->.
    { unfold courses_inc in Hinc. repeat case_match; simplify_eq; done. }
    eexists. split.
    { apply find_app_last; [done|].
      apply (same_pair_refl {| e_id := freshId; userEmail := email;
                 courseId := stored (body !! "courseId");
                 courseTitle := stored (body !! "courseTitle");
                 enrolledAt := now |}). }
    reflexivity.
Qed.

(** X10.  Once [POST /enrollments] has answered 201, whatever the storage
    did meanwhile, the same user asking again for the same course is
    answered 400 "Already enrolled" and nothing is written. *)
Theorem enroll_again_is_refused (now now' : Z) (freshId freshId' : ObjId)
    (email : string) (body : doc) (c : Conn) :
  let out := Full.postEnrollment now freshId email body c in
  code out.1 = 201 →
  Full.postEnrollment now' freshId' email body (healthy (data out.2))
  = (Reply 400 "Already enrolled", healthy (data out.2)).
Proof.
  intros out H201.
  destruct (postEnrollment_201_recorded now freshId email body c H201)
    as (Hmiss & Hid & [oid Hoid] & (e & He & _)).
  fold out in He. rewrite postEnrollment_healthy, Hmiss, Hid, Hoid. cbn [negb].
  unfold has_enrollment. rewrite He. by rewrite bool_decide_eq_true_2 by eauto.
Qed.

Lemma remove_first_app_last {A} (p : A → bool) (l : list A) (x : A) :
  List.find p l = None → p x = true → remove_first p (l ++ [x]) = (1%nat, l).
Proof.
  intros Hl Hx. induction l as [|y l IH]; simpl in *.
  - by rewrite Hx.
  - destruct (p y); [done|]. by rewrite IH.
Qed.

Lemma claim_release_restores (d : doc) (n m : Z) :
  d !! "seats" = Some (VNum n) → d !! "enrollmentCount" = Some (VNum m) →
  <["enrollmentCount" := VNum (m + 1 - 1)]>
    (<["seats" := VNum (n - 1 + 1)]>
    (<["enrollmentCount" := VNum (m + 1)]> (<["seats" := VNum (n - 1)]> d))) = d.
Proof.
  intros Hn Hm. apply map_eq. intros k.
  destruct (decide (k = "enrollmentCount")) as [->|Hk1].
  { rewrite lookup_insert_eq, Hm. do 2 f_equal. lia. }
  rewrite lookup_insert_ne by done.
  destruct (decide (k = "seats")) as [->|Hk2].
  { rewrite lookup_insert_eq, Hn. do 2 f_equal. lia. }
  by rewrite !lookup_insert_ne by done.
Qed.

(** X11.  Enrolling and then unenrolling gives the store back: on healthy
    storage, for a course that holds [seats] as a positive integer and
    [enrollmentCount] as an integer (both within Int64, the counter also
    after one more enrollment), the enrollment is answered 201, the
    unenrollment 200, and the store after both is the store before. *)
Theorem enroll_then_unenroll_restores (now : Z) (freshId : ObjId)
    (email cid : string) (body : doc) (s : Store) (oid : ObjId) (course : doc)
    (n m : Z) :
  reaches_course email body s oid course →
  body !! "courseId" = Some (VStr cid) →
  not_approved course = false →
  course !! "seats" = Some (VNum n) → (0 < n)%Z → int64 n = true →
  course !! "enrollmentCount" = Some (VNum m) →
  int64 m = true → int64 (m + 1) = true →
  existsb (λ e', bool_decide (e_id e' = freshId)) (enrollments s) = false →
  let out := Full.postEnrollment now freshId email body (healthy s) in
  out.1 = ReplyId 201 "Enrolled" freshId
  ∧ Full.deleteEnrollment email email cid out.2 = (Reply 200 "Unenrolled", healthy s).
Proof.
  intros (Hmiss & Hid & Hoid & Hdup & Hcount & Hcourse) Hcid Happroved Hn Hpos Hn64
    Hm Hm64 Hm64' Hfresh out.
  assert (Hn64' : int64 (n - 1) = true).
  { apply int64_iff. apply int64_iff in Hn64. lia. }
  assert (Hparse : parseObjectId (VStr cid) = Some oid).
  { by rewrite Hcid in Hoid. }
  assert (Hnone : List.find (same_pair email (VStr cid)) (enrollments s) = None).
  { unfold has_enrollment in Hdup. rewrite Hcid in Hdup. simpl in Hdup.
    destruct (List.find _ _); [|done].
    by rewrite bool_decide_eq_true_2 in Hdup by eauto. }
  assert (Hrun : out =
    (ReplyId 201 "Enrolled" freshId,
     healthy (with_courses
       <[oid := <["enrollmentCount" := VNum (m + 1)]>
                  (<["seats" := VNum (n - 1)]> course)]>
       (with_enrollments (λ l, (l ++ [record_of now freshId email body])%list) s)))).
  { subst out. rewrite postEnrollment_healthy, Hmiss, Hid, Hoid, Hdup. cbn [negb].
    destruct (Nat.leb_spec 3 (enrollment_count s email)) as [Hle|_]; [lia|].
    rewrite Hcourse, Happroved.
    assert (le0 (course !! "seats") = false) as ->.
    { rewrite Hn. simpl. by apply Z.leb_gt. }
    unfold try_catch, Full.reserve. run_healthy.
    unfold enrollments_insertOne. cbn [e_id record_of]. rewrite Hfresh. run_healthy.
    unfold courses_inc. store_proj. rewrite Hcourse.
    assert (Full.has_seat course = true) as ->.
    { unfold Full.has_seat. rewrite Hn. simpl. by apply Z.ltb_lt. }
    rewrite (claim_effect course n m);
      [|by unfold seats_of; rewrite Hn|by unfold count_of; rewrite Hm|done|done].
    rewrite decide_False; [done|].
    apply (seats_changed _ n (n - 1)); [by unfold seats_of; rewrite Hn|lia|].
    rewrite lookup_insert_ne by done. by rewrite lookup_insert_eq. }
  clearbody out. subst out. split; [done|]. cbn [snd].
  unfold Full.deleteEnrollment. rewrite String.eqb_refl, Hparse. cbn [negb].
  unfold try_catch. run_healthy. unfold enrollments_deleteOne. store_proj.
  rewrite (remove_first_app_last _ _ _ Hnone).
  2:{ unfold record_of, same_pair. cbn [userEmail courseId].
      rewrite Hcid. simpl. by rewrite String.eqb_refl, bool_decide_eq_true_2. }
  cbn [Nat.eqb]. run_healthy. unfold courses_inc. store_proj.
  rewrite lookup_insert_eq.
  rewrite (release_effect _ (n - 1) (m + 1)).
  2:{ unfold seats_of. rewrite lookup_insert_ne by done. by rewrite lookup_insert_eq. }
  2:{ unfold count_of. by rewrite lookup_insert_eq. }
  2:{ by replace (n - 1 + 1)%Z with n by lia. }
  2:{ by replace (m + 1 - 1)%Z with m by lia. }
  rewrite claim_release_restores by done.
  cbn [mret M_ret]. unfold healthy, with_courses, with_enrollments. simpl.
  rewrite insert_insert_eq, insert_id by done.
  by destruct s.
Qed.

End RoundTrips.

Section Admin.
Context `{Platform}.
Import Protocol Outcomes.

(** X12.  A role patch sent by an admin with one of the three roles: for a
    user without a record the answer is 404 and no record is created; for a
    user with a record the answer is 200, the role that user resolves to
    from then on is the new one, and no other user record changes. *)
Theorem role_patch_takes_effect (now : Z) (freshId : ObjId)
    (caller target role : string) (body : doc) (s : Store) :
  caller ≠ "" →
  Full.role_of (users s !! caller) = VStr "admin" →
  body !! "role" = Some (VStr role) →
  includes ["student"; "instructor"; "admin"] (Some (VStr role)) = true →
  let out := Full.handle now freshId
               (Full.PatchUserRole (Token caller) target body) (healthy s) in
  (users s !! target = None → out = (Reply 404 "User not found", healthy s))
  ∧ (is_Some (users s !! target) →
       out.1 = Reply 200 ("Role updated to " ++ role)
       ∧ Full.role_of (users (data out.2) !! target) = VStr role
       ∧ ∀ e, e ≠ target → users (data out.2) !! e = users s !! e).
Proof.
  intros Hcaller Hadmin Hbody Hrole out.
  assert (Hrun : out =
    try_catch
      (result ← await (users_set target {["role" := VStr role]});
       if Nat.eqb (matchedCount result) 0 then mret (Reply 404 "User not found")
       else mret (Reply 200 ("Role updated to " ++ role)))
      (Reply 500 "Update failed") (healthy s)).
  { subst out. unfold Full.handle, Full.with_role, Full.authenticated.
    cbn [Full.verifyJWT]. unfold healthy. rewrite getUserRole_answers by done.
    rewrite Hadmin. cbn [Full.verifyAdmin Full.gate is_str String.eqb Ascii.eqb
                         Bool.eqb negb].
    unfold Full.patchUserRole. by rewrite Hbody, Hrole. }
  clearbody out. subst out. unfold try_catch. run_healthy. unfold users_set.
  split.
  - by intros ->.
  - intros [d Hd]. rewrite Hd. cbn [matchedCount Nat.eqb]. simpl.
    split_and!; [done| |].
    + rewrite lookup_insert_eq. unfold Full.role_of. simpl.
      rewrite (lookup_union_Some_l _ _ _ (VStr role)) by by rewrite lookup_singleton_eq.
      unfold includes in Hrole. simpl in Hrole.
      by destruct (String.eqb_spec role "") as [->|Hne].
    + intros e He. by rewrite lookup_insert_ne.
Qed.

(** [POST /enrollments] into a course whose status is present and not
    ['approved'] writes nothing and never answers 201, whatever the storage
    does. *)
Lemma postEnrollment_not_approved now freshId email body c oid course :
  body !! "courseId" ≫= parseObjectId = Some oid →
  courses (data c) !! oid = Some course →
  not_approved course = true →
  ends (Full.postEnrollment now freshId email body) c
    (λ r s, s = data c ∧ code r ≠ 201).
Proof.
  intros Hoid Hcourse Hstatus.
  unfold Full.postEnrollment.
  destruct (_ || _); [done|].
  destruct (negb _); [done|].
  rewrite Hoid.
  wp_read; [done|].
  destruct (List.find _ _); [done|].
  wp_read; [done|].
  destruct (Nat.leb 3 _); [done|].
  wp_read; [done|].
  rewrite Hcourse. unfold not_approved in Hstatus. rewrite Hstatus. done.
Qed.

(** X13.  A course that [POST /courses] has just created (201) is stored
    with status ['pending'], [enrollmentCount] 0 and a [seats] that is a
    number and not negative (an integer, or a Double, the positive infinity
    included); until its status changes, every [POST /enrollments] for it
    is turned away without a write. *)
Theorem new_course_waits_for_approval (now now' : Z) (freshId freshId' : ObjId)
    (role : value) (email email' : string) (body body' : doc) (c c' : Conn) :
  let out := Full.postCourse now freshId role email body c in
  code out.1 = 201 →
  data c' = data out.2 →
  body' !! "courseId" ≫= parseObjectId = Some freshId →
  (∃ d v, courses (data out.2) !! freshId = Some d
          ∧ d !! "status" = Some (VStr "pending")
          ∧ d !! "enrollmentCount" = Some (VNum 0)
          ∧ d !! "seats" = Some v ∧ not_negative v)
  ∧ let out' := Full.postEnrollment now' freshId' email' body' c' in
    data out'.2 = data c' ∧ code out'.1 ≠ 201.
Proof.
  intros out H201 Hc' Hoid.
  assert (Hcreated : ∃ d v, courses (data out.2) !! freshId = Some d
          ∧ d !! "status" = Some (VStr "pending")
          ∧ d !! "enrollmentCount" = Some (VNum 0)
          ∧ d !! "seats" = Some v ∧ not_negative v).
  { revert H201. subst out.
    change (ends (Full.postCourse now freshId role email body) c
      (λ r s, code r = 201 → ∃ d v, courses s !! freshId = Some d
          ∧ d !! "status" = Some (VStr "pending")
          ∧ d !! "enrollmentCount" = Some (VNum 0)
          ∧ d !! "seats" = Some v ∧ not_negative v)).
    unfold Full.postCourse.
    destruct (_ || _); [done|].
    destruct (_ ≫= parseInt10) as [n|]; [|done].
    destruct (_ ≫= parseFloat) as [p|]; [|done].
    destruct (dlt p _); [done|]. cbn [orb].
    destruct (dlt n (of_Z 0)) eqn:Hn; [done|].
    destruct (_ && _); [done|].
    apply ends_await; [done|]. intros ins s1 b1 Hins. cbn [data] in *.
    unfold courses_insertOne in Hins.
    destruct (courses (data c) !! freshId); [done|]. injection Hins as <- <-.
    apply ends_ret. intros _. cbn [data courses with_courses].
    eexists _, (bson_number n). rewrite lookup_insert_eq.
    split_and!; [done| | | |by apply bson_number_not_negative];
      by simplify_map_eq. }
  split; [done|].
  destruct Hcreated as (d & v & Hd & Hstatus & _).
  rewrite <- Hc' in Hd.
  apply (postEnrollment_not_approved now' freshId' email' body' c' freshId d Hoid Hd).
  unfold not_approved. by rewrite Hstatus.
Qed.

End Admin.

(** ** The reading routes *)

Section Reading.
Context `{Platform} `{Engine}.
Import Protocol Outcomes Queries.

Lemma finds_await {A B} (call : Call A) (k : A → M (answer B)) (r : response)
    (c : Conn) (Φ : answer B → Store → Prop) :
  Φ (Refused r) (data c) →
  (∀ a s' b', call (data c) = Some (a, s') →
     finds (try_send (k a) r) {| budget := b'; data := s' |} Φ) →
  finds (try_send (await call ≫= k) r) c Φ.
Proof.
  intros Hthrow Hgo. unfold finds, try_send, mbind, M_bind, await.
  destruct c as [b s]; simpl in *.
  destruct b as [[|n]|]; [done| |];
    (destruct (call s) as [[a s']|] eqn:Hcall; simpl; [|done]; by apply Hgo).
Qed.

Lemma finds_ret {A} (a : answer A) (r : response) (c : Conn)
    (Φ : answer A → Store → Prop) :
  Φ a (data c) → finds (try_send (mret a) r) c Φ.
Proof. done. Qed.

(** The best-effort role: ['guest'], or what the record of the token's
    email gives; the store is only read. *)
Lemma getRoleIfAuthenticated_cases (cred : credential) (c : Conn) :
  ∃ role b', Full.getRoleIfAuthenticated cred c = (role, {| budget := b'; data := data c |})
    ∧ (role = VStr "guest"
       ∨ ∃ e, cred = Token e ∧ role = Full.role_of (users (data c) !! e)).
Proof.
  destruct c as [b s]. unfold Full.getRoleIfAuthenticated.
  destruct cred as [| |e]; [by eexists _, _; split; [|left]..|].
  unfold await, users_findOne, read. simpl.
  destruct b as [[|n]|]; simpl; eexists _, _; (split; [done|]); eauto.
Qed.

Lemma elem_of_courses_find (p : ObjId * doc → bool) (key : string) (s : Store)
    (oid : ObjId) (d : doc) :
  (oid, d) ∈ sort_desc (λ x : ObjId * doc, x.2 !! key)
               (List.filter p (map_to_list (courses s)))
  ↔ courses s !! oid = Some d ∧ p (oid, d) = true.
Proof.
  rewrite sort_desc_perm, list_elem_of_In, List.filter_In, <- list_elem_of_In.
  by rewrite elem_of_map_to_list.
Qed.

(** X14.  [GET /courses] only reads, and what it lists are stored courses;
    unless the caller's stored role is admin, every listed course has status
    ['approved'] or no status at all.  Without filters the list holds every
    such course. *)
Theorem course_list_shows_only_visible (cred : credential)
    (instructorEmail search : option string) (c : Conn) :
  let out := getCourses cred instructorEmail search c in
  data out.2 = data c
  ∧ match out.1 with
    | Sent l =>
        (∀ oid d, (oid, d) ∈ l →
           courses (data c) !! oid = Some d
           ∧ ((∀ e, cred = Token e →
                 Full.role_of (users (data c) !! e) ≠ VStr "admin") →
              visible d = true))
        ∧ (instructorEmail = None → search = None →
           ∀ oid d, courses (data c) !! oid = Some d → visible d = true →
             (oid, d) ∈ l)
    | Refused r => r = Reply 500 "Failed to fetch courses"
    end.
Proof.
  intros out. subst out. unfold getCourses.
  destruct (getRoleIfAuthenticated_cases cred c) as (role & b' & -> & Hrole).
  set (c1 := {| budget := b'; data := data c |}).
  change (finds (try_send
    (result ← await (courses_find (courses_query role instructorEmail search) "createdAt");
     mret (Sent result)) (Reply 500 "Failed to fetch courses")) c1
    (λ a s, s = data c ∧
       match a with
       | Sent l =>
           (∀ oid d, (oid, d) ∈ l →
              courses (data c) !! oid = Some d
              ∧ ((∀ e, cred = Token e →
                    Full.role_of (users (data c) !! e) ≠ VStr "admin") →
                 visible d = true))
           ∧ (instructorEmail = None → search = None →
              ∀ oid d, courses (data c) !! oid = Some d → visible d = true →
                (oid, d) ∈ l)
       | Refused r => r = Reply 500 "Failed to fetch courses"
       end)).
  apply finds_await; [done|]. intros l s1 b1 Hfind. cbn [data c1] in *.
  unfold courses_find in Hfind.
  destruct (courses_query role instructorEmail search) as [q|] eqn:Hq; [|done].
  injection Hfind as <- <-. apply finds_ret. split; [done|]. split.
  - intros oid d [Hd Hqd]%elem_of_courses_find. split; [done|]. intros Hcred.
    assert (Hnot : is_str (Some role) "admin" = false).
    { destruct Hrole as [->|(e & -> & ->)]; [done|].
      specialize (Hcred e eq_refl).
      destruct (Full.role_of _) as [| | | |r| |]; try done. simpl.
      apply String.eqb_neq. congruence. }
    unfold courses_query in Hq. rewrite Hnot in Hq. cbn [negb] in Hq.
    destruct search as [pattern|].
    + destruct (given (Some pattern)).
      * destruct (regex_i pattern) as [rx|]; [|done]. injection Hq as <-.
        by apply andb_true_iff in Hqd as [[? _]%andb_true_iff _].
      * injection Hq as <-. by apply andb_true_iff in Hqd as [? _].
    + injection Hq as <-. by apply andb_true_iff in Hqd as [? _].
  - intros -> -> oid d Hd Hvis. apply elem_of_courses_find. split; [done|].
    unfold courses_query in Hq. injection Hq as <-. cbn [snd]. rewrite Hvis.
    by destruct (negb _).
Qed.

Lemma getRoleIfAuthenticated_healthy (cred : credential) (s : Store) :
  ∃ role, Full.getRoleIfAuthenticated cred (healthy s) = (role, healthy s).
Proof.
  unfold Full.getRoleIfAuthenticated. destruct cred; by eexists.
Qed.

(** X15.  On healthy storage [GET /courses/:id] sends a course exactly when
    the unfiltered [GET /courses] lists it for the same caller: what it
    sends is the listed document with [reviewCount] the number of reviews of
    the course and [averageRating] 0 when there is none; otherwise the
    answer is a 404. *)
Theorem single_course_agrees_with_list (cred : credential) (id : string)
    (oid : ObjId) (s : Store) :
  parseObjectId (VStr id) = Some oid →
  let rs := List.filter (λ r, bool_decide (courseObjectId r = oid)) (reviews s) in
  ∃ l, (getCourses cred None None (healthy s)).1 = Sent l
    ∧ match (getCourse cred id (healthy s)).1 with
      | Sent d' =>
          ∃ d, (oid, d) ∈ l ∧ d' = with_review_fields rs d
               ∧ d' !! "reviewCount" = Some (VNum (Z.of_nat (length rs)))
               ∧ (rs = [] → d' !! "averageRating" = Some (VNum 0))
      | Refused r => code r = 404 ∧ ∀ d, (oid, d) ∉ l
      end.
Proof.
  intros Hoid rs. unfold getCourses, getCourse.
  destruct (getRoleIfAuthenticated_healthy cred s) as [role ->]. rewrite Hoid.
  unfold try_send, courses_find, courses_aggregate_reviews. run_healthy.
  cbn [courses_query]. cbn [mret M_ret fst].
  eexists. split; [reflexivity|].
  destruct (courses s !! oid) as [d|] eqn:Hd; cbn [fmap option_fmap option_map].
  2:{ split; [done|]. intros d [Hd' _]%elem_of_courses_find. congruence. }
  fold rs.
  assert (Hstatus : with_review_fields rs d !! "status" = d !! "status").
  { unfold with_review_fields. by rewrite lookup_delete_ne, !lookup_insert_ne. }
  rewrite Hstatus.
  destruct (bool_decide (d !! "status" ≠ None) && negb (is_str (d !! "status") "approved")
            && negb (is_str (Some role) "admin")) eqn:Hhide; cbn [fst].
  - split; [done|]. intros d' [Hd' Hq]%elem_of_courses_find.
    rewrite Hd in Hd'. injection Hd' as <-.
    apply andb_true_iff in Hhide as [[Hhas Hnot]%andb_true_iff Hrole].
    cbn [snd] in Hq. rewrite Hrole in Hq. apply andb_true_iff in Hq as [Hvis _].
    unfold visible in Hvis. apply bool_decide_eq_true in Hhas.
    apply negb_true_iff in Hnot. rewrite Hnot in Hvis. simpl in Hvis.
    by apply bool_decide_eq_true in Hvis.
  - exists d. split_and!; [|done| |].
    + apply elem_of_courses_find. split; [done|]. cbn [snd].
      rewrite andb_true_r.
      destruct (is_str (Some role) "admin"); [done|]. cbn [negb].
      rewrite andb_true_r in Hhide. unfold visible.
      destruct (is_str (d !! "status") "approved"); [done|].
      rewrite andb_true_r in Hhide. apply bool_decide_eq_false in Hhide.
      simpl. apply bool_decide_eq_true. by destruct (d !! "status"); [destruct Hhide|].
    + unfold with_review_fields. by rewrite lookup_delete_ne, lookup_insert_eq.
    + intros Hnone. unfold with_review_fields.
      rewrite lookup_delete_ne, lookup_insert_ne, lookup_insert_eq by done.
      by rewrite Hnone.
Qed.

(** X16.  [GET /popular-courses] only reads; it lists at most six entries,
    each the projection of a distinct stored course with status ['approved']
    or no status; with six such courses or fewer, it lists them all. *)
Theorem popular_courses_are_visible (c : Conn) :
  let out := getPopularCourses c in
  let candidates := List.filter (λ x : ObjId * doc, visible x.2)
                      (map_to_list (courses (data c))) in
  data out.2 = data c
  ∧ match out.1 with
    | Sent l =>
        (length l ≤ 6)%nat
        ∧ NoDup l.*1
        ∧ (∀ oid e, (oid, e) ∈ l →
             ∃ d, courses (data c) !! oid = Some d ∧ visible d = true
                  ∧ e = popular_entry d)
        ∧ ((length candidates ≤ 6)%nat →
           ∀ oid d, courses (data c) !! oid = Some d → visible d = true →
             (oid, popular_entry d) ∈ l)
    | Refused r => r = Reply 500 "Failed to fetch popular courses"
    end.
Proof.
  intros out candidates. subst out. unfold getPopularCourses.
  change (finds (try_send (popular ← await courses_popular; mret (Sent popular))
                   (Reply 500 "Failed to fetch popular courses")) c
    (λ a s, s = data c ∧
       match a with
       | Sent l =>
           (length l ≤ 6)%nat
           ∧ NoDup l.*1
           ∧ (∀ oid e, (oid, e) ∈ l →
                ∃ d, courses (data c) !! oid = Some d ∧ visible d = true
                     ∧ e = popular_entry d)
           ∧ ((length candidates ≤ 6)%nat →
              ∀ oid d, courses (data c) !! oid = Some d → visible d = true →
                (oid, popular_entry d) ∈ l)
       | Refused r => r = Reply 500 "Failed to fetch popular courses"
       end)).
  apply finds_await; [done|]. intros l s1 b1 [= <- <-]. apply finds_ret.
  cbn [data]. split; [done|].
  set (sorted := sort_desc (λ x : ObjId * doc, x.2 !! "enrollmentCount") candidates).
  assert (Hin : ∀ oid d, (oid, d) ∈ sorted ↔ courses (data c) !! oid = Some d
                                             ∧ visible d = true).
  { intros oid d. apply elem_of_courses_find. }
  split_and!.
  - rewrite length_fmap, length_take. lia.
  - rewrite <- list_fmap_compose.
    assert (Hfst : (fst ∘ prod_map id popular_entry : ObjId * doc → ObjId) = fst) by done.
    rewrite Hfst. eapply sublist_NoDup; [|apply fmap_sublist, sublist_take].
    unfold sorted. rewrite sort_desc_perm.
    eapply sublist_NoDup; [apply (NoDup_fst_map_to_list (courses (data c)))|].
    apply fmap_sublist, filter_sublist.
  - intros oid e ([oid' d] & [= -> ->] & Hd)%list_elem_of_fmap.
    exists d. apply elem_of_take in Hd as (i & Hd%list_elem_of_lookup_2 & _).
    apply Hin in Hd as [? ?]. done.
  - intros Hfew oid d Hd Hvis. apply list_elem_of_fmap. exists (oid, d).
    split; [done|]. rewrite take_ge.
    + by apply Hin.
    + unfold sorted. by rewrite sort_desc_perm.
Qed.

(** X17.  Once [POST /enrollments] has answered 201 for a [courseId] sent
    as a string, [GET /enrolled-status] of that user and course reports the
    enrollment, with the identifier the 201 carried. *)
Theorem enrolled_status_after_enroll (now : Z) (freshId : ObjId)
    (email cid : string) (body : doc) (c : Conn) :
  body !! "courseId" = Some (VStr cid) →
  let out := Full.postEnrollment now freshId email body c in
  code out.1 = 201 →
  getEnrolledStatus email (Some email) (Some cid) (healthy (data out.2))
  = (Sent (true, Some freshId), healthy (data out.2)).
Proof.
  intros Hcid out H201.
  destruct (postEnrollment_201_recorded now freshId email body c H201)
    as (Hmiss & Hid & _ & (e & He & Hfresh)).
  fold out in He. rewrite Hcid in He. cbn [stored default id] in He.
  unfold missing_field in Hmiss.
  apply orb_false_iff in Hmiss as [[Hemail Hcourse]%orb_false_iff _].
  assert (String.eqb email "" = false) as Hne.
  { destruct (body !! "userEmail") as [[]|]; try done. simpl in Hid, Hemail.
    apply String.eqb_eq in Hid as ->. by apply negb_false_iff, negb_true_iff in Hemail. }
  assert (String.eqb cid "" = false) as Hne'.
  { rewrite Hcid in Hcourse. simpl in Hcourse.
    by apply negb_false_iff, negb_true_iff in Hcourse. }
  unfold getEnrolledStatus, given. rewrite Hne, Hne', String.eqb_refl. cbn [negb orb].
  unfold try_send, enrollments_findOne. run_healthy. rewrite He. cbn [mret M_ret].
  rewrite bool_decide_eq_true_2 by eauto. simpl. by rewrite Hfresh.
Qed.

(** X18.  [GET /users/:email] sends a profile only to the user it belongs
    to, and the role that profile shows is the role the middleware resolves
    for that user, ['student'] included when no record exists; the route
    only reads. *)
Theorem profile_shows_resolved_role (cred : credential) (email : string) (c : Conn) :
  let out := Queries.with_role cred (λ decoded _, getUser decoded email) c in
  data out.2 = data c
  ∧ match out.1 with
    | Sent d =>
        cred = Token email
        ∧ Full.role_of (Some d) = Full.role_of (users (data c) !! email)
        ∧ (users (data c) !! email = None → d !! "email" = Some (VStr email))
    | Refused r => code r = 401 ∨ code r = 403 ∨ code r = 500
    end.
Proof.
  intros out. subst out. unfold Queries.with_role.
  destruct cred as [| |decoded]; cbn [Full.verifyJWT]; [by split; [|left]|by split; [|right; left]|].
  unfold Full.getUserRole.
  destruct (String.eqb decoded ""); [by split; [|left]|].
  destruct c as [b s]. unfold await at 1. unfold users_findOne at 1. unfold read at 1.
  cbn [budget data].
  assert (Hgo : ∀ b', let out := getUser decoded email {| budget := b'; data := s |} in
    data out.2 = s
    ∧ match out.1 with
      | Sent d =>
          Token decoded = Token email
          ∧ Full.role_of (Some d) = Full.role_of (users s !! email)
          ∧ (users s !! email = None → d !! "email" = Some (VStr email))
      | Refused r => code r = 401 ∨ code r = 403 ∨ code r = 500
      end).
  { intros b'. unfold getUser.
    destruct (String.eqb_spec decoded email) as [->|Hne]; cbn [negb];
      [|by split; [|right; left]].
    apply (finds_await _ _ _ _ (λ a s', s' = s ∧ match a with
      | Sent d =>
          Token email = Token email
          ∧ Full.role_of (Some d) = Full.role_of (users s !! email)
          ∧ (users s !! email = None → d !! "email" = Some (VStr email))
      | Refused r => code r = 401 ∨ code r = 403 ∨ code r = 500
      end)); [by split; [|right; right]|].
    intros user s1 b1 [= <- <-]. apply finds_ret. cbn [data].
    split; [done|]. split; [done|].
    destruct (users s !! email) as [d|]; simpl; [done|].
    split; [done|]. intros _. by rewrite lookup_insert_eq. }
  destruct b as [[|n]|]; [by split; [|right; right]|apply Hgo..].
Qed.

(** X21.  A profile written by [PUT /users/:email] is read back by
    [GET /users/:email]: the name and the photo are the ones sent, a first
    write is answered 201 and creates the record with its email, a later one
    is answered 200, and the role the profile shows is the one the user had
    (['student'] for a new record), whatever the body holds. *)
Theorem profile_update_is_read_back (now : Z) (email : string) (body : doc)
    (s : Store) :
  truthy (body !! "name") = true → truthy (body !! "photoURL") = true →
  let out := Full.putUser now email email body (healthy s) in
  ∃ d, getUser email email (healthy (data out.2)) = (Sent d, healthy (data out.2))
       ∧ d !! "name" = body !! "name" ∧ d !! "photoURL" = body !! "photoURL"
       ∧ Full.role_of (Some d) = Full.role_of (users s !! email)
       ∧ (users s !! email = None →
            code out.1 = 201 ∧ d !! "email" = Some (VStr email))
       ∧ (is_Some (users s !! email) → code out.1 = 200).
Proof.
  intros Hname Hphoto out.
  assert (Hn : Some (stored (body !! "name")) = body !! "name").
  { by destruct (body !! "name"). }
  assert (Hp : Some (stored (body !! "photoURL")) = body !! "photoURL").
  { by destruct (body !! "photoURL"). }
  assert (Hget : ∀ s' d, users s' !! email = Some d →
            getUser email email (healthy s') = (Sent d, healthy s')).
  { intros s' d Hd. unfold getUser. rewrite String.eqb_refl. cbn [negb].
    unfold try_send, users_findOne. run_healthy. by rewrite Hd. }
  subst out. unfold Full.putUser. rewrite String.eqb_refl, Hname, Hphoto.
  cbn [negb orb].
  match goal with
  | |- context [users_upsert email ?f ?i] => set (fields := f); set (ins := i)
  end.
  assert (Hfn : fields !! "name" = body !! "name").
  { rewrite <- Hn. by apply lookup_insert_eq. }
  assert (Hfp : fields !! "photoURL" = body !! "photoURL").
  { rewrite <- Hp. unfold fields. rewrite lookup_insert_ne by done.
    by apply lookup_insert_eq. }
  assert (Hfr : fields !! "role" = None) by done.
  assert (Hfe : fields !! "email" = None) by done.
  unfold try_catch. run_healthy. unfold users_upsert.
  destruct (users s !! email) as [d0|] eqn:Hd0.
  - exists (fields ∪ d0). split.
    { destruct (decide (fields ∪ d0 = d0)); cbn [fst snd Nat.ltb Nat.leb mret M_ret data];
        apply Hget; store_proj; by rewrite lookup_insert_eq. }
    split_and!.
    + destruct (body !! "name") as [v|] eqn:Hv; [|done].
      by apply lookup_union_Some_l.
    + destruct (body !! "photoURL") as [v|] eqn:Hv; [|done].
      by apply lookup_union_Some_l.
    + apply role_of_same_role. by rewrite lookup_union_r.
    + done.
    + intros _. by destruct (decide (fields ∪ d0 = d0)).
  - exists (fields ∪ ins). split.
    { cbn [fst snd Nat.ltb Nat.leb mret M_ret data].
      apply Hget; store_proj; by rewrite lookup_insert_eq. }
    split_and!.
    + destruct (body !! "name") as [v|] eqn:Hv; [|done].
      by apply lookup_union_Some_l.
    + destruct (body !! "photoURL") as [v|] eqn:Hv; [|done].
      by apply lookup_union_Some_l.
    + unfold Full.role_of. simpl. by rewrite lookup_union_r.
    + intros _. split; [done|]. by rewrite lookup_union_r.
    + by intros [? ?].
Qed.

(** X22.  A status patch sent by an admin for an existing course with one
    of the three statuses is answered 200 and sets [status] and nothing
    else; from then on the course is listed for everybody, and passes the
    status check of the enrollment, exactly when the status is
    ['approved']. *)
Theorem status_patch_takes_effect (now : Z) (freshId : ObjId)
    (caller id status : string) (body : doc) (s : Store) (oid : ObjId) (d : doc) :
  caller ≠ "" →
  Full.role_of (users s !! caller) = VStr "admin" →
  body !! "status" = Some (VStr status) →
  includes ["approved"; "rejected"; "pending"] (Some (VStr status)) = true →
  parseObjectId (VStr id) = Some oid →
  courses s !! oid = Some d →
  let out := Full.handle now freshId
               (Full.PatchCourseStatus (Token caller) id body) (healthy s) in
  out.1 = Reply 200 ("Status updated to " ++ status)
  ∧ ∃ d', courses (data out.2) !! oid = Some d'
          ∧ d' !! "status" = Some (VStr status)
          ∧ (∀ k, k ≠ "status" → d' !! k = d !! k)
          ∧ visible d' = String.eqb status "approved"
          ∧ not_approved d' = negb (String.eqb status "approved").
Proof.
  intros Hcaller Hadmin Hbody Hstatus Hoid Hd out.
  assert (Hrun : out =
    try_catch
      (result ← await (courses_set oid {["status" := VStr status]});
       if Nat.eqb (matchedCount result) 0 then mret (Reply 404 "Course not found")
       else mret (Reply 200 ("Status updated to " ++ status)))
      (Reply 500 "Update failed") (healthy s)).
  { subst out. unfold Full.handle, Full.with_role, Full.authenticated.
    cbn [Full.verifyJWT]. unfold healthy. rewrite getUserRole_answers by done.
    rewrite Hadmin. cbn [Full.verifyAdmin Full.gate is_str String.eqb Ascii.eqb
                         Bool.eqb negb].
    unfold Full.patchCourseStatus. by rewrite Hbody, Hstatus, Hoid. }
  clearbody out. subst out. unfold try_catch. run_healthy.
  rewrite courses_set_plain by done.
  rewrite Hd. cbn [matchedCount Nat.eqb]. simpl. split; [done|].
  eexists. rewrite lookup_insert_eq. split; [done|].
  assert (Hst : ({["status" := VStr status]} ∪ d : doc) !! "status" = Some (VStr status)).
  { by apply lookup_union_Some_l, lookup_singleton_eq. }
  split_and!; [done| | |].
  - intros k Hk. apply lookup_union_r. by apply lookup_singleton_ne.
  - unfold visible. rewrite Hst. simpl. by rewrite orb_false_r.
  - unfold not_approved. rewrite Hst. by rewrite bool_decide_eq_true_2.
Qed.

(** What [stripe_create] gives: the secret on the store as it is, or a
    throw. *)
Lemma finds_stripe {B} (price cid : value) (email : string)
    (k : string → M (answer B)) (r : response) (c : Conn)
    (Φ : answer B → Store → Prop) :
  Φ (Refused r) (data c) →
  (∀ secret, paymentIntent price cid email = Some secret →
     finds (try_send (k secret) r) c Φ) →
  finds (try_send (stripe_create price cid email ≫= k) r) c Φ.
Proof.
  intros Hthrow Hgo. unfold finds, try_send, mbind, M_bind, stripe_create.
  destruct (paymentIntent price cid email) as [secret|] eqn:Hp; [|done].
  by apply Hgo.
Qed.

(** X23.  [POST /create-payment-intent] never writes to the store, and it
    sends a client secret only for a stored course that passes the status
    check and the seat pre-check of the enrollment, has a price that is
    present and not [<= 0], and in which the caller holds no enrollment. *)
Theorem payment_intent_is_guarded (email : string) (body : doc) (c : Conn) :
  let out := createPaymentIntent email body c in
  data out.2 = data c
  ∧ match out.1 with
    | Sent secret =>
        ∃ oid course,
          body !! "courseId" ≫= parseObjectId = Some oid
          ∧ courses (data c) !! oid = Some course
          ∧ not_approved course = false
          ∧ le0 (course !! "seats") = false
          ∧ nullish (course !! "price") = false ∧ le0 (course !! "price") = false
          ∧ has_enrollment (data c) email (stored (body !! "courseId")) = false
          ∧ paymentIntent (stored (course !! "price")) (stored (body !! "courseId"))
              email = Some secret
    | Refused r => code r = 400 ∨ code r = 404 ∨ code r = 500
    end.
Proof.
  intros out. subst out. unfold createPaymentIntent.
  destruct (body !! "courseId" ≫= parseObjectId) as [oid|] eqn:Hoid;
    [|by split; [|left]].
  set (Φ := λ (a : answer string) (s : Store), s = data c ∧
    match a with
    | Sent secret =>
        ∃ oid' course,
          Some oid = Some oid'
          ∧ courses (data c) !! oid' = Some course
          ∧ not_approved course = false
          ∧ le0 (course !! "seats") = false
          ∧ nullish (course !! "price") = false ∧ le0 (course !! "price") = false
          ∧ has_enrollment (data c) email (stored (body !! "courseId")) = false
          ∧ paymentIntent (stored (course !! "price")) (stored (body !! "courseId"))
              email = Some secret
    | Refused r => code r = 400 ∨ code r = 404 ∨ code r = 500
    end).
  match goal with |- ?d = _ ∧ match ?a with _ => _ end => change (Φ a d) end.
  match goal with |- Φ (?q c).1 _ => change (finds q c Φ) end.
  apply finds_await; [by split; [|right; right]|].
  intros course s1 b1 [= <- <-]. cbn [data].
  destruct (courses (data c) !! oid) as [course|] eqn:Hcourse;
    [|by split; [|right; left]].
  fold (not_approved course).
  destruct (not_approved course) eqn:Hstatus; [by split; [|left]|].
  destruct (le0 (course !! "seats")) eqn:Hseats; [by split; [|left]|].
  destruct (nullish (course !! "price")) eqn:Hnull; [by split; [|left]|].
  destruct (le0 (course !! "price")) eqn:Hprice; [by split; [|left]|].
  cbn [orb].
  apply finds_await; [by split; [|right; right]|].
  intros existing s2 b2 [= <- <-]. cbn [data].
  destruct (List.find _ _) eqn:Hfind; [by split; [|left]|].
  apply finds_stripe; [by split; [|right; right]|]. intros secret Hsecret.
  apply finds_ret. split; [done|]. exists oid, course.
  split_and!; try done.
  unfold has_enrollment. rewrite Hfind. by apply bool_decide_eq_false_2; intros [].
Qed.

End Reading.

(** ** The legacy server *)

Section LegacyFacts.
Context `{Platform}.
Import Protocol Outcomes.

(** [new ObjectId(x)]: it throws on a malformed argument, and the [catch]
    answers on the store as it is; otherwise the body goes on. *)
Lemma ends_newObjectId (v : option value) (k : Legacy.target → M response)
    (r : response) (c : Conn) (Φ : response → Store → Prop) :
  Φ r (data c) →
  (∀ t, (t = Legacy.Generated ∧ nullish v = true)
        ∨ (∃ x oid, v = Some x ∧ parseObjectId x = Some oid ∧ t = Legacy.Parsed oid) →
     ends (try_catch (k t) r) c Φ) →
  ends (try_catch (Legacy.newObjectId v ≫= k) r) c Φ.
Proof.
  intros Hthrow Hgo. unfold Legacy.newObjectId.
  destruct v as [x|]; [|apply Hgo; by left].
  destruct (parseObjectId x) as [oid|] eqn:Hx.
  - destruct x; try (apply Hgo; right; by eexists _, _); apply Hgo; by left.
  - destruct x; try exact Hthrow. apply Hgo; by left.
Qed.

Lemma legacy_postEnrollment_enrollments now freshId email body c :
  ends (Legacy.postEnrollment now freshId email body) c
    (λ _ s, enrollment_step (enrollments (data c)) (enrollments s)).
Proof.
  unfold Legacy.postEnrollment.
  destruct (negb _); [apply es_refl|].
  wp_read; [apply es_refl|].
  destruct (List.find _ _) eqn:Hdup; [apply es_refl|].
  wp_read; [apply es_refl|].
  destruct (Nat.leb_spec 3 (length
    (List.filter (λ e, String.eqb (userEmail e) email) (enrollments (data c)))))
    as [|Hcount]; [apply es_refl|].
  apply ends_newObjectId; [apply es_refl|]. intros t _.
  apply ends_await; [apply es_refl|]. intros course s0 b0 Hfind. cbn [data] in *.
  assert (s0 = data c) as ->.
  { destruct t; unfold Legacy.courses_findOne_at, courses_findOne, read in Hfind;
      by injection Hfind as <- <-. }
  destruct course as [course|]; [|apply es_refl].
  destruct (le0 _); [apply es_refl|].
  apply ends_await; [apply es_refl|]. intros ins s1 b1 Hins. cbn [data] in *.
  unfold enrollments_insertOne in Hins.
  destruct (existsb _ _) eqn:Hfresh; [done|]. injection Hins as <- <-.
  cbn [e_id] in *.
  assert (Hadded : enrollment_step (enrollments (data c))
            (enrollments (data c) ++
             [{| e_id := freshId; userEmail := email;
                 courseId := stored (body !! "courseId");
                 courseTitle := stored (body !! "courseTitle");
                 enrolledAt := now |}])).
  { apply es_added; simpl.
    - exact Hcount.
    - by apply find_none_not_in.
    - by apply existsb_id_not_in. }
  apply ends_await; [exact Hadded|]. intros res s2 b2 Hinc. cbn [data] in *.
  apply ends_ret. cbn [data].
  destruct t; unfold Legacy.courses_inc_at, courses_inc, read in Hinc;
    repeat case_match; simplify_eq; exact Hadded.
Qed.

Lemma legacy_deleteEnrollment_enrollments decoded email courseId c :
  ends (Legacy.deleteEnrollment decoded email courseId) c
    (λ _ s, enrollment_step (enrollments (data c)) (enrollments s)).
Proof.
  unfold Legacy.deleteEnrollment.
  destruct (negb _); [apply es_refl|].
  apply ends_await; [apply es_refl|]. intros del s1 b1 Hdel. cbn [data] in *.
  assert (Hs1 : sublist (enrollments s1) (enrollments (data c))).
  { unfold enrollments_deleteOne in Hdel.
    pose proof (remove_first_sublist (same_pair email (VStr courseId))
                  (enrollments (data c))) as Hsub.
    destruct (remove_first _ _). by injection Hdel as <- <-. }
  destruct (Nat.eqb del 0); [by apply ends_ret, es_removed|].
  apply ends_newObjectId; [by apply es_removed|]. intros t _.
  apply ends_await; [by apply es_removed|]. intros res s2 b2 Hinc. cbn [data] in *.
  apply ends_ret, es_removed. cbn [data].
  destruct t; unfold Legacy.courses_inc_at, courses_inc, read in Hinc;
    repeat case_match; simplify_eq; done.
Qed.

Lemma legacy_patchSeats_enrollments id body c :
  ends (Legacy.patchSeats id body) c
    (λ _ s, enrollment_step (enrollments (data c)) (enrollments s)).
Proof.
  unfold Legacy.patchSeats.
  destruct (negb _); [apply es_refl|].
  apply ends_newObjectId; [apply es_refl|]. intros t _.
  apply ends_await; [apply es_refl|]. intros res s2 b2 Hinc. cbn [data] in *.
  assert (enrollments s2 = enrollments (data c)) as Hs2.
  { destruct t; unfold Legacy.courses_inc_at, courses_inc, read in Hinc;
      repeat case_match; simplify_eq; done. }
  destruct (Nat.eqb _ 0); apply ends_ret; cbn [data]; rewrite Hs2; apply es_refl.
Qed.

Lemma legacy_serve_enrollments (a : legacy_arrival) (s : Store) :
  enrollment_step (enrollments s) (enrollments (legacy_serve a s).2).
Proof.
  unfold legacy_serve.
  set (c := {| budget := l_budget a; data := s |}).
  assert (Hh : ends (Legacy.handle (l_now a) (l_freshId a) (l_request a)) c
                 (λ _ s', enrollment_step (enrollments (data c)) (enrollments s'))).
  { destruct (l_request a) as [cred body|cred id body|cred email courseId];
      cbn [Legacy.handle]; unfold Legacy.authenticated;
      (destruct (Legacy.verifyJWT cred) as [rej|decoded]; [apply es_refl|]).
    - apply legacy_postEnrollment_enrollments.
    - apply legacy_patchSeats_enrollments.
    - apply legacy_deleteEnrollment_enrollments. }
  unfold ends in Hh. by destruct (Legacy.handle _ _ _ c).
Qed.

(** X19.  The legacy server keeps the two enrollment rules as well: through
    any sequence of enroll, unenroll and seat-adjust requests to [index.js],
    no user comes to hold more than three enrollments, and no two records
    come to carry the same [userEmail] and the same [courseId] value. *)
Theorem legacy_keeps_quota_and_uniqueness (l : list legacy_arrival) (s : Store) :
  within_quota (enrollments s) → no_double (enrollments s) →
  within_quota (enrollments (legacy_serve_all l s))
  ∧ no_double (enrollments (legacy_serve_all l s)).
Proof.
  revert s. unfold legacy_serve_all.
  induction l as [|a l IH]; intros s Hq Hnd; [done|]. simpl.
  pose proof (legacy_serve_enrollments a s) as Hstep.
  apply IH; [by eapply step_within_quota|by eapply step_no_double].
Qed.

(** X20.  On the legacy server, a seat adjustment by 0 on an existing
    course with an integer [seats] is answered 404 "Course not found or seat
    not updated", although the course exists; nothing changes. *)
Theorem legacy_zero_increment_is_404 (id : string) (oid : ObjId) (s : Store)
    (d : doc) (n : Z) :
  parseObjectId (VStr id) = Some oid →
  courses s !! oid = Some d → d !! "seats" = Some (VNum n) →
  Legacy.patchSeats id {["increment" := VNum 0]} (healthy s)
  = (Reply 404 "Course not found or seat not updated", healthy s).
Proof.
  intros Hoid Hd Hn. unfold Legacy.patchSeats.
  rewrite lookup_singleton_eq. cbn [is_number negb stored default Datatypes.id].
  change (serialised (VNum 0)) with (VNum 0).
  unfold try_catch, Legacy.newObjectId. rewrite Hoid.
  unfold mbind at 1. unfold M_bind at 1. cbn [mret M_ret].
  unfold Legacy.courses_inc_at, courses_inc. run_healthy. rewrite Hd.
  cbn [inc_all]. unfold inc. rewrite Hn. cbn [add_number].
  assert (overflows n 0 = false) as ->.
  { unfold overflows. rewrite Z.add_0_r. by destruct (int64 n). }
  cbn [fmap option_fmap option_map mbind option_bind mret option_ret].
  rewrite Z.add_0_r.
  rewrite (insert_id d) by done. rewrite decide_True by done.
  cbn [modifiedCount Nat.eqb]. unfold with_courses. rewrite insert_id by done.
  by destruct s.
Qed.

End LegacyFacts.

Section OwnData.
Context `{Platform}.
Import Protocol Outcomes.

Lemma remove_first_filter {A} (p q : A → bool) (l : list A) :
  (∀ x, p x = true → q x = false) →
  List.filter q (remove_first p l).2 = List.filter q l.
Proof.
  intros Hpq. induction l as [|x l IH]; simpl; [done|].
  destruct (p x) eqn:Hp; simpl.
  - by rewrite (Hpq x Hp).
  - destruct (remove_first p l) as [n r]. simpl in *. by rewrite IH.
Qed.

Lemma others_kept_refl caller s : others_kept caller s s.
Proof. by split_and!. Qed.

Lemma others_kept_courses caller s s1 f :
  others_kept caller s s1 → others_kept caller s (with_courses f s1).
Proof. done. Qed.

Lemma putUser_others now email body c :
  ends (Full.putUser now email email body) c (λ _ s, others_kept email (data c) s).
Proof.
  unfold Full.putUser.
  destruct (negb _); [apply others_kept_refl|].
  destruct (_ || _); [apply others_kept_refl|].
  apply ends_await; [apply others_kept_refl|]. intros res s1 b1 Hup. cbn [data] in *.
  assert (Hkept : others_kept email (data c) s1).
  { unfold users_upsert in Hup.
    destruct (users (data c) !! email); injection Hup as <- <-;
      (split_and!; [|done|done]); intros e He; store_proj;
      by rewrite lookup_insert_ne. }
  repeat first [ apply ends_ret; exact Hkept
               | match goal with
                 | |- ends (try_catch (if ?x then _ else _) _) _ _ => destruct x
                 end ].
Qed.

Lemma postEnrollment_others now freshId email body c :
  ends (Full.postEnrollment now freshId email body) c
    (λ _ s, others_kept email (data c) s).
Proof.
  unfold Full.postEnrollment.
  destruct (_ || _); [apply others_kept_refl|].
  destruct (negb _); [apply others_kept_refl|].
  destruct (_ ≫= parseObjectId) as [oid|]; [|apply others_kept_refl].
  wp_read; [apply others_kept_refl|].
  destruct (List.find _ _); [apply others_kept_refl|].
  wp_read; [apply others_kept_refl|].
  destruct (Nat.leb 3 _); [apply others_kept_refl|].
  wp_read; [apply others_kept_refl|].
  destruct (courses (data c) !! oid) as [course|]; [|apply others_kept_refl].
  destruct (_ && _); [apply others_kept_refl|].
  destruct (le0 _); [apply others_kept_refl|].
  unfold Full.reserve.
  apply ends_await; [apply others_kept_refl|]. intros ins s1 b1 Hins. cbn [data] in *.
  unfold enrollments_insertOne in Hins.
  destruct (existsb _ _) eqn:Hfresh; [done|]. injection Hins as <- <-.
  cbn [e_id] in *.
  set (e := {| e_id := freshId; userEmail := email;
               courseId := stored (body !! "courseId");
               courseTitle := stored (body !! "courseTitle");
               enrolledAt := now |}) in *.
  assert (Hadded : others_kept email (data c)
                     (with_enrollments (λ l, (l ++ [e])%list) (data c))).
  { split_and!; [done| |done]. unfold others_enrollments. store_proj.
    rewrite List.filter_app. simpl. rewrite String.eqb_refl. simpl.
    by rewrite app_nil_r. }
  apply ends_await; [exact Hadded|]. intros res s2 b2 Hinc. cbn [data] in *.
  assert (Hs2 : users s2 = users (data c) ∧ reviews s2 = reviews (data c)
                ∧ enrollments s2 = (enrollments (data c) ++ [e])%list).
  { unfold courses_inc in Hinc. repeat case_match; simplify_eq; done. }
  destruct Hs2 as (Hu & Hr & He).
  assert (Hkept2 : others_kept email (data c) s2).
  { destruct Hadded as (? & ? & ?). unfold others_kept. by rewrite Hu, Hr, He. }
  destruct (Nat.eqb _ 0).
  - apply ends_await; [exact Hkept2|]. intros del s3 b3 Hdel. cbn [data] in *.
    unfold enrollments_deleteById in Hdel. rewrite He in Hdel.
    rewrite (remove_first_appended _ _ freshId) in Hdel by done.
    injection Hdel as <- <-. apply ends_ret. cbn [data].
    unfold others_kept. store_proj. by rewrite Hu, Hr.
  - by apply ends_ret.
Qed.

Lemma deleteEnrollment_others email courseId c :
  ends (Full.deleteEnrollment email email courseId) c
    (λ _ s, others_kept email (data c) s).
Proof.
  unfold Full.deleteEnrollment.
  destruct (negb _); [apply others_kept_refl|].
  destruct (parseObjectId _) as [oid|]; [|apply others_kept_refl].
  apply ends_await; [apply others_kept_refl|]. intros del s1 b1 Hdel. cbn [data] in *.
  assert (Hs1 : others_kept email (data c) s1).
  { unfold enrollments_deleteOne in Hdel.
    pose proof (remove_first_filter (same_pair email (VStr courseId))
      (λ e, negb (String.eqb (userEmail e) email)) (enrollments (data c))) as Hrm.
    destruct (remove_first _ _) as [n l] eqn:Hl. injection Hdel as <- <-.
    split_and!; [done| |done]. unfold others_enrollments. store_proj.
    apply Hrm. intros x [Hx _]%andb_true_iff. by rewrite Hx. }
  destruct (Nat.eqb del 0); [by apply ends_ret|].
  apply ends_await; [done|]. intros res s2 b2 Hinc. cbn [data] in *.
  apply ends_ret. cbn [data].
  assert (users s2 = users s1 ∧ reviews s2 = reviews s1
          ∧ enrollments s2 = enrollments s1) as (Hu & Hr & He).
  { unfold courses_inc in Hinc. repeat case_match; simplify_eq; done. }
  unfold others_kept. by rewrite Hu, Hr, He.
Qed.

Lemma postReview_others now freshId email id body c :
  ends (Full.postReview now freshId email id body) c
    (λ _ s, others_kept email (data c) s).
Proof.
  unfold Full.postReview.
  destruct (parseObjectId _) as [oid|]; [|apply others_kept_refl].
  destruct (nullish _ || _ || _ || _); [apply others_kept_refl|].
  destruct (body !! "comment") as [[| | | |comment| |]|]; try apply others_kept_refl.
  destruct (negb _ || _); [apply others_kept_refl|].
  wp_read; [apply others_kept_refl|].
  destruct (List.find _ _); [|apply others_kept_refl].
  wp_read; [apply others_kept_refl|].
  destruct (List.find _ (reviews _)); [apply others_kept_refl|].
  wp_read; [apply others_kept_refl|].
  apply ends_await; [apply others_kept_refl|]. intros ins s1 b1 Hins. cbn [data] in *.
  unfold reviews_insertOne in Hins.
  destruct (existsb _ _); [done|]. injection Hins as <- <-.
  apply ends_ret. cbn [data]. split_and!; [done|done|].
  unfold others_reviews. store_proj.
  rewrite List.filter_app. simpl. rewrite String.eqb_refl. simpl.
  by rewrite app_nil_r.
Qed.

(** X24.  A request to a route without a role gate (profile update,
    enroll, unenroll, review) touches only the caller's own data: the user
    record, the enrollments and the reviews of every other user are as they
    were, whatever the parameters, the body and the storage weather. *)
Theorem own_data_only (now : Z) (freshId : ObjId) (r : Full.request) (c : Conn)
    (caller : string) :
  cred_of r = Token caller →
  allowed_roles r = None →
  others_kept caller (data c) (data (Full.handle now freshId r c).2).
Proof.
  intros Hcred Hroles.
  change (ends (Full.handle now freshId r) c (λ _ s, others_kept caller (data c) s)).
  destruct r; simpl in Hcred, Hroles; try done; subst cred; cbn [Full.handle].
  - apply ends_authenticated; [done..|]. intros decoded [= <-].
    destruct (decide (caller = email)) as [<-|Hne]; [apply putUser_others|].
    unfold Full.putUser. rewrite (proj2 (String.eqb_neq _ _) Hne).
    apply others_kept_refl.
  - apply ends_with_role; [done..|apply others_kept_refl|]. intros decoded b' [= <-] _.
    apply (postEnrollment_others _ _ _ _ {| budget := b'; data := data c |}).
  - apply ends_authenticated; [done..|]. intros decoded [= <-].
    destruct (decide (caller = email)) as [<-|Hne]; [apply deleteEnrollment_others|].
    unfold Full.deleteEnrollment. rewrite (proj2 (String.eqb_neq _ _) Hne).
    apply others_kept_refl.
  - apply ends_authenticated; [done..|]. intros decoded [= <-].
    apply postReview_others.
Qed.

(** X25.  The compensation of [POST /enrollments] covers a lost seat claim,
    not a failing storage: when the storage answers the four calls up to
    the insert and fails at the seat claim, the answer is 500 "Enrollment
    failed", the enrollment record stays in the store, and no seat is
    taken. *)
Theorem enroll_failure_after_insert_leaves_record (now : Z) (freshId : ObjId)
    (email : string) (body : doc) (s : Store) :
  checked_order email body s = Proceed →
  existsb (λ e', bool_decide (e_id e' = freshId)) (enrollments s) = false →
  Full.postEnrollment now freshId email body {| budget := Some 4%nat; data := s |}
  = (Reply 500 "Enrollment failed",
     {| budget := Some 0%nat;
        data := with_enrollments
                  (λ l, (l ++ [record_of now freshId email body])%list) s |}).
Proof.
  intros Hok Hfresh. revert Hok.
  unfold checked_order, store_checks, Full.postEnrollment.
  fold (missing_field body).
  destruct (missing_field body); [done|].
  destruct (negb (is_str (body !! "userEmail") email)); [done|].
  destruct (body !! "courseId" ≫= parseObjectId) as [oid|]; [|done].
  unfold has_enrollment, enrollment_count, not_approved, try_catch.
  unfold enrollments_findOne, enrollments_count, courses_findOne.
  rewrite bind_await_counted. cbn [read].
  destruct (List.find _ _) as [e|].
  { by rewrite bool_decide_eq_true_2 by eauto. }
  rewrite bool_decide_eq_false_2 by (intros [? ?]; done).
  rewrite bind_await_counted. cbn [read].
  destruct (Nat.leb 3 _); [done|].
  rewrite bind_await_counted. cbn [read].
  destruct (courses s !! oid) as [course|]; [|done].
  destruct (bool_decide (course !! "status" ≠ None)
            && negb (is_str (course !! "status") "approved")); [done|].
  destruct (le0 (course !! "seats")); [done|]. intros _.
  unfold Full.reserve. rewrite bind_await_counted.
  unfold enrollments_insertOne. cbn [e_id]. rewrite Hfresh.
  reflexivity.
Qed.

End OwnData.

Section Authorship.
Context `{Platform}.
Import Protocol Outcomes.

(** X26.  [POST /courses/:id/reviews] stores a review only for a caller who
    is enrolled in the course and has not reviewed it: answered 201, it has
    appended one review, filed under the caller's email and the course, with
    a rating from 1 to 5 and a comment that is not empty, and has written
    nothing else; answered otherwise, it has written nothing. *)
Theorem review_needs_enrollment (now : Z) (freshId : ObjId) (email id : string)
    (body : doc) (c : Conn) :
  let out := Full.postReview now freshId email id body c in
  (code out.1 ≠ 201 → data out.2 = data c)
  ∧ (code out.1 = 201 →
     ∃ oid rv,
       parseObjectId (VStr id) = Some oid
       ∧ data out.2 = with_reviews (λ l, (l ++ [rv])%list) (data c)
       ∧ r_userEmail rv = email ∧ courseObjectId rv = oid
       ∧ rating_ok (rating rv) ∧ String.length (comment rv) ≠ 0%nat
       ∧ (email, VStr id) ∈ pair_of <$> enrollments (data c)
       ∧ (email, oid) ∉ review_key <$> reviews (data c)).
Proof.
  intros out. subst out.
  set (Φ := λ (r : response) (s : Store),
    (code r ≠ 201 → s = data c)
    ∧ (code r = 201 →
       ∃ oid rv,
         parseObjectId (VStr id) = Some oid
         ∧ s = with_reviews (λ l, (l ++ [rv])%list) (data c)
         ∧ r_userEmail rv = email ∧ courseObjectId rv = oid
         ∧ rating_ok (rating rv) ∧ String.length (comment rv) ≠ 0%nat
         ∧ (email, VStr id) ∈ pair_of <$> enrollments (data c)
         ∧ (email, oid) ∉ review_key <$> reviews (data c))).
  change (ends (Full.postReview now freshId email id body) c Φ).
  assert (Hquiet : ∀ r, code r ≠ 201 → Φ r (data c)).
  { intros r Hr. split; [done|]. intros Hr'. by destruct Hr. }
  unfold Full.postReview.
  destruct (parseObjectId _) as [oid|] eqn:Hoid; [|by apply Hquiet].
  destruct (nullish _ || _ || _ || _) eqn:Hrating; [by apply Hquiet|].
  destruct (body !! "comment") as [[| | | |text| |]|]; try by apply Hquiet.
  destruct (negb _ || _) eqn:Htext; [by apply Hquiet|].
  wp_read; [by apply Hquiet|].
  destruct (List.find _ _) eqn:Henrolled; [|by apply Hquiet].
  wp_read; [by apply Hquiet|].
  destruct (List.find _ (reviews _)) eqn:Hreviewed; [by apply Hquiet|].
  wp_read; [by apply Hquiet|].
  apply ends_await; [by apply Hquiet|]. intros ins s1 b1 Hins. cbn [data] in *.
  unfold reviews_insertOne in Hins.
  destruct (existsb _ _); [done|]. injection Hins as <- <-.
  apply ends_ret. cbn [data]. split; [done|]. intros _.
  eexists oid, _. split_and!; [done|reflexivity|done|done| | | |].
  - by apply checked_rating_ok.
  - cbn [comment]. apply orb_false_iff in Htext as [_ Hlen].
    by apply Nat.eqb_neq in Hlen.
  - by eapply find_some_pair.
  - by apply find_review_none.
Qed.

(** X27.  A course created by an instructor is the instructor's own: when
    the caller's stored role is instructor and [POST /courses] answers 201,
    the new document carries the caller's email as [instructorEmail],
    whatever the body names, and every course that was there is as it was;
    answered otherwise, the request has written nothing. *)
Theorem instructor_owns_created_course (now : Z) (freshId : ObjId)
    (caller : string) (body : doc) (c : Conn) :
  Full.role_of (users (data c) !! caller) = VStr "instructor" →
  let out := Full.handle now freshId (Full.PostCourse (Token caller) body) c in
  (code out.1 ≠ 201 → data out.2 = data c)
  ∧ (code out.1 = 201 →
     ∃ d, data out.2 = with_courses <[freshId := d]> (data c)
          ∧ courses (data c) !! freshId = None
          ∧ d !! "instructorEmail" = Some (VStr caller)).
Proof.
  intros Hrole out. subst out.
  set (Φ := λ (r : response) (s : Store),
    (code r ≠ 201 → s = data c)
    ∧ (code r = 201 →
       ∃ d, s = with_courses <[freshId := d]> (data c)
            ∧ courses (data c) !! freshId = None
            ∧ d !! "instructorEmail" = Some (VStr caller))).
  change (ends (Full.handle now freshId (Full.PostCourse (Token caller) body)) c Φ).
  assert (Hquiet : ∀ r, code r ≠ 201 → Φ r (data c)).
  { intros r Hr. split; [done|]. intros Hr'. by destruct Hr. }
  cbn [Full.handle].
  apply ends_with_role; try (intros; by apply Hquiet).
  intros email b' [= <-] _. rewrite Hrole.
  cbn [Full.verifyInstructor Full.gate is_str String.eqb Ascii.eqb Bool.eqb negb andb].
  unfold Full.postCourse.
  destruct (_ || _); [by apply Hquiet|].
  destruct (_ ≫= parseInt10) as [n|]; [|by apply Hquiet].
  destruct (_ ≫= parseFloat) as [p|]; [|by apply Hquiet].
  destruct (dlt p _ || _); [by apply Hquiet|].
  cbn [is_str String.eqb Ascii.eqb Bool.eqb andb].
  apply ends_await; [by apply Hquiet|]. intros ins s1 b1 Hins. cbn [data] in *.
  unfold courses_insertOne in Hins.
  destruct (courses (data c) !! freshId) eqn:Hfresh; [done|]. injection Hins as <- <-.
  apply ends_ret. cbn [data]. split; [done|]. intros _.
  eexists. split_and!; [reflexivity|done|]. by simplify_map_eq.
Qed.

End Authorship.

(** * Worked examples, on the example platform *)

Section Examples.
Import Protocol Effects Example.

(** Bob enrolls in [c2], whose document has no [seats]: the pre-check
    [seats <= 0] is false on [undefined], the conditional claim matches
    nothing, and the record is taken back.  In [c1] the claim succeeds. *)
Lemma enroll_claim_or_compensate_witness :
  Full.postEnrollment 20 e2 "bob@x.io" (enroll_body "bob@x.io" c2) (healthy store1)
    = (Reply 409 "Seat conflict", healthy store1)
  ∧ Full.postEnrollment 20 e2 "bob@x.io" (enroll_body "bob@x.io" c1) (healthy store1)
    = (ReplyId 201 "Enrolled" e2,
       healthy (with_courses <[c1 := course "teach@x.io" "approved" 2 3]>
                  (with_enrollments (λ l, (l ++ [bob_record c1])%list) store1))).
Proof.
  split.
  - refine (proj1 (proj1 (enroll_claim_or_compensate (H:=node) 20 e2 "bob@x.io"
      (enroll_body "bob@x.io" c2) store1
      (with_enrollments (λ l, (l ++ [bob_record c2])%list) store1)
      (with_enrollments (λ l, (l ++ [bob_record c2])%list) store1)
      c2 {| matchedCount := 0; modifiedCount := 0 |} _ _ _ _) _));
      reflexivity.
  - refine (proj1 (proj2 (enroll_claim_or_compensate (H:=node) 20 e2 "bob@x.io"
      (enroll_body "bob@x.io" c1) store1
      (with_enrollments (λ l, (l ++ [bob_record c1])%list) store1)
      (with_courses <[c1 := course "teach@x.io" "approved" 2 3]>
         (with_enrollments (λ l, (l ++ [bob_record c1])%list) store1))
      c1 {| matchedCount := 1; modifiedCount := 1 |} _ _ _ _)) _);
      reflexivity.
Defined.

(** Bob's request passed the pre-check when [c1] still had seats; by the
    time of his reservation a rival has taken the last one.  The conditional
    claim matches nothing, his record is taken back, and the store is the
    one his reservation found. *)
Example lost_race_is_compensated :
  try_catch (Full.reserve (bob_record c1) c1) (Reply 500 "Enrollment failed")
    (healthy store1_sold_out)
  = (Reply 409 "Seat conflict", healthy store1_sold_out).
Proof.
  refine (proj1 (proj1 (reserve_outcome (H:=node) (bob_record c1) c1 store1_sold_out
    (with_enrollments (λ l, (l ++ [bob_record c1])%list) store1_sold_out)
    (with_enrollments (λ l, (l ++ [bob_record c1])%list) store1_sold_out)
    {| matchedCount := 0; modifiedCount := 0 |} _ _) _)); reflexivity.
Qed.

(** C2 as stated fails.  With all three fields present, a malformed
    [courseId] and another user's email, the stated order answers
    InvalidInput but the handler answers 403 "Email mismatch"; and against
    [c2], whose [seats] is missing, the stated capacity check [seats > 0]
    answers NoSeatsAvailable but the handler goes on to the reservation and
    answers 409 "Seat conflict". *)
Lemma enroll_claimed_order_fails :
  ¬ follows claimed_order 20 e2 "bob@x.io" (enroll_body "ann@x.io" "nope") store1
  ∧ ¬ follows claimed_order 20 e2 "bob@x.io" (enroll_body "bob@x.io" c2) store1.
Proof.
  split; unfold follows.
  - change (claimed_order "bob@x.io" (enroll_body "ann@x.io" "nope") store1)
      with (Reject InvalidInput).
    intros [Hkind _].
    exact (eq_ind (Some Forbidden)
             (λ k, match k with Some Forbidden => True | _ => False end)
             I _ Hkind).
  - change (claimed_order "bob@x.io" (enroll_body "bob@x.io" c2) store1)
      with (Reject NoSeatsAvailable).
    intros [Hkind _].
    exact (eq_ind (Some SeatConflict)
             (λ k, match k with Some SeatConflict => True | _ => False end)
             I _ Hkind).
Qed.


(** C8 as stated fails: with a malformed [courseId] no enrollment matches,
    yet the answer is 400 "Invalid ID", not the 404 of a missing
    enrollment. *)
Lemma unenroll_malformed_id_is_not_404 :
  ¬ (∀ (email courseId : string) (s : Store),
       List.find (same_pair email (VStr courseId)) (enrollments s) = None →
       (Full.handle 30 e2 (Full.DeleteEnrollment (Token email) email courseId)
          (healthy s)).1 = Reply 404 "Not enrolled").
Proof.
  intros Hclaim.
  specialize (Hclaim "ann@x.io" "nope" store1 ltac:(reflexivity)).
  exact (eq_ind (Reply 400 "Invalid ID")
           (λ r, match r with Reply 400 _ => True | _ => False end)
           I _ Hclaim).
Qed.

(** An instructor who does not own [c3] cannot delete it; the admin deletes
    [c1], and Ann's enrollment and review go with it. *)
Lemma delete_course_ownership_witness :
  Full.handle 30 e2 (Full.DeleteCourse (Token "teach@x.io") c3) (healthy store1)
    = (Reply 403 "Forbidden: Not your course", healthy store1)
  ∧ Full.handle 30 e2 (Full.DeleteCourse (Token "root@x.io") c1) (healthy store1)
    = (Reply 200 "Course and related data deleted",
       healthy {| courses := delete c1 (courses store1); users := users store1;
                  enrollments := []; reviews := [] |}).
Proof.
  split.
  - refine (proj1 (delete_course_ownership (H:=node) 30 e2 "teach@x.io" c3 store1 c3
      (<["instructorEmail" := VStr "old@x.io"]> (<["seats" := VNum 5]> ∅))
      _ _ _) _ _); first [discriminate | reflexivity].
  - refine (proj1 (proj2 (delete_course_ownership (H:=node) 30 e2 "root@x.io" c1 store1 c1
      (course "teach@x.io" "approved" 3 2) _ _ _) _));
      first [discriminate | reflexivity].
Defined.

(** Bob enrolls in [c3], which has no [status]: he is enrolled, [seats]
    goes from 5 to 4 and the counter is created at 1.  In [c4], still
    pending, he is refused. *)
Lemma enroll_status_check_witness :
  Full.postEnrollment 20 e2 "bob@x.io" (enroll_body "bob@x.io" c3) (healthy store1)
    = (ReplyId 201 "Enrolled" e2,
       healthy (with_courses
         <[c3 := <["enrollmentCount" := VNum 1]>
                  (<["seats" := VNum 4]>
                  (<["instructorEmail" := VStr "old@x.io"]>
                  (<["seats" := VNum 5]> ∅)))]>
         (with_enrollments (λ l, (l ++ [bob_record c3])%list) store1)))
  ∧ Full.postEnrollment 20 e2 "bob@x.io" (enroll_body "bob@x.io" c4) (healthy store1)
    = (Reply 400 "Course not approved", healthy store1).
Proof.
  split.
  - refine (proj1 (proj1 (enroll_status_check (H:=node) 20 e2 "bob@x.io"
      (enroll_body "bob@x.io" c3)
      store1 c3 (<["instructorEmail" := VStr "old@x.io"]> (<["seats" := VNum 5]> ∅))
      _) _ _) 5 0 _ _ _ _ _);
      first [ lia | reflexivity
            | repeat split; first [reflexivity | apply Nat.ltb_lt; reflexivity] ].
  - refine (proj2 (enroll_status_check (H:=node) 20 e2 "bob@x.io" (enroll_body "bob@x.io" c4)
      store1 c4 (course "teach@x.io" "pending" 4 0) _) (VStr "pending") _ _);
      first [ discriminate | reflexivity
            | repeat split; first [reflexivity | apply Nat.ltb_lt; reflexivity] ].
Defined.

(** The specification's scenario: [seats = 3], [enrollmentCount = 2]; Ann
    unenrolls; [seats = 4], [enrollmentCount = 1]. *)
Lemma unenroll_releases_seat_witness :
  Full.handle 30 e2 (Full.DeleteEnrollment (Token "ann@x.io") "ann@x.io" c1)
    (healthy store1)
  = (Reply 200 "Unenrolled",
     healthy (with_courses <[c1 := course "teach@x.io" "approved" 4 1]>
                (with_enrollments (λ _, []) store1))).
Proof.
  refine (eq_trans (proj1 (proj2 (proj2 (unenroll_releases_seat (H:=node) 30 e2
      "ann@x.io" c1 store1 c1 _)
      _)) (course "teach@x.io" "approved" 3 2) 3 2 _ _ _ _ _) _);
    first [ reflexivity | eexists; reflexivity ].
Defined.

(** The instructor's stored role is taken, by [getUserRole] and on the
    best-effort path; Bob, who has no record, is a student. *)
Lemma role_resolution_witness :
  (Full.getUserRole "teach@x.io" (healthy store1)).1 = inr (VStr "instructor")
  ∧ (Full.getRoleIfAuthenticated (Token "teach@x.io") (healthy store1)).1
    = VStr "instructor"
  ∧ (Full.getUserRole "bob@x.io" (healthy store1)).1 = inr (VStr "student").
Proof.
  split_and!.
  - exact (eq_trans (f_equal fst (proj1 (proj1
      (role_resolution (H:=node) "teach@x.io" (healthy store1)
         ltac:(discriminate)) ltac:(discriminate)))) eq_refl).
  - exact (eq_trans (f_equal fst (proj2 (proj1
      (role_resolution (H:=node) "teach@x.io" (healthy store1)
         ltac:(discriminate)) ltac:(discriminate)))) eq_refl).
  - exact (eq_trans (f_equal fst (proj1 (proj1
      (role_resolution (H:=node) "bob@x.io" (healthy store1)
         ltac:(discriminate)) ltac:(discriminate)))) eq_refl).
Defined.

(** C9 as stated fails: the role is not always the stored one.  Zed's
    record holds the empty string as its role; the role of the request is
    ['student']. *)
Lemma blank_role_resolves_to_student :
  ¬ (∀ (email : string) (s : Store) (u : doc) (r : value),
       email ≠ "" → users s !! email = Some u → u !! "role" = Some r →
       (Full.getUserRole email (healthy s)).1 = inr r).
Proof.
  intros Hclaim.
  specialize (Hclaim "zed@x.io" Scenarios.store1_blank {["role" := VStr ""]} (VStr "")
                ltac:(discriminate) ltac:(reflexivity) ltac:(reflexivity)).
  exact (eq_ind (inr (VStr "student"))
           (λ x : response + value,
              match x with inr (VStr "student") => True | _ => False end)
           I _ Hclaim).
Qed.


(** C3 on the legacy server.  [POST /enrollments] of [index.js] takes a
    seat without counting the enrollment: on [c5], which starts with
    [seats = 2] and [enrollmentCount = 0], the answer is 201, [seats] goes to
    1 and [enrollmentCount] stays 0, so the sum drops from 2 to 1. *)
Lemma legacy_enroll_loses_the_sum :
  let out := Legacy.handle 20 e2
               (Legacy.PostEnrollment (Token "bob@x.io") (enroll_body "bob@x.io" c5))
               (healthy store1) in
  out.1 = ReplyId 201 "Enrolled successfully" e2
  ∧ (courses store1 !! c5 ≫= seats_of, courses store1 !! c5 ≫= count_of)
    = (Some 2, Some 0)
  ∧ (courses (data out.2) !! c5 ≫= seats_of, courses (data out.2) !! c5 ≫= count_of)
    = (Some 1, Some 0).
Proof. intros out. split_and!; reflexivity. Qed.

(** C4 on the legacy server.  [PATCH /courses/:id/seats] of [index.js] adds
    whatever number the body carries: with [increment = -5] on [c1] the
    answer is 200 and [seats] goes from 3 to -2. *)
Lemma legacy_patch_seats_goes_negative :
  let out := Legacy.handle 20 e2
               (Legacy.PatchSeats (Token "bob@x.io") c1 {["increment" := VNum (-5)]})
               (healthy store1) in
  out.1 = Reply 200 "Seat count updated successfully"
  ∧ courses store1 !! c1 ≫= seats_of = Some 3
  ∧ courses (data out.2) !! c1 ≫= seats_of = Some (-2).
Proof. intros out. split_and!; reflexivity. Qed.

End Examples.

(** ** Scenarios for the properties of the routes *)

Section MoreExamples.
Import Protocol Effects Example Outcomes Queries Scenarios.

(** C6 on the full server.  [DELETE /courses/:id] deletes the enrollments
    whose stored [courseId] is the string of the request, not the
    enrollments of the course.  Bob enrolls in [c1] with its identifier
    written in upper case: the identifier is accepted, the course is found,
    a seat of [c1] is taken and the record keeps the string as it was sent.
    The admin then deletes [c1] by its lower-case identifier and is
    answered 200 "Course and related data deleted": the course is gone,
    Ann's enrollment is gone, Bob's enrollment is still there. *)
Lemma delete_course_leaves_enrollment :
  let enrolled := Full.serve (enrolls 21 f1 "bob@x.io" c1_upper) store1 in
  let deleted := Full.serve admin_deletes_c1 enrolled.2 in
  parseObjectId (VStr c1_upper) = Some c1
  ∧ enrolled.1 = ReplyId 201 "Enrolled" f1
  ∧ courses enrolled.2 !! c1 ≫= seats_of = Some 2
  ∧ enrollments enrolled.2 = [ann_in_c1; bob_in_c1_upper]
  ∧ deleted.1 = Reply 200 "Course and related data deleted"
  ∧ courses deleted.2 !! c1 = None
  ∧ enrollments deleted.2 = [bob_in_c1_upper].
Proof. intros enrolled deleted. split_and!; reflexivity. Qed.

(** C10 on the full server.  [PUT /course/:id] deletes the protected keys
    from the body by their top-level names only.  The owner of [c3], a
    record without [status] and [enrollmentCount], sends
    [{ "status.x": 1, "enrollmentCount.x": 1 }]: no key is deleted, the
    update is answered 200, and the record now has a [status] and an
    [enrollmentCount], each an embedded document.  Bob, who could enroll in
    [c3] before the update, is answered 400 "Course not approved" after
    it. *)
Lemma update_reaches_protected_fields :
  let updated := Full.serve owner_reaches_in store1_old in
  let protected (s : Store) :=
    (courses s !! c3 ≫= (.!! "status"), courses s !! c3 ≫= (.!! "enrollmentCount")) in
  protected store1_old = (None, None)
  ∧ updated.1 = Reply 200 "Course updated successfully"
  ∧ protected updated.2 = (Some (VObj "x: 1"), Some (VObj "x: 1"))
  ∧ (Full.serve (enrolls 22 f2 "bob@x.io" c3) store1_old).1 = ReplyId 201 "Enrolled" f2
  ∧ (Full.serve (enrolls 22 f2 "bob@x.io" c3) updated.2).1
    = Reply 400 "Course not approved".
Proof. intros updated protected. split_and!; reflexivity. Qed.

(** C7 as stated fails: a course without [status] and with [seats] above 0
    does not always take the enrollment.  After the owner of [c3] has sent
    [{ "enrollmentCount.x": 1 }], the record holds an embedded document as
    its counter; Bob's request passes every check, his record is inserted,
    the [$inc] cannot be applied, and the answer is 500. *)
Lemma enroll_without_status_can_fail :
  ¬ (∀ (now : Z) (freshId : ObjId) (email : string) (body : doc) (s : Store)
       (oid : ObjId) (course : doc),
       reaches_course email body s oid course →
       course !! "status" = None → Full.has_seat course = true →
       existsb (λ e', bool_decide (e_id e' = freshId)) (enrollments s) = false →
       code (Full.postEnrollment now freshId email body (healthy s)).1 = 201).
Proof.
  intros Hclaim.
  specialize (Hclaim 22 f2 "bob@x.io" (enroll_body "bob@x.io" c3)
                (Full.serve owner_reaches_counter store1_old).2 c3
                (<["enrollmentCount" := VObj "x: 1"]>
                 (<["updatedAt" := VDate 21]>
                 (<["instructorEmail" := VStr "old@x.io"]>
                 (<["seats" := VNum 5]> ∅))))).
  assert (H500 : code (Full.postEnrollment 22 f2 "bob@x.io" (enroll_body "bob@x.io" c3)
                         (healthy (Full.serve owner_reaches_counter store1_old).2)).1
                 = 201).
  { apply Hclaim; first [ reflexivity
      | repeat split; first [reflexivity | apply Nat.ltb_lt; reflexivity] ]. }
  exact (eq_ind 500 (λ z, match z with 500 => True | _ => False end) I _ H500).
Qed.

(** The owner of [c1] sends a body that names every protected key; the
    update is answered 200 and the protected fields are as they were. *)
Lemma update_keeps_protected_fields_witness :
  let body : doc :=
    <["seats" := VNum 7]>
    (<["status" := VStr "rejected"]>
    (<["enrollmentCount" := VNum 0]>
    (<["instructorEmail" := VStr "bob@x.io"]> ∅))) in
  let out := Full.handle 30 e2 (Full.PutCourse (Token "teach@x.io") c1 body)
               (healthy store1) in
  out.1 = Reply 200 "Course updated successfully"
  ∧ ∃ d', courses (data out.2) !! c1 = Some d'
          ∧ d' !! "status" = Some (VStr "approved")
          ∧ d' !! "enrollmentCount" = Some (VNum 2)
          ∧ d' !! "instructorEmail" = Some (VStr "teach@x.io").
Proof.
  intros body out. split; [reflexivity|].
  destruct (proj1 (update_keeps_protected_fields (H:=node) 30 e2 (Token "teach@x.io") c1 body
              (healthy store1))
              c1 (course "teach@x.io" "approved" 3 2) ltac:(reflexivity))
    as (d' & Hd' & Hkeep).
  exists d'. split; [exact Hd'|].
  split_and!.
  - apply (proj2 (proj2 (Hkeep "status" ltac:(set_unfold; tauto)))); [reflexivity|].
    intros content; discriminate.
  - apply (proj2 (proj2 (Hkeep "enrollmentCount" ltac:(set_unfold; tauto))));
      [reflexivity|]. intros content; discriminate.
  - apply (proj2 (proj2 (Hkeep "instructorEmail" ltac:(set_unfold; tauto))));
      [reflexivity|]. intros content; discriminate.
Defined.

(** Numbers beyond the integers of everyday use.  A course posted with a
    [seats] string of 310 digits is stored with an infinite [seats]: a
    number, not negative, and not an integer.  A course whose [seats] is
    set to 9007199254740994 holds it as a Double, and the seat claim of the
    next enrollment rounds: [seats] becomes 9007199254740992. *)
Example seats_beyond_the_integers :
  let posted := Full.serve (arrives 21 f1 (Full.PostCourse (Token "teach@x.io")
                   (<["seats" := VStr (nines 310)]> course_body))) store1 in
  let updated := Full.serve (arrives 21 f1 (Full.PutCourse (Token "teach@x.io") c1
                   {["seats" := VDbl (of_Z 9007199254740994)]})) store1 in
  let enrolled := Full.serve (enrolls 22 f2 "bob@x.io" c1) updated.2 in
  posted.1 = ReplyId 201 "Course added, pending approval." f1
  ∧ courses posted.2 !! f1 ≫= (.!! "seats") = Some (VDbl (Inf false))
  ∧ courses updated.2 !! c1 ≫= (.!! "seats") = Some (VDbl (of_Z 9007199254740994))
  ∧ enrolled.1 = ReplyId 201 "Enrolled" f2
  ∧ courses enrolled.2 !! c1 ≫= (.!! "seats") = Some (VDbl (of_Z 9007199254740992)).
Proof. intros posted updated enrolled. split_and!; reflexivity. Qed.

(** Every course of [store1] has a well-formed [seats]. *)
Lemma store1_seats_ok (oid : string) (d : doc) :
  courses store1 !! oid = Some d → seats_ok d.
Proof.
  unfold store1. cbn [courses]. intros Hd.
  repeat (apply lookup_insert_Some in Hd as [[_ <-]|[_ Hd]]; [by vm_compute|]).
  by rewrite lookup_empty in Hd.
Qed.

(** Three users go for the two seats of [c5]: the third is turned away and
    [seats] stops at 0. *)
Lemma full_seats_never_negative_witness :
  courses (Full.serve_all rush store1) !! c5 = Some (course "teach@x.io" "approved" 0 2)
  ∧ seats_ok (course "teach@x.io" "approved" 0 2).
Proof.
  assert (Hafter : courses (Full.serve_all rush store1) !! c5
                   = Some (course "teach@x.io" "approved" 0 2)) by reflexivity.
  split; [exact Hafter|].
  exact (full_seats_never_negative (H:=node) rush store1 store1_seats_ok c5 _ Hafter).
Defined.

(** Bob enrolls in [c1] and Ann leaves it: [seats + enrollmentCount] is
    still 3 + 2. *)
Lemma full_conservation_witness :
  ∃ d' n' c', courses (Full.serve_all shuffle store1) !! c1 = Some d'
              ∧ seats_of d' = Some n' ∧ count_of d' = Some c'
              ∧ (n' + c' = 3 + 2)%Z.
Proof.
  apply (full_conservation (H:=node) shuffle store1 c1
           (course "teach@x.io" "approved" 3 2) 3 2);
    [repeat constructor|reflexivity..].
Defined.

(** Bob takes three courses; once [c4] is approved he asks for a fourth
    and is turned away: he still holds three. *)
Lemma full_quota_never_exceeded_witness :
  count_for "bob@x.io" (enrollments (Full.serve_all spree store1)) = 3%nat
  ∧ (count_for "bob@x.io" (enrollments (Full.serve_all spree store1)) ≤ 3)%nat.
Proof.
  split; [reflexivity|].
  apply (full_quota_never_exceeded (H:=node) spree store1).
  intros email. unfold count_for, store1. cbn [enrollments List.filter].
  destruct (String.eqb _ email); simpl; lia.
Defined.

(** Bob asks for [c1] twice: the second request is turned away and the
    pairs of user and course stay distinct. *)
Lemma full_never_enrolled_twice_witness :
  pair_of <$> enrollments (Full.serve_all twice store1)
    = [("ann@x.io", VStr c1); ("bob@x.io", VStr c1)]
  ∧ no_double (enrollments (Full.serve_all twice store1)).
Proof.
  split; [reflexivity|].
  apply (full_never_enrolled_twice (H:=node) twice store1).
  apply NoDup_singleton.
Defined.

(** Bob enrolls in [c1] and reviews it; Ann, who has reviewed it, tries
    again: there are two reviews, one each. *)
Lemma full_reviews_stay_single_and_rated_witness :
  review_key <$> reviews (Full.serve_all reviewing store1)
    = [("ann@x.io", c1); ("bob@x.io", c1)]
  ∧ NoDup (review_key <$> reviews (Full.serve_all reviewing store1))
  ∧ Forall (λ r, rating_ok (rating r)) (reviews (Full.serve_all reviewing store1)).
Proof.
  split; [reflexivity|].
  apply (full_reviews_stay_single_and_rated (H:=node) reviewing store1).
  - apply NoDup_singleton.
  - apply Forall_singleton. exists (Qc_of_Z 5). by vm_compute.
Defined.

Lemma store0_no_admin : no_admin (users store0).
Proof.
  intros email. unfold store0, store1. cbn [users with_users].
  destruct (decide (email = "root@x.io")) as [->|Hroot].
  { by rewrite lookup_delete_eq. }
  rewrite lookup_delete_ne by done.
  destruct (decide (email = "teach@x.io")) as [->|Hteach].
  { by rewrite lookup_insert_eq. }
  rewrite lookup_insert_ne by done. by rewrite lookup_insert_ne, lookup_empty.
Qed.

(** Without an admin, the instructor who asks for the admin role stays an
    instructor, and Bob, whose profile names the admin role, is a
    student. *)
Lemma full_no_promotion_without_admin_witness :
  Full.role_of (users (Full.serve_all climbing store0) !! "teach@x.io") = VStr "instructor"
  ∧ Full.role_of (users (Full.serve_all climbing store0) !! "bob@x.io") = VStr "student".
Proof.
  pose proof (proj1 (full_no_promotion_without_admin (H:=node) climbing store0
                       store0_no_admin)) as Hkept.
  split; [exact (eq_trans (Hkept "teach@x.io") eq_refl)
         |exact (eq_trans (Hkept "bob@x.io") eq_refl)].
Defined.

(** An enrollment sent without a cookie. *)
Lemma full_no_token_no_effect_witness :
  Full.handle 20 e2 (Full.PostEnrollment NoToken (enroll_body "bob@x.io" c1))
    (healthy store1)
  = (Reply 401 "Unauthorized: No token provided.", healthy store1).
Proof.
  destruct (full_no_token_no_effect (H:=node) 20 e2
              (Full.PostEnrollment NoToken (enroll_body "bob@x.io" c1))
              (healthy store1) ltac:(intros email; discriminate))
    as (Hconn & Hno & _).
  rewrite (surjective_pairing (Full.handle _ _ _ _)).
  by rewrite Hconn, (Hno eq_refl).
Defined.

(** Bob, a student, posts a course. *)
Lemma full_role_gate_holds_witness :
  data (Full.handle 20 e2 (Full.PostCourse (Token "bob@x.io") course_body)
          (healthy store1)).2 = store1
  ∧ Full.handle 20 e2 (Full.PostCourse (Token "bob@x.io") course_body) (healthy store1)
    = (Reply 403 "Forbidden: Requires Instructor or Admin role.", healthy store1).
Proof.
  split; [|reflexivity].
  apply (full_role_gate_holds (H:=node) 20 e2
           (Full.PostCourse (Token "bob@x.io") course_body) (healthy store1)
           "bob@x.io" ["instructor"; "admin"]); reflexivity.
Defined.

(** The instructor of [c1] sends an update for [c3], which is not theirs. *)
Lemma instructor_touches_only_own_courses_witness :
  courses (data (Full.handle 20 e2
                   (Full.PutCourse (Token "teach@x.io") c3 {["seats" := VNum 0]})
                   (healthy store1)).2) !! c3
  = Some (<["instructorEmail" := VStr "old@x.io"]> (<["seats" := VNum 5]> ∅)).
Proof.
  apply (instructor_touches_only_own_courses (H:=node) 20 e2
           (Full.PutCourse (Token "teach@x.io") c3 {["seats" := VNum 0]})
           (healthy store1) "teach@x.io"); reflexivity.
Defined.

(** Bob enrolls in [c1] and asks again. *)
Lemma enroll_again_is_refused_witness :
  let after := (Full.postEnrollment 20 e2 "bob@x.io" (enroll_body "bob@x.io" c1)
                  (healthy store1)).2 in
  Full.postEnrollment 21 f1 "bob@x.io" (enroll_body "bob@x.io" c1) (healthy (data after))
  = (Reply 400 "Already enrolled", healthy (data after)).
Proof.
  apply (enroll_again_is_refused (H:=node) 20 21 e2 f1 "bob@x.io"
           (enroll_body "bob@x.io" c1) (healthy store1)).
  reflexivity.
Defined.

(** Bob enrolls in [c1] and leaves it again: the store is [store1]. *)
Lemma enroll_then_unenroll_restores_witness :
  Full.deleteEnrollment "bob@x.io" "bob@x.io" c1
    (Full.postEnrollment 20 e2 "bob@x.io" (enroll_body "bob@x.io" c1) (healthy store1)).2
  = (Reply 200 "Unenrolled", healthy store1).
Proof.
  apply (enroll_then_unenroll_restores (H:=node) 20 e2 "bob@x.io" c1
           (enroll_body "bob@x.io" c1) store1 c1
           (course "teach@x.io" "approved" 3 2) 3 2);
    first [ lia | reflexivity
          | repeat split; first [reflexivity | apply Nat.ltb_lt; reflexivity] ].
Defined.

(** The admin makes the instructor an admin; a role patch for Bob, who has
    no record, creates none. *)
Lemma role_patch_takes_effect_witness :
  Full.role_of (users (data (Full.handle 20 e2
      (Full.PatchUserRole (Token "root@x.io") "teach@x.io" {["role" := VStr "admin"]})
      (healthy store1)).2) !! "teach@x.io") = VStr "admin"
  ∧ Full.handle 20 e2
      (Full.PatchUserRole (Token "root@x.io") "bob@x.io" {["role" := VStr "admin"]})
      (healthy store1)
    = (Reply 404 "User not found", healthy store1).
Proof.
  split.
  - refine (proj1 (proj2 (proj2 (role_patch_takes_effect (H:=node) 20 e2 "root@x.io"
      "teach@x.io" "admin" {["role" := VStr "admin"]} store1 _ _ _ _) _)));
      first [discriminate | reflexivity | eexists; reflexivity].
  - refine (proj1 (role_patch_takes_effect (H:=node) 20 e2 "root@x.io"
      "bob@x.io" "admin" {["role" := VStr "admin"]} store1 _ _ _ _) _);
      first [discriminate | reflexivity].
Defined.

(** The instructor posts a course; Bob asks for it at once. *)
Lemma new_course_waits_for_approval_witness :
  let created := Full.postCourse 20 f1 (VStr "instructor") "teach@x.io" course_body
                   (healthy store1) in
  created.1 = ReplyId 201 "Course added, pending approval." f1
  ∧ code (Full.postEnrollment 21 f2 "bob@x.io" (enroll_body "bob@x.io" f1)
            created.2).1 ≠ 201.
Proof.
  intros created. split; [reflexivity|].
  refine (proj2 (proj2 (new_course_waits_for_approval (H:=node) 20 21 f1 f2
    (VStr "instructor") "teach@x.io" "bob@x.io" course_body (enroll_body "bob@x.io" f1)
    (healthy store1) created.2 _ _ _))); reflexivity.
Defined.

(** A guest asks for [c1], which is approved and has Ann's review, and for
    [c4], which is pending. *)
Lemma single_course_agrees_with_list_witness :
  (∃ d', (getCourse (H0:=engine) NoToken c1 (healthy store1)).1 = Sent d'
         ∧ d' !! "reviewCount" = Some (VNum 1))
  ∧ (getCourse (H0:=engine) NoToken c4 (healthy store1)).1
    = Refused (Reply 404 "Course not found or not available.").
Proof.
  split; [|reflexivity].
  destruct (single_course_agrees_with_list (H:=node) (H0:=engine) NoToken c1 c1 store1
              eq_refl) as (l & _ & Hone).
  assert (Hsent : (getCourse (H0:=engine) NoToken c1 (healthy store1)).1
                  = Sent (with_review_fields [ann_on_c1]
                            (course "teach@x.io" "approved" 3 2))) by reflexivity.
  rewrite Hsent in Hone. destruct Hone as (d & _ & _ & Hcount & _).
  eexists. split; [exact Hsent|exact Hcount].
Defined.

(** Bob enrolls in [c1] and asks for his status. *)
Lemma enrolled_status_after_enroll_witness :
  let after := (Full.postEnrollment 20 e2 "bob@x.io" (enroll_body "bob@x.io" c1)
                  (healthy store1)).2 in
  getEnrolledStatus "bob@x.io" (Some "bob@x.io") (Some c1) (healthy (data after))
  = (Sent (true, Some e2), healthy (data after)).
Proof.
  apply (enrolled_status_after_enroll (H:=node) 20 e2 "bob@x.io" c1
           (enroll_body "bob@x.io" c1) (healthy store1)); reflexivity.
Defined.

(** On the legacy server Bob asks for [c1] twice and then lowers its
    seats: he holds one enrollment. *)
Lemma legacy_keeps_quota_and_uniqueness_witness :
  pair_of <$> enrollments (legacy_serve_all legacy_twice store1)
    = [("ann@x.io", VStr c1); ("bob@x.io", VStr c1)]
  ∧ within_quota (enrollments (legacy_serve_all legacy_twice store1))
  ∧ no_double (enrollments (legacy_serve_all legacy_twice store1)).
Proof.
  split; [reflexivity|].
  apply (legacy_keeps_quota_and_uniqueness (H:=node) legacy_twice store1).
  - intros email. unfold count_for, store1. cbn [enrollments List.filter].
    destruct (String.eqb _ email); simpl; lia.
  - apply NoDup_singleton.
Defined.

(** A seat adjustment by 0 on [c1]. *)
Lemma legacy_zero_increment_is_404_witness :
  Legacy.patchSeats c1 {["increment" := VNum 0]} (healthy store1)
  = (Reply 404 "Course not found or seat not updated", healthy store1).
Proof.
  apply (legacy_zero_increment_is_404 (H:=node) c1 c1 store1
           (course "teach@x.io" "approved" 3 2) 3); reflexivity.
Defined.

(** Bob, who has no record, sends his profile, with a role in it: the
    answer is 201 and the profile read back shows his name and the role
    ['student']. *)
Lemma profile_update_is_read_back_witness :
  let out := Full.putUser 20 "bob@x.io" "bob@x.io" profile_body (healthy store1) in
  ∃ d, getUser "bob@x.io" "bob@x.io" (healthy (data out.2)) = (Sent d, healthy (data out.2))
       ∧ d !! "name" = Some (VStr "Bob")
       ∧ Full.role_of (Some d) = VStr "student"
       ∧ code out.1 = 201.
Proof.
  intros out.
  destruct (profile_update_is_read_back (H:=node) 20 "bob@x.io" profile_body store1
              eq_refl eq_refl) as (d & Hget & Hname & _ & Hrole & Hnew & _).
  exists d. split_and!; [exact Hget|exact Hname|exact Hrole|exact (proj1 (Hnew eq_refl))].
Defined.

(** The admin approves [c4]: it becomes visible and open for enrollment. *)
Lemma status_patch_takes_effect_witness :
  let out := Full.handle 30 e2
               (Full.PatchCourseStatus (Token "root@x.io") c4
                  {["status" := VStr "approved"]}) (healthy store1) in
  out.1 = Reply 200 "Status updated to approved"
  ∧ ∃ d', courses (data out.2) !! c4 = Some d' ∧ visible d' = true
          ∧ not_approved d' = false.
Proof.
  intros out.
  destruct (status_patch_takes_effect (H:=node) 30 e2 "root@x.io" c4 "approved"
              {["status" := VStr "approved"]} store1 c4
              (course "teach@x.io" "pending" 4 0)
              ltac:(discriminate) ltac:(reflexivity) ltac:(reflexivity)
              ltac:(reflexivity) ltac:(reflexivity) ltac:(reflexivity))
    as (Hanswer & d' & Hd' & _ & _ & Hvisible & Hopen).
  split; [exact Hanswer|]. exists d'. split_and!; [exact Hd'|exact Hvisible|exact Hopen].
Defined.

(** Bob enrolls in [c1]: Ann's enrollment and review, and the records of
    the instructor and the admin, are as they were. *)
Lemma own_data_only_witness :
  others_kept "bob@x.io" store1
    (data (Full.handle 20 e2
             (Full.PostEnrollment (Token "bob@x.io") (enroll_body "bob@x.io" c1))
             (healthy store1)).2).
Proof.
  apply (own_data_only (H:=node) 20 e2
           (Full.PostEnrollment (Token "bob@x.io") (enroll_body "bob@x.io" c1))
           (healthy store1) "bob@x.io"); reflexivity.
Defined.

(** Bob enrolls in [c1] and the storage fails at the seat claim: his record
    is there, [c1] still has its 3 seats. *)
Lemma enroll_failure_after_insert_leaves_record_witness :
  Full.postEnrollment 20 e2 "bob@x.io" (enroll_body "bob@x.io" c1)
    {| budget := Some 4%nat; data := store1 |}
  = (Reply 500 "Enrollment failed",
     {| budget := Some 0%nat;
        data := with_enrollments (λ l, (l ++ [bob_record c1])%list) store1 |}).
Proof.
  apply (enroll_failure_after_insert_leaves_record (H:=node) 20 e2 "bob@x.io"
           (enroll_body "bob@x.io" c1) store1); reflexivity.
Defined.

(** A guest lists the courses of [store1]: [c1], approved, is there; [c4],
    pending, is not. *)
Lemma course_list_shows_only_visible_witness :
  match (getCourses (H0:=engine) NoToken None None (healthy store1)).1 with
  | Sent l => (c1, course "teach@x.io" "approved" 3 2) ∈ l
              ∧ (c4, course "teach@x.io" "pending" 4 0) ∉ l
  | Refused _ => False
  end.
Proof.
  pose proof (course_list_shows_only_visible (H:=node) (H0:=engine)
                NoToken None None (healthy store1)) as Hlist.
  cbv zeta in Hlist. destruct Hlist as [_ Hlist].
  assert (∃ l, (getCourses (H0:=engine) NoToken None None (healthy store1)).1 = Sent l)
    as [l Hsent] by (eexists; reflexivity).
  rewrite Hsent in Hlist |- *.
  destruct Hlist as [Hsound Hcomplete]. split.
  - apply (Hcomplete eq_refl eq_refl); reflexivity.
  - intros Hin. destruct (Hsound _ _ Hin) as [_ Hvisible].
    specialize (Hvisible ltac:(intros e; discriminate)). discriminate Hvisible.
Defined.

(** The popular courses of [store1]: at most six, and [c4], pending, is not
    among them. *)
Lemma popular_courses_are_visible_witness :
  match (getPopularCourses (H0:=engine) (healthy store1)).1 with
  | Sent l => (length l ≤ 6)%nat
              ∧ (c4, popular_entry (course "teach@x.io" "pending" 4 0)) ∉ l
  | Refused _ => False
  end.
Proof.
  pose proof (popular_courses_are_visible (H:=node) (H0:=engine)
                (healthy store1)) as Hlist.
  cbv zeta in Hlist. destruct Hlist as [_ Hlist].
  assert (∃ l, (getPopularCourses (H0:=engine) (healthy store1)).1 = Sent l)
    as [l Hsent] by (eexists; reflexivity).
  rewrite Hsent in Hlist |- *.
  destruct Hlist as (Hlen & _ & Hsound & _). split; [exact Hlen|].
  intros Hin. destruct (Hsound _ _ Hin) as (d & Hd & Hvisible & _).
  assert (Hpending : Some d = Some (course "teach@x.io" "pending" 4 0))
    by exact (eq_trans (eq_sym Hd) eq_refl).
  injection Hpending as ->. discriminate Hvisible.
Defined.

(** The admin reads their own profile; Bob asks for it and is refused. *)
Lemma profile_shows_resolved_role_witness :
  (∃ d, (Queries.with_role (Token "root@x.io") (λ decoded _, getUser decoded "root@x.io")
           (healthy store1)).1 = Sent d
        ∧ Full.role_of (Some d) = VStr "admin")
  ∧ (Queries.with_role (Token "bob@x.io") (λ decoded _, getUser decoded "root@x.io")
       (healthy store1)).1 = Refused (Reply 403 "Forbidden").
Proof.
  split; [|reflexivity].
  pose proof (profile_shows_resolved_role (H:=node) (Token "root@x.io")
                "root@x.io" (healthy store1)) as Hprofile.
  cbv zeta in Hprofile. destruct Hprofile as [_ Hprofile].
  assert (Hsent : (Queries.with_role (Token "root@x.io")
                     (λ decoded _, getUser decoded "root@x.io") (healthy store1)).1
                  = Sent {["role" := VStr "admin"]}) by reflexivity.
  rewrite Hsent in Hprofile. destruct Hprofile as (_ & Hrole & _).
  eexists. split; [exact Hsent|exact Hrole].
Defined.

(** Bob asks to pay for [c5], priced at 30, in which he is not enrolled. *)
Lemma payment_intent_is_guarded_witness :
  (createPaymentIntent (H0:=engine) "bob@x.io" {["courseId" := VStr c5]}
     (healthy store1_priced)).1 = Sent "pi_secret_for_bob@x.io"
  ∧ has_enrollment store1_priced "bob@x.io" (VStr c5) = false.
Proof.
  pose proof (payment_intent_is_guarded (H:=node) (H0:=engine) "bob@x.io"
                {["courseId" := VStr c5]} (healthy store1_priced)) as Hpay.
  cbv zeta in Hpay. destruct Hpay as [_ Hpay].
  assert (Hsent : (createPaymentIntent (H0:=engine) "bob@x.io" {["courseId" := VStr c5]}
                     (healthy store1_priced)).1 = Sent "pi_secret_for_bob@x.io")
    by reflexivity.
  rewrite Hsent in Hpay.
  destruct Hpay as (oid & d & _ & _ & _ & _ & _ & _ & Hfree & _).
  split; [exact Hsent|exact Hfree].
Defined.

(** Ann, enrolled in [c1] and with a review of it, reviews it again; Bob,
    not enrolled, reviews it. *)
Lemma review_needs_enrollment_witness :
  Full.postReview 22 f2 "ann@x.io" c1 (review_body 4 "fine") (healthy store1)
    = (Reply 400 "Already reviewed", healthy store1)
  ∧ data (Full.postReview 22 f2 "bob@x.io" c1 (review_body 4 "fine") (healthy store1)).2
    = store1.
Proof.
  split; [reflexivity|].
  apply (proj1 (review_needs_enrollment (H:=node) 22 f2 "bob@x.io" c1
                  (review_body 4 "fine") (healthy store1))).
  discriminate.
Defined.

(** The instructor posts a course in the name of somebody else. *)
Lemma instructor_owns_created_course_witness :
  ∃ d, data (Full.handle 20 f1
               (Full.PostCourse (Token "teach@x.io")
                  (<["instructorEmail" := VStr "old@x.io"]> course_body))
               (healthy store1)).2 = with_courses <[f1 := d]> store1
       ∧ d !! "instructorEmail" = Some (VStr "teach@x.io").
Proof.
  destruct (proj2 (instructor_owns_created_course (H:=node) 20 f1 "teach@x.io"
                     (<["instructorEmail" := VStr "old@x.io"]> course_body)
                     (healthy store1) ltac:(reflexivity)) ltac:(reflexivity))
    as (d & Hd & _ & Howner).
  exists d. split; [exact Hd|exact Howner].
Defined.

End MoreExamples.
